(** * Epistemic risk detector: a shallow embedding of the analysis pipeline

    The development follows the Python sources module by module:

    - [PyStr]   the [str] methods the code calls ([lower], [strip], [split],
                [find], [rfind], slicing);
    - [Re]      the fragment of Python's [re] the code's patterns use, as a
                backtracking matcher with [search] and [findall];
    - src/core/schemas.py: the enums, and each pydantic model as a record
                in a module of its name, with the field checks that raise
                [ValidationError];
    - the configuration records of src/core/config.py that the pipeline
                reads, each in a module of its name;
    - [Alignment]  src/evaluators/alignment.py;
    - [Calibrator] src/calibrators/confidence.py, and [Calibrator64], the
                body of [calibrate] on binary64 values;
    - [Engine]     src/verdict/engine.py;
    - [Retriever]  src/retrievers/local_vector.py;
    - [Extractor]  src/extractors/claim_extractor.py;
    - [Pipeline]   the per-claim body of src/pipeline.py;
    - [Detector]   [analyze] of src/pipeline.py, over [AnalysisResult];
    - [StructuredRenderer] the counts and the highlights of
                src/renderers/structured.py;
    - [Fixtures]   tests/conftest.py, [Samples], and [Replay], the unit tests
                run on the embedding.

    Conventions.  Text is ASCII: a Python [str] is a [string] whose characters
    are below 128.  Python [float]s are modelled by exact rationals [Q]; every
    statement about scores is a statement about that exact arithmetic, and
    where rounding decides, as in the accounting of the penalties, the
    statement is made of [Calibrator64].  Code that can raise returns a
    [result]; the LLM, the sentence encoder and SHA-256 are collaborators
    outside the repository and enter as arguments.  A row of the store is
    modelled without its [metadata] column, so the statements on [retrieve]
    concern the calls that return and the errors of the other columns. *)

From Stdlib Require Import Bool Arith ZArith QArith Lqa Lia List Sorted String Ascii
  DecimalString.
From Stdlib Require PrimFloat.
Import ListNotations.

Open Scope string_scope.
Open Scope Z_scope.

(* ================================================================== *)
(** * Exceptions and the result monad *)

Inductive exn : Type :=
| ValueError
| ValidationError
| KeyError
| OracleError (msg : string).

Inductive result (A : Type) : Type :=
| Ok (a : A)
| Raise (e : exn).

Arguments Ok {A} a.
Arguments Raise {A} e.

Definition bind {A B : Type} (m : result A) (f : A -> result B) : result B :=
  match m with
  | Ok a => f a
  | Raise e => Raise e
  end.

Notation "x <- m ;; k" := (bind m (fun x => k))
  (at level 61, m at next level, right associativity).

Definition is_ok {A : Type} (m : result A) : bool :=
  match m with Ok _ => true | Raise _ => false end.

(** [try: m except: h] of Python, for a handler that ignores the exception
    class. *)
Definition try_except {A : Type} (m : result A) (h : exn -> result A) : result A :=
  match m with
  | Ok a => Ok a
  | Raise e => h e
  end.

(* ================================================================== *)
(** * Rational helpers: Python's comparisons, [min] and [max] on floats *)

Definition Qleb (a b : Q) : bool := Qle_bool a b.
Definition Qltb (a b : Q) : bool := negb (Qle_bool b a).
Definition Qgtb (a b : Q) : bool := Qltb b a.
Definition Qgeb (a b : Q) : bool := Qleb b a.

(** [min(a, b)] and [max(a, b)]: the first argument wins ties. *)
Definition py_min (a b : Q) : Q := if Qltb b a then b else a.
Definition py_max (a b : Q) : Q := if Qgtb b a then b else a.

(** pydantic's [Field(..., ge=0.0, le=1.0)]. *)
Definition in_unit (x : Q) : bool := Qleb 0 x && Qleb x 1.

Fixpoint Qsum (l : list Q) : Q :=
  match l with
  | [] => 0%Q
  | x :: l' => (x + Qsum l')%Q
  end.

(* ================================================================== *)
(** * Python strings *)

Module PyStr.

Definition chars (s : string) : list ascii := list_ascii_of_string s.
Definition of_chars (l : list ascii) : string := string_of_list_ascii l.

Definition len (s : string) : Z := Z.of_nat (String.length s).

Definition code (c : ascii) : nat := nat_of_ascii c.

Definition is_upper (c : ascii) : bool := (65 <=? code c)%nat && (code c <=? 90)%nat.
Definition is_lower (c : ascii) : bool := (97 <=? code c)%nat && (code c <=? 122)%nat.
Definition is_digit (c : ascii) : bool := (48 <=? code c)%nat && (code c <=? 57)%nat.
Definition is_alpha (c : ascii) : bool := is_upper c || is_lower c.

(** [\w] on ASCII text: letters, digits and the underscore. *)
Definition is_word (c : ascii) : bool :=
  is_alpha c || is_digit c || (code c =? 95)%nat.

(** [str.isspace] on ASCII text, which is also [\s]: TAB, LF, VT, FF, CR,
    the four separators FS, GS, RS, US and the space. *)
Definition is_space (c : ascii) : bool :=
  ((9 <=? code c)%nat && (code c <=? 13)%nat)
  || ((28 <=? code c)%nat && (code c <=? 32)%nat).

Definition lower_char (c : ascii) : ascii :=
  if is_upper c then ascii_of_nat (code c + 32) else c.

Definition lower (s : string) : string := of_chars (map lower_char (chars s)).

(** *** Slicing: [s[lo:hi]] with Python's treatment of negative and
    out-of-range bounds *)

Definition clamp_index (n : Z) (i : Z) : nat :=
  Z.to_nat (if i <? 0 then Z.max 0 (n + i) else Z.min i n).

Definition slice_list {A : Type} (l : list A) (lo hi : Z) : list A :=
  let n := Z.of_nat (List.length l) in
  let a := clamp_index n lo in
  let b := clamp_index n hi in
  firstn (b - a) (skipn a l).

Definition slice (s : string) (lo hi : Z) : string :=
  of_chars (slice_list (chars s) lo hi).

(** [s[lo:]] and [s[:hi]]. *)
Definition slice_from (s : string) (lo : Z) : string := slice s lo (len s).
Definition slice_to_list {A : Type} (l : list A) (hi : Z) : list A :=
  slice_list l 0 hi.

(** *** [strip] and [split] on whitespace *)

Fixpoint lstrip_chars (l : list ascii) : list ascii :=
  match l with
  | c :: l' => if is_space c then lstrip_chars l' else l
  | [] => []
  end.

Definition strip_chars (l : list ascii) : list ascii :=
  rev (lstrip_chars (rev (lstrip_chars l))).

Definition strip (s : string) : string := of_chars (strip_chars (chars s)).

(** [s.split()]: maximal runs of non-whitespace characters, in order. *)
Fixpoint split_chars (cur : list ascii) (l : list ascii) : list (list ascii) :=
  match l with
  | [] => match cur with [] => [] | _ => [rev cur] end
  | c :: l' =>
      if is_space c
      then match cur with
           | [] => split_chars [] l'
           | _ => rev cur :: split_chars [] l'
           end
      else split_chars (c :: cur) l'
  end.

Definition split (s : string) : list string :=
  map of_chars (split_chars [] (chars s)).

(** *** [find] and [rfind] *)

Fixpoint starts_with (p l : list ascii) : bool :=
  match p, l with
  | [], _ => true
  | _ :: _, [] => false
  | a :: p', b :: l' => Ascii.eqb a b && starts_with p' l'
  end.

(** Lowest index [i >= pos] at which [p] occurs in [l] (the list is the
    text from offset [pos] on). *)
Fixpoint find_from (p l : list ascii) (pos : nat) : option nat :=
  if starts_with p l then Some pos
  else match l with
       | [] => None
       | _ :: l' => find_from p l' (S pos)
       end.

(** [s.find(sub)]: lowest index of [sub] in [s], or -1. *)
Definition find (s sub : string) : Z :=
  match find_from (chars sub) (chars s) 0 with
  | Some i => Z.of_nat i
  | None => -1
  end.

(** Highest index at which [p] occurs in [l], offsets counted from [pos]. *)
Fixpoint rfind_from (p l : list ascii) (pos : nat) : option nat :=
  match l with
  | [] => if starts_with p [] then Some pos else None
  | _ :: l' =>
      match rfind_from p l' (S pos) with
      | Some i => Some i
      | None => if starts_with p l then Some pos else None
      end
  end.

(** [s.rfind(sub, lo, hi)]: highest index [i] with [sub] inside
    [s[lo:hi]] at [i], or -1. *)
Definition rfind (s sub : string) (lo hi : Z) : Z :=
  let n := len s in
  let a := clamp_index n lo in
  let b := clamp_index n hi in
  match rfind_from (chars sub) (firstn (b - a) (skipn a (chars s))) a with
  | Some i => Z.of_nat i
  | None => -1
  end.

(** Membership of a string in a list of strings, and Python's [set]
    operations as far as the code uses them: truthiness, intersection and
    cardinality. *)
Definition mem (x : string) (l : list string) : bool :=
  existsb (String.eqb x) l.

Fixpoint dedup (l : list string) : list string :=
  match l with
  | [] => []
  | x :: l' => if mem x l' then dedup l' else x :: dedup l'
  end.

Definition inter (a b : list string) : list string :=
  filter (fun x => mem x b) (dedup a).

Definition nonempty {A : Type} (l : list A) : bool :=
  match l with [] => false | _ => true end.

End PyStr.

(* ================================================================== *)
(** * The fragment of Python's [re] that the patterns use

    A pattern is a term of [regex]; matching is backtracking with Python's
    priorities: the left branch of an alternation first, greedy repetition,
    the leftmost match.  Only one capturing group occurs in the sources
    ([YEAR_PATTERN]), so a match carries the text of at most one group. *)

Module Re.
Import PyStr.

Inductive regex : Type :=
| Eps
| Chr (p : ascii -> bool)
| WordB
| Seq (r1 r2 : regex)
| Alt (r1 r2 : regex)
| Star (r : regex)
| Group (r : regex).

(** A position in the subject: the character before it, the text from it
    on, and its offset. *)
Record cursor : Type := mkCursor {
  prev : option ascii;
  rest : list ascii;
  pos : nat
}.

Definition word_opt (c : option ascii) : bool :=
  match c with Some x => is_word x | None => false end.

(** [\b]: exactly one of the two neighbours is a word character. *)
Definition at_boundary (cu : cursor) : bool :=
  xorb (word_opt (prev cu)) (word_opt (hd_error (rest cu))).

Definition outcome : Type := (cursor * option (list ascii))%type.
Definition cont : Type := cursor -> option (list ascii) -> option outcome.

Fixpoint run (r : regex) (cu : cursor) (cap : option (list ascii)) (k : cont)
  {struct r} : option outcome :=
  match r with
  | Eps => k cu cap
  | Chr p =>
      match rest cu with
      | c :: l => if p c then k (mkCursor (Some c) l (S (pos cu))) cap else None
      | [] => None
      end
  | WordB => if at_boundary cu then k cu cap else None
  | Seq r1 r2 => run r1 cu cap (fun cu' cap' => run r2 cu' cap' k)
  | Alt r1 r2 =>
      match run r1 cu cap k with
      | Some o => Some o
      | None => run r2 cu cap k
      end
  | Star r1 =>
      (fix loop (n : nat) (cu0 : cursor) (cap0 : option (list ascii))
         : option outcome :=
         match n with
         | O => k cu0 cap0
         | S n' =>
             match run r1 cu0 cap0
                     (fun cu' cap' =>
                        if (pos cu0 <? pos cu')%nat then loop n' cu' cap' else None)
             with
             | Some o => Some o
             | None => k cu0 cap0
             end
         end) (S (List.length (rest cu))) cu cap
  | Group r1 =>
      run r1 cu cap
        (fun cu' _ => k cu' (Some (firstn (pos cu' - pos cu) (rest cu))))
  end.

Fixpoint has_group (r : regex) : bool :=
  match r with
  | Eps | Chr _ | WordB => false
  | Seq r1 r2 | Alt r1 r2 => has_group r1 || has_group r2
  | Star r1 => has_group r1
  | Group _ => true
  end.

(** *** Pattern syntax *)

Definition Opt (r : regex) : regex := Alt r Eps.
Definition Plus (r : regex) : regex := Seq r (Star r).

Fixpoint seqs (l : list regex) : regex :=
  match l with
  | [] => Eps
  | [r] => r
  | r :: l' => Seq r (seqs l')
  end.

(** [r1|r2|...|rn]; the list is not empty in any use. *)
Fixpoint alts (l : list regex) : regex :=
  match l with
  | [] => Eps
  | [r] => r
  | r :: l' => Alt r (alts l')
  end.

(** [r{n}] and the greedy [r{lo,hi}]. *)
Fixpoint times (n : nat) (r : regex) : regex :=
  match n with
  | O => Eps
  | S n' => Seq r (times n' r)
  end.

Fixpoint upto (n : nat) (r : regex) : regex :=
  match n with
  | O => Eps
  | S n' => Opt (Seq r (upto n' r))
  end.

Definition between (lo hi : nat) (r : regex) : regex :=
  Seq (times lo r) (upto (hi - lo) r).

Definition digit : regex := Chr is_digit.
Definition wordc : regex := Chr is_word.
Definition space : regex := Chr is_space.

(** One literal character; [ic] is [re.IGNORECASE]. *)
Definition lit_char (ic : bool) (c : ascii) : regex :=
  Chr (fun x => if ic then Ascii.eqb (lower_char x) (lower_char c)
                else Ascii.eqb x c).

Definition lit (ic : bool) (s : string) : regex :=
  seqs (map (lit_char ic) (chars s)).

(** [(?:w1|w2|...)] for literal words. *)
Definition words (ic : bool) (l : list string) : regex :=
  alts (map (lit ic) l).

(** One of the characters of [s]: [[...]]. *)
Definition one_of (s : string) : regex :=
  Chr (fun x => existsb (Ascii.eqb x) (chars s)).

(** *** [search] and [findall] *)

Record match_ : Type := mkMatch {
  m_start : nat;
  m_end : nat;
  m_text : list ascii;
  m_group : option (list ascii)
}.

Definition match_at (r : regex) (p : option ascii) (l : list ascii) (i : nat)
  : option match_ :=
  match run r (mkCursor p l i) None (fun cu cap => Some (cu, cap)) with
  | Some (cu, cap) => Some (mkMatch i (pos cu) (firstn (pos cu - i) l) cap)
  | None => None
  end.

Fixpoint search_at (r : regex) (p : option ascii) (l : list ascii) (i : nat)
  : option match_ :=
  match match_at r p l i with
  | Some m => Some m
  | None =>
      match l with
      | [] => None
      | c :: l' => search_at r (Some c) l' (S i)
      end
  end.

(** [re.search(r, s)]. *)
Definition search (r : regex) (s : string) : option match_ :=
  search_at r None (chars s) 0.

(** [bool(re.search(r, s))]. *)
Definition found (r : regex) (s : string) : bool :=
  match search r s with Some _ => true | None => false end.

(** Successive non-overlapping matches, left to right.  [skip] counts the
    characters still covered by the previous match.  The patterns given to
    [findall] in the sources match no empty string. *)
Fixpoint matches_at (r : regex) (p : option ascii) (l : list ascii) (i : nat)
  (skip : nat) : list match_ :=
  match l with
  | [] =>
      match skip, match_at r p [] i with
      | O, Some m => [m]
      | _, _ => []
      end
  | c :: l' =>
      match skip with
      | S skip' => matches_at r (Some c) l' (S i) skip'
      | O =>
          match match_at r p l i with
          | Some m => m :: matches_at r (Some c) l' (S i) (m_end m - i - 1)
          | None => matches_at r (Some c) l' (S i) 0
          end
      end
  end.

(** [re.findall(r, s)]: the text of the group when the pattern has one,
    of the whole match otherwise. *)
Definition findall (r : regex) (s : string) : list string :=
  map (fun m =>
         if has_group r
         then match m_group m with
              | Some g => of_chars g
              | None => ""
              end
         else of_chars (m_text m))
      (matches_at r None (chars s) 0 0).

End Re.

(* ================================================================== *)
(** * src/core/schemas.py

    Each pydantic model is a record in a module of its name, with [new] its
    validating constructor: [new] raises [ValidationError] exactly when a
    [Field] bound or a [field_validator] rejects the arguments.  The
    [metadata] dictionaries, which no computation reads, are left out. *)

Inductive AlignmentLabel : Type := SUPPORTS | WEAK_SUPPORT | CONTRADICTS | IRRELEVANT.

Inductive VerdictLabel : Type := GROUNDED | WEAK | HALLUCINATED.

Inductive ClaimType : Type :=
  DIRECT | HEDGED | MULTI_HOP | TEMPORAL | COMPARATIVE | QUANTITATIVE.

Inductive ContradictionType : Type :=
  NONE | DIRECT_NEGATION | TEMPORAL_MISMATCH | QUANTITATIVE_MISMATCH
| OUTDATED_EVIDENCE | PARTIAL_OVERLAP.

Definition AlignmentLabel_eqb (a b : AlignmentLabel) : bool :=
  match a, b with
  | SUPPORTS, SUPPORTS | WEAK_SUPPORT, WEAK_SUPPORT
  | CONTRADICTS, CONTRADICTS | IRRELEVANT, IRRELEVANT => true
  | _, _ => false
  end.

Definition ContradictionType_eqb (a b : ContradictionType) : bool :=
  match a, b with
  | NONE, NONE | DIRECT_NEGATION, DIRECT_NEGATION
  | TEMPORAL_MISMATCH, TEMPORAL_MISMATCH
  | QUANTITATIVE_MISMATCH, QUANTITATIVE_MISMATCH
  | OUTDATED_EVIDENCE, OUTDATED_EVIDENCE | PARTIAL_OVERLAP, PARTIAL_OVERLAP => true
  | _, _ => false
  end.

Definition ClaimType_eqb (a b : ClaimType) : bool :=
  match a, b with
  | DIRECT, DIRECT | HEDGED, HEDGED | MULTI_HOP, MULTI_HOP
  | TEMPORAL, TEMPORAL | COMPARATIVE, COMPARATIVE
  | QUANTITATIVE, QUANTITATIVE => true
  | _, _ => false
  end.

(** [AlignmentLabel(s)], [ContradictionType(s)], [ClaimType(s)]: the enum
    member of that value, or [ValueError]. *)
Definition AlignmentLabel_of (s : string) : result AlignmentLabel :=
  if String.eqb s "SUPPORTS" then Ok SUPPORTS
  else if String.eqb s "WEAK_SUPPORT" then Ok WEAK_SUPPORT
  else if String.eqb s "CONTRADICTS" then Ok CONTRADICTS
  else if String.eqb s "IRRELEVANT" then Ok IRRELEVANT
  else Raise ValueError.

Definition ContradictionType_of (s : string) : result ContradictionType :=
  if String.eqb s "NONE" then Ok NONE
  else if String.eqb s "DIRECT_NEGATION" then Ok DIRECT_NEGATION
  else if String.eqb s "TEMPORAL_MISMATCH" then Ok TEMPORAL_MISMATCH
  else if String.eqb s "QUANTITATIVE_MISMATCH" then Ok QUANTITATIVE_MISMATCH
  else if String.eqb s "OUTDATED_EVIDENCE" then Ok OUTDATED_EVIDENCE
  else if String.eqb s "PARTIAL_OVERLAP" then Ok PARTIAL_OVERLAP
  else Raise ValueError.

Definition ClaimType_of (s : string) : result ClaimType :=
  if String.eqb s "DIRECT" then Ok DIRECT
  else if String.eqb s "HEDGED" then Ok HEDGED
  else if String.eqb s "MULTI_HOP" then Ok MULTI_HOP
  else if String.eqb s "TEMPORAL" then Ok TEMPORAL
  else if String.eqb s "COMPARATIVE" then Ok COMPARATIVE
  else if String.eqb s "QUANTITATIVE" then Ok QUANTITATIVE
  else Raise ValueError.

Module Claim.
Record t : Type := mk {
  id : string;
  text : string;
  source_span : Z * Z;
  raw_confidence : Q;
  is_factual : bool;
  claim_type : ClaimType;
  extraction_confidence : Q;
  hedging_detected : bool
}.

(** [validate_span]: raises when [v[0] > v[1]]. *)
Definition validate_span (v : Z * Z) : result (Z * Z) :=
  if fst v >? snd v then Raise ValueError else Ok v.

Definition valid (c : t) : bool :=
  (1 <=? PyStr.len (text c))
  && is_ok (validate_span (source_span c))
  && in_unit (raw_confidence c)
  && in_unit (extraction_confidence c).

Definition new (id : string) (text : string) (source_span : Z * Z)
  (raw_confidence : Q) (is_factual : bool) (claim_type : ClaimType)
  (extraction_confidence : Q) (hedging_detected : bool) : result t :=
  let c := mk id text source_span raw_confidence is_factual claim_type
              extraction_confidence hedging_detected in
  if valid c then Ok c else Raise ValidationError.
End Claim.

Module EvidenceChunk.
Record t : Type := mk {
  id : string;
  text : string;
  source : string;
  similarity_score : Q;
  chunk_index : Z
}.

Definition valid (e : t) : bool :=
  (1 <=? PyStr.len (text e))
  && in_unit (similarity_score e)
  && (0 <=? chunk_index e).

Definition new (id text source : string) (similarity_score : Q)
  (chunk_index : Z) : result t :=
  let e := mk id text source similarity_score chunk_index in
  if valid e then Ok e else Raise ValidationError.
End EvidenceChunk.

Module AlignmentResult.
Record t : Type := mk {
  claim_id : string;
  evidence_id : string;
  label : AlignmentLabel;
  confidence : Q;
  explanation : string;
  temporal_match : bool;
  semantic_score : Q;
  logical_score : Q;
  contradiction_type : ContradictionType;
  negation_detected : bool;
  evidence_date : option string;
  claim_date : option string
}.

Definition valid (a : t) : bool :=
  in_unit (confidence a) && in_unit (semantic_score a)
  && in_unit (logical_score a).

Definition new (claim_id evidence_id : string) (label : AlignmentLabel)
  (confidence : Q) (explanation : string) (temporal_match : bool)
  (semantic_score logical_score : Q) (contradiction_type : ContradictionType)
  (negation_detected : bool) (evidence_date claim_date : option string)
  : result t :=
  let a := mk claim_id evidence_id label confidence explanation
              temporal_match semantic_score logical_score
              contradiction_type negation_detected evidence_date claim_date in
  if valid a then Ok a else Raise ValidationError.
End AlignmentResult.

Module CalibratedConfidence.
Record t : Type := mk {
  claim_id : string;
  raw_confidence : Q;
  calibrated_confidence : Q;
  penalties_applied : list string;
  penalty_breakdown : list (string * Q)
}.

Definition valid (c : t) : bool :=
  in_unit (raw_confidence c) && in_unit (calibrated_confidence c).

Definition new (claim_id : string) (raw_confidence calibrated_confidence : Q)
  (penalties_applied : list string) (penalty_breakdown : list (string * Q))
  : result t :=
  let c := mk claim_id raw_confidence calibrated_confidence
              penalties_applied penalty_breakdown in
  if valid c then Ok c else Raise ValidationError.
End CalibratedConfidence.

(** A piece of an f-string: literal text, a float under [:.2f], or an
    integer.  Explanations are kept as the pieces they are built from. *)
Inductive fragment : Type :=
| Text (s : string)
| Float2f (q : Q)
| Int (n : Z).

Module Verdict.
Record t : Type := mk {
  claim : Claim.t;
  label : VerdictLabel;
  hallucination_risk : Q;
  evidence_strength : Q;
  calibrated_confidence : CalibratedConfidence.t;
  alignments : list AlignmentResult.t;
  best_evidence : option EvidenceChunk.t;
  contradiction_detected : bool;
  explanation : list fragment
}.

Definition valid (v : t) : bool :=
  in_unit (hallucination_risk v) && in_unit (evidence_strength v).

Definition new (claim : Claim.t) (label : VerdictLabel)
  (hallucination_risk evidence_strength : Q)
  (calibrated_confidence : CalibratedConfidence.t)
  (alignments : list AlignmentResult.t)
  (best_evidence : option EvidenceChunk.t) (contradiction_detected : bool)
  (explanation : list fragment) : result t :=
  let v := mk claim label hallucination_risk evidence_strength
              calibrated_confidence alignments best_evidence
              contradiction_detected explanation in
  if valid v then Ok v else Raise ValidationError.
End Verdict.

(** A Python [dict] with string keys, in insertion order: [d[k] = v]
    replaces the value of a present key and appends an absent one. *)
Fixpoint dict_set {V : Type} (d : list (string * V)) (k : string) (v : V)
  : list (string * V) :=
  match d with
  | [] => [(k, v)]
  | (k', v') :: d' =>
      if String.eqb k' k then (k, v) :: d' else (k', v') :: dict_set d' k v
  end.

Definition dict_values {V : Type} (d : list (string * V)) : list V := map snd d.

Definition dict_keys {V : Type} (d : list (string * V)) : list string := map fst d.

(* ================================================================== *)
(** * src/core/config.py *)

Module RetrievalConfig.
Record t : Type := mk {
  chunk_size : Z;
  chunk_overlap : Z;
  top_k : Z;
  similarity_threshold : Q
}.
Definition default : t := mk 512 64 5 0.3.
Definition valid (c : t) : bool :=
  (0 <? chunk_size c) && (0 <=? chunk_overlap c) && (0 <? top_k c)
  && in_unit (similarity_threshold c).
End RetrievalConfig.

Module CalibrationConfig.
Record t : Type := mk {
  no_evidence_penalty : Q;
  contradiction_penalty : Q;
  vague_language_penalty : Q;
  weak_evidence_penalty : Q
}.
Definition default : t := mk 0.4 0.6 0.2 0.15.
Definition valid (c : t) : bool :=
  in_unit (no_evidence_penalty c) && in_unit (contradiction_penalty c)
  && in_unit (vague_language_penalty c) && in_unit (weak_evidence_penalty c).
End CalibrationConfig.

Module VerdictConfig.
Record t : Type := mk {
  hallucination_threshold : Q;
  grounded_threshold : Q;
  confidence_weight : Q;
  evidence_weight : Q
}.
Definition default : t := mk 0.3 0.7 0.4 0.6.
Definition valid (c : t) : bool :=
  in_unit (hallucination_threshold c) && in_unit (grounded_threshold c)
  && in_unit (confidence_weight c) && in_unit (evidence_weight c).
End VerdictConfig.

Module ExtractionConfig.
Record t : Type := mk {
  max_claims : Z;
  min_claim_length : Z;
  max_retries : Z;
  include_opinions : bool
}.
Definition default : t := mk 50 10 3 false.
Definition valid (c : t) : bool :=
  (0 <? max_claims c) && (0 <? min_claim_length c) && (0 <? max_retries c).
End ExtractionConfig.

(* ================================================================== *)
(** * src/evaluators/alignment.py *)

Module Alignment.
Import PyStr Re.

(** [\b(?:w1|...|wn)\b] *)
Definition bounded_words (ic : bool) (l : list string) : regex :=
  seqs [WordB; words ic l; WordB].

Definition dot : regex := lit_char false "."%char.

(** [NEGATION_PATTERNS], joined by [|] and compiled with [re.IGNORECASE]. *)
Definition NEGATION_PATTERNS : list regex :=
  [ bounded_words true
      ["not"; "no"; "never"; "none"; "neither"; "nor"; "nothing"; "nowhere";
       "nobody"];
    bounded_words true
      ["isn't"; "aren't"; "wasn't"; "weren't"; "won't"; "wouldn't";
       "couldn't"; "shouldn't"];
    bounded_words true
      ["doesn't"; "don't"; "didn't"; "hasn't"; "haven't"; "hadn't"];
    bounded_words true ["cannot"; "can't"];
    seqs [WordB; lit true "NOT"; WordB] ].

Definition _negation_regex : regex := alts NEGATION_PATTERNS.

(** [YEAR_PATTERN = r"\b(19|20)\d{2}\b"]: the parentheses are a capturing
    group. *)
Definition YEAR_PATTERN : regex :=
  seqs [WordB; Group (alts [lit false "19"; lit false "20"]);
        times 2 digit; WordB].

(** [r"\b\d+(?:\.\d+)?\b"] *)
Definition NUMBER_PATTERN : regex :=
  seqs [WordB; Plus digit; Opt (Seq dot (Plus digit)); WordB].

Definition MONTHS : list string :=
  ["January"; "February"; "March"; "April"; "May"; "June"; "July";
   "August"; "September"; "October"; "November"; "December"].

(** The five patterns of [_extract_temporal_markers], each used with
    [re.IGNORECASE]. *)
Definition TEMPORAL_MARKER_PATTERNS : list regex :=
  [ seqs [WordB; times 4 digit; WordB];
    seqs [WordB; Opt (lit_char true "v"%char); Plus digit; dot; Plus digit;
          Opt (Seq dot (Plus digit)); WordB];
    seqs [WordB; words true MONTHS; Plus space; between 1 2 digit;
          Opt (lit_char true ","%char); Plus space; times 4 digit; WordB];
    seqs [WordB; between 1 2 digit; lit_char true "/"%char;
          between 1 2 digit; lit_char true "/"%char; between 2 4 digit; WordB];
    seqs [WordB;
          alts [lit true "yesterday"; lit true "today"; lit true "tomorrow";
                seqs [lit true "last"; Plus space; Plus wordc];
                seqs [lit true "next"; Plus space; Plus wordc]];
          WordB] ].

Definition _extract_temporal_markers (text : string) : list string :=
  flat_map (fun pattern => findall pattern text) TEMPORAL_MARKER_PATTERNS.

Definition _extract_years (text : string) : list string :=
  findall YEAR_PATTERN text.

Definition _detect_negation (text : string) : bool :=
  found _negation_regex text.

Definition _detect_contradiction_type (claim evidence : string)
  (claim_has_negation evidence_has_negation : bool) : ContradictionType :=
  if negb (Bool.eqb claim_has_negation evidence_has_negation)
  then DIRECT_NEGATION
  else
    let claim_years := dedup (_extract_years claim) in
    let evidence_years := dedup (_extract_years evidence) in
    if nonempty claim_years && nonempty evidence_years
       && negb (nonempty (inter claim_years evidence_years))
    then TEMPORAL_MISMATCH
    else
      let claim_numbers := dedup (findall NUMBER_PATTERN claim) in
      let evidence_numbers := dedup (findall NUMBER_PATTERN evidence) in
      if nonempty claim_numbers && nonempty evidence_numbers
         && negb (nonempty (inter claim_numbers evidence_numbers))
      then QUANTITATIVE_MISMATCH
      else PARTIAL_OVERLAP.

Definition _quick_temporal_check (claim evidence : string) : bool :=
  let claim_markers := dedup (_extract_temporal_markers claim) in
  let evidence_markers := dedup (_extract_temporal_markers evidence) in
  if negb (nonempty claim_markers) then true
  else nonempty (inter claim_markers evidence_markers).

(** The JSON object the oracle answers the alignment prompt with.  The keys
    [ALIGNMENT_SCHEMA] requires are fields; the others are optional. *)
Record Response : Type := mkResponse {
  r_label : string;
  r_confidence : Q;
  r_explanation : string;
  r_temporal_match : bool;
  r_semantic_score : Q;
  r_logical_score : Q;
  r_negation_detected : option bool;
  r_contradiction_type : option string;
  r_claim_date : option string;
  r_evidence_date : option string
}.

(** [d.get(key, default)] for an optional key. *)
Definition get {A : Type} (v : option A) (default : A) : A :=
  match v with Some x => x | None => default end.

Definition exn_str (e : exn) : string :=
  match e with
  | ValueError => "ValueError"
  | ValidationError => "ValidationError"
  | KeyError => "KeyError"
  | OracleError msg => msg
  end.

(** Lines 203-220 of [_heuristic_evaluate]: the label and the
    contradiction type from the two flags and the two scores. *)
Definition heuristic_label (negation_mismatch temporal_match : bool)
  (semantic_score logical_score : Q) : AlignmentLabel * ContradictionType :=
  if negation_mismatch && Qgtb semantic_score 0.5 then
    (CONTRADICTS, DIRECT_NEGATION)
  else if negb temporal_match && Qgtb semantic_score 0.5 then
    (CONTRADICTS, TEMPORAL_MISMATCH)
  else
    let avg_score := ((semantic_score + logical_score) / 2)%Q in
    (if Qgtb avg_score 0.7 then SUPPORTS
     else if Qgtb avg_score 0.4 then WEAK_SUPPORT
     else if Qltb avg_score 0.2 then IRRELEVANT
     else WEAK_SUPPORT,
     NONE).

(** Lines 156-161 of [evaluate_single]: the contradiction type the
    response names, [NONE] when the key is absent or its value is no member
    of the enum. *)
Definition parse_contradiction_type (res : Response) : ContradictionType :=
  let contradiction_type_str := get (r_contradiction_type res) "NONE" in
  match ContradictionType_of contradiction_type_str with
  | Ok ct => ct
  | Raise _ => NONE
  end.

Definition _heuristic_evaluate (claim : Claim.t) (evidence : EvidenceChunk.t)
  (error : string) : result AlignmentResult.t :=
  let semantic_score := EvidenceChunk.similarity_score evidence in
  let temporal_match :=
    _quick_temporal_check (Claim.text claim) (EvidenceChunk.text evidence) in
  let claim_has_negation := _detect_negation (Claim.text claim) in
  let evidence_has_negation := _detect_negation (EvidenceChunk.text evidence) in
  let negation_mismatch :=
    negb (Bool.eqb claim_has_negation evidence_has_negation) in
  let claim_words := dedup (split (lower (Claim.text claim))) in
  let evidence_words := dedup (split (lower (EvidenceChunk.text evidence))) in
  let overlap :=
    (inject_Z (Z.of_nat (List.length (inter claim_words evidence_words)))
     / inject_Z (Z.max (Z.of_nat (List.length claim_words)) 1))%Q in
  let logical_score := py_min (overlap * 2)%Q 1%Q in
  let '(label, contradiction_type) :=
    heuristic_label negation_mismatch temporal_match semantic_score
                    logical_score in
  AlignmentResult.new
    (Claim.id claim) (EvidenceChunk.id evidence) label 0.5%Q
    ("Heuristic evaluation (LLM unavailable: " ++ slice error 0 50 ++ ")")
    temporal_match semantic_score logical_score contradiction_type
    negation_mismatch None None.

(** [outcome] is what [self.llm.complete_json(prompt, ALIGNMENT_SCHEMA)]
    does on this call: it returns a response or raises. *)
Definition evaluate_single (claim : Claim.t) (evidence : EvidenceChunk.t)
  (outcome : result Response) : result AlignmentResult.t :=
  let claim_has_negation := _detect_negation (Claim.text claim) in
  let evidence_has_negation := _detect_negation (EvidenceChunk.text evidence) in
  match outcome with
  | Raise e => _heuristic_evaluate claim evidence (exn_str e)
  | Ok res =>
      let contradiction_type := parse_contradiction_type res in
      let contradiction_type :=
        if String.eqb (r_label res) "CONTRADICTS"
           && ContradictionType_eqb contradiction_type NONE
        then _detect_contradiction_type (Claim.text claim)
               (EvidenceChunk.text evidence)
               claim_has_negation evidence_has_negation
        else contradiction_type in
      label <- AlignmentLabel_of (r_label res) ;;
      AlignmentResult.new
        (Claim.id claim) (EvidenceChunk.id evidence) label
        (r_confidence res) (r_explanation res) (r_temporal_match res)
        (r_semantic_score res) (r_logical_score res) contradiction_type
        (get (r_negation_detected res)
             (negb (Bool.eqb claim_has_negation evidence_has_negation)))
        (r_evidence_date res) (r_claim_date res)
  end.

(** The list comprehension of [evaluate]: the [i]-th call of the oracle has
    outcome [llm i]; the first exception ends the comprehension. *)
Fixpoint evaluate_from (claim : Claim.t) (evidence : list EvidenceChunk.t)
  (llm : nat -> result Response) (i : nat) : result (list AlignmentResult.t) :=
  match evidence with
  | [] => Ok []
  | e :: evidence' =>
      a <- evaluate_single claim e (llm i) ;;
      rest <- evaluate_from claim evidence' llm (S i) ;;
      Ok (a :: rest)
  end.

Definition evaluate (claim : Claim.t) (evidence : list EvidenceChunk.t)
  (llm : nat -> result Response) : result (list AlignmentResult.t) :=
  if negb (nonempty evidence) then Ok []
  else evaluate_from claim evidence llm 0.

End Alignment.

(* ================================================================== *)
(** * src/calibrators/confidence.py *)

Module Calibrator.
Import PyStr Re.
Local Open Scope Q_scope.

(** [VAGUE_PATTERNS], joined by [|] and compiled with [re.IGNORECASE]. *)
Definition VAGUE_PATTERNS : list regex :=
  [ Alignment.bounded_words true
      ["might"; "may"; "could"; "possibly"; "perhaps"; "probably"; "likely";
       "unlikely"];
    Alignment.bounded_words true
      ["some"; "many"; "few"; "several"; "various"; "certain"];
    Alignment.bounded_words true
      ["often"; "sometimes"; "occasionally"; "rarely"; "usually"; "generally"];
    seqs [WordB;
          alts [Seq (lit true "seem") (Opt (lit_char true "s"%char));
                Seq (lit true "appear") (Opt (lit_char true "s"%char));
                Seq (lit true "suggest") (Opt (lit_char true "s"%char))];
          WordB];
    Alignment.bounded_words true
      ["around"; "approximately"; "about"; "roughly"];
    Alignment.bounded_words true ["I think"; "I believe"; "in my opinion"] ].

Definition _vague_regex : regex := alts VAGUE_PATTERNS.

Definition _detect_vague_language (text : string) : bool :=
  found _vague_regex text.

Definition _has_contradiction (alignments : list AlignmentResult.t) : bool :=
  existsb (fun a => AlignmentLabel_eqb (AlignmentResult.label a) CONTRADICTS)
          alignments.

Definition _has_strong_support (alignments : list AlignmentResult.t) : bool :=
  existsb (fun a => AlignmentLabel_eqb (AlignmentResult.label a) SUPPORTS
                    && Qgtb (AlignmentResult.confidence a) 0.7)
          alignments.

Definition label_weights (l : AlignmentLabel) : Q :=
  match l with
  | SUPPORTS => 1.0
  | WEAK_SUPPORT => 0.5
  | CONTRADICTS => -0.5
  | IRRELEVANT => 0.0
  end.

Definition _compute_evidence_quality (alignments : list AlignmentResult.t)
  (evidence : list EvidenceChunk.t) : Q :=
  if negb (nonempty alignments) then 0.0
  else
    let scores :=
      map (fun alignment =>
             let weight := label_weights (AlignmentResult.label alignment) in
             let evidence_chunk :=
               List.find (fun e => String.eqb (EvidenceChunk.id e)
                                     (AlignmentResult.evidence_id alignment))
                         evidence in
             let sim_score :=
               match evidence_chunk with
               | Some e => EvidenceChunk.similarity_score e
               | None => 0.5
               end in
             (weight * AlignmentResult.confidence alignment * sim_score)%Q)
          alignments in
    py_max 0.0
      (py_min 1.0
         (Qsum scores / inject_Z (Z.of_nat (List.length scores)) + 0.5)%Q).

(** The three locals [calibrate] updates: [calibrated], [penalties] and
    [penalty_breakdown]. *)
Record state : Type := mkState {
  calibrated : Q;
  penalties : list string;
  penalty_breakdown : list (string * Q)
}.

(** [calibrated -= penalty; penalties.append(key);
    penalty_breakdown[key] = penalty] *)
Definition apply_penalty (key : string) (penalty : Q) (st : state) : state :=
  mkState (calibrated st - penalty)%Q
          (penalties st ++ [key])
          (dict_set (penalty_breakdown st) key penalty).

Definition evidence_penalty (cfg : CalibrationConfig.t)
  (alignments : list AlignmentResult.t) (evidence : list EvidenceChunk.t)
  (st : state) : state :=
  if negb (nonempty evidence) then
    apply_penalty "no_evidence" (CalibrationConfig.no_evidence_penalty cfg) st
  else if _has_contradiction alignments then
    apply_penalty "contradiction_detected"
                  (CalibrationConfig.contradiction_penalty cfg) st
  else if negb (_has_strong_support alignments) then
    apply_penalty "weak_evidence_only"
                  (CalibrationConfig.weak_evidence_penalty cfg) st
  else st.

Definition vague_penalty (cfg : CalibrationConfig.t) (claim : Claim.t)
  (st : state) : state :=
  if _detect_vague_language (Claim.text claim) then
    apply_penalty "vague_language"
                  (CalibrationConfig.vague_language_penalty cfg) st
  else st.

Definition evidence_boost (alignments : list AlignmentResult.t)
  (evidence : list EvidenceChunk.t) (st : state) : state :=
  if _has_strong_support alignments && negb (_has_contradiction alignments)
  then
    let evidence_quality := _compute_evidence_quality alignments evidence in
    if Qgtb evidence_quality 0.7 then
      let boost := py_min 0.1 ((evidence_quality - 0.7) * 0.5)%Q in
      let st' := mkState (calibrated st + boost)%Q (penalties st)
                         (penalty_breakdown st) in
      if Qgtb boost 0 then
        mkState (calibrated st')
                (penalties st' ++ ["strong_evidence_boost"])
                (dict_set (penalty_breakdown st') "strong_evidence_boost"
                          (- boost)%Q)
      else st'
    else st
  else st.

(** The state just before the final clamp. *)
Definition penalised (cfg : CalibrationConfig.t) (claim : Claim.t)
  (alignments : list AlignmentResult.t) (evidence : list EvidenceChunk.t)
  : state :=
  evidence_boost alignments evidence
    (vague_penalty cfg claim
       (evidence_penalty cfg alignments evidence
          (mkState (Claim.raw_confidence claim) [] []))).

Definition calibrate (cfg : CalibrationConfig.t) (claim : Claim.t)
  (alignments : list AlignmentResult.t) (evidence : list EvidenceChunk.t)
  : result CalibratedConfidence.t :=
  let raw := Claim.raw_confidence claim in
  let st := penalised cfg claim alignments evidence in
  let calibrated := py_max 0.0 (py_min 1.0 (calibrated st)) in
  CalibratedConfidence.new (Claim.id claim) raw calibrated
                           (penalties st) (penalty_breakdown st).

End Calibrator.

(* ================================================================== *)
(** * src/verdict/engine.py *)

Module Engine.
Import PyStr.
Local Open Scope Q_scope.

Definition label_scores (l : AlignmentLabel) : Q :=
  match l with
  | SUPPORTS => 1.0
  | WEAK_SUPPORT => 0.5
  | CONTRADICTS => 0.1
  | IRRELEVANT => 0.0
  end.

(** [max(scores)]: the first of the largest elements. *)
Definition list_max (first : Q) (others : list Q) : Q :=
  fold_left py_max others first.

Definition alignment_score (alignment : AlignmentResult.t) : Q :=
  let base_score := label_scores (AlignmentResult.label alignment) in
  let weighted :=
    (base_score * AlignmentResult.confidence alignment
     * (AlignmentResult.semantic_score alignment
        + AlignmentResult.logical_score alignment) / 2)%Q in
  if negb (AlignmentResult.temporal_match alignment)
  then (weighted * 0.7)%Q
  else weighted.

Definition _compute_evidence_strength (alignments : list AlignmentResult.t)
  (evidence : list EvidenceChunk.t) : Q :=
  if negb (nonempty alignments) then 0.0
  else
    match map alignment_score alignments with
    | s :: scores => list_max s scores
    | [] => 0.0
    end.

(** The inner two loops of [_find_best_evidence] for one label. *)
Fixpoint find_for_label (label : AlignmentLabel)
  (alignments : list AlignmentResult.t) (evidence : list EvidenceChunk.t)
  : option EvidenceChunk.t :=
  match alignments with
  | [] => None
  | alignment :: alignments' =>
      if AlignmentLabel_eqb (AlignmentResult.label alignment) label then
        match List.find (fun e => String.eqb (EvidenceChunk.id e)
                                    (AlignmentResult.evidence_id alignment))
                        evidence with
        | Some e => Some e
        | None => find_for_label label alignments' evidence
        end
      else find_for_label label alignments' evidence
  end.

(** [max(evidence, key=lambda e: e.similarity_score)] *)
Definition max_by_similarity (first : EvidenceChunk.t)
  (others : list EvidenceChunk.t) : EvidenceChunk.t :=
  fold_left (fun best e =>
               if Qgtb (EvidenceChunk.similarity_score e)
                       (EvidenceChunk.similarity_score best)
               then e else best)
            others first.

Definition _find_best_evidence (alignments : list AlignmentResult.t)
  (evidence : list EvidenceChunk.t) : option EvidenceChunk.t :=
  if negb (nonempty alignments) || negb (nonempty evidence) then None
  else
    match find_for_label SUPPORTS alignments evidence with
    | Some e => Some e
    | None =>
        match find_for_label WEAK_SUPPORT alignments evidence with
        | Some e => Some e
        | None =>
            match evidence with
            | e :: evidence' => Some (max_by_similarity e evidence')
            | [] => None
            end
        end
    end.

Definition _generate_explanation (claim : Claim.t) (label : VerdictLabel)
  (evidence_strength : Q) (calibrated : CalibratedConfidence.t)
  (alignments : list AlignmentResult.t) (contradiction_detected : bool)
  : list fragment :=
  match label with
  | HALLUCINATED =>
      [Text "High confidence (";
       Float2f (CalibratedConfidence.raw_confidence calibrated);
       Text ") with "]
      ++ (if negb (nonempty alignments) then
            [Text "no supporting evidence found."]
          else if contradiction_detected then
            [Text "contradicting evidence."]
          else
            [Text "weak evidence (strength: "; Float2f evidence_strength;
             Text ")."])
      ++ (if nonempty (CalibratedConfidence.penalties_applied calibrated) then
            [Text (" Penalties: "
                   ++ String.concat ", "
                        (CalibratedConfidence.penalties_applied calibrated)
                   ++ ".")]
          else [])
  | WEAK =>
      [Text "Partial support found (evidence strength: ";
       Float2f evidence_strength; Text "). "]
      ++ (if Qltb (CalibratedConfidence.calibrated_confidence calibrated)
                  (CalibratedConfidence.raw_confidence calibrated)
          then [Text "Confidence reduced from ";
                Float2f (CalibratedConfidence.raw_confidence calibrated);
                Text " to ";
                Float2f (CalibratedConfidence.calibrated_confidence calibrated);
                Text "."]
          else [])
  | GROUNDED =>
      [Text "Strong evidence supports this claim (strength: ";
       Float2f evidence_strength; Text "). "]
      ++ (if nonempty alignments then
            let supporting :=
              filter (fun a => AlignmentLabel_eqb (AlignmentResult.label a)
                                                  SUPPORTS) alignments in
            if nonempty supporting then
              [Int (Z.of_nat (List.length supporting));
               Text " evidence chunk(s) directly support."]
            else []
          else [])
  end.

(** Lines 133-146 of [compute]: the risk from the raw confidence, the
    evidence strength and the contradiction flag. *)
Definition hallucination_risk (cfg : VerdictConfig.t) (raw_confidence : Q)
  (evidence_strength : Q) (contradiction_detected : bool) : Q :=
  let confidence_factor := raw_confidence in
  let evidence_factor := (1.0 - evidence_strength)%Q in
  let hallucination_risk :=
    (VerdictConfig.confidence_weight cfg * confidence_factor
     + VerdictConfig.evidence_weight cfg * evidence_factor)%Q in
  if contradiction_detected
  then py_min 1.0 (hallucination_risk + 0.2)%Q
  else hallucination_risk.

(** Lines 148-154 of [compute]. *)
Definition verdict_label (cfg : VerdictConfig.t) (evidence_strength : Q)
  (contradiction_detected : bool) : VerdictLabel :=
  if Qgeb evidence_strength (VerdictConfig.grounded_threshold cfg)
     && negb contradiction_detected
  then GROUNDED
  else if Qleb evidence_strength (VerdictConfig.hallucination_threshold cfg)
          || contradiction_detected
  then HALLUCINATED
  else WEAK.

Definition compute (cfg : VerdictConfig.t) (claim : Claim.t)
  (evidence : list EvidenceChunk.t) (alignments : list AlignmentResult.t)
  (calibrated : CalibratedConfidence.t) : result Verdict.t :=
  let evidence_strength := _compute_evidence_strength alignments evidence in
  let contradiction_detected :=
    existsb (fun a => AlignmentLabel_eqb (AlignmentResult.label a) CONTRADICTS)
            alignments in
  let risk :=
    hallucination_risk cfg (CalibratedConfidence.raw_confidence calibrated)
                       evidence_strength contradiction_detected in
  let label := verdict_label cfg evidence_strength contradiction_detected in
  let explanation :=
    _generate_explanation claim label evidence_strength calibrated alignments
                          contradiction_detected in
  Verdict.new claim label risk evidence_strength calibrated alignments
              (_find_best_evidence alignments evidence)
              contradiction_detected explanation.

End Engine.

(* ================================================================== *)
(** * src/retrievers/local_vector.py *)

Module Retriever.
Import PyStr.

(** [int(x)] on a float: truncation towards zero. *)
Definition py_int (q : Q) : Z := Z.quot (Qnum q) (Zpos (Qden q)).

Definition NL : string := String "010"%char EmptyString.

(** The separators tried in turn: [". "], [".\n"], ["! "], ["? "], ["\n\n"]. *)
Definition SEPARATORS : list string :=
  [". "; "." ++ NL; "! "; "? "; NL ++ NL].

(** The [for sep in ...] loop with its [break]: the new value of [end]. *)
Fixpoint sentence_break (text : string) (start search_start end_ : Z)
  (seps : list string) : Z :=
  match seps with
  | [] => end_
  | sep :: seps' =>
      let pos := rfind text sep search_start end_ in
      if pos >? start then pos + len sep
      else sentence_break text start search_start end_ seps'
  end.

(** One turn of the [while] loop of [_chunk_text] from [start]: the chunk
    appended and the next [start]. *)
Definition chunk_step (cfg : RetrievalConfig.t) (text : string) (start : Z)
  : string * Z :=
  let end_ := start + RetrievalConfig.chunk_size cfg in
  let end_ :=
    if end_ <? len text then
      let search_start :=
        py_int (inject_Z end_
                - inject_Z (RetrievalConfig.chunk_size cfg) * 0.2)%Q in
      sentence_break text start search_start end_ SEPARATORS
    else end_ in
  (strip (slice text start end_), end_ - RetrievalConfig.chunk_overlap cfg).

(** The [while start < len(text)] loop; [None] when [fuel] turns do not
    reach its exit. *)
Fixpoint chunk_loop (fuel : nat) (cfg : RetrievalConfig.t) (text : string)
  (start : Z) (chunks : list string) : option (list string) :=
  if start <? len text then
    match fuel with
    | O => None
    | S fuel' =>
        let '(chunk, start') := chunk_step cfg text start in
        chunk_loop fuel' cfg text start' (chunks ++ [chunk])
    end
  else Some chunks.

(** [_chunk_text], run for at most [fuel] turns of its loop. *)
Definition _chunk_text (fuel : nat) (cfg : RetrievalConfig.t) (text : string)
  : option (list string) :=
  match chunk_loop fuel cfg text 0 [] with
  | Some chunks => Some (filter (fun c => negb (String.eqb c "")) chunks)
  | None => None
  end.

(** A row of the [chunks] table; the embedding blob is the vector it
    decodes to. *)
Record Row : Type := mkRow {
  row_id : string;
  row_text : string;
  row_source : string;
  row_chunk_index : Z;
  row_embedding : list Q
}.

(** [np.dot] of two vectors; the shapes must agree. *)
Fixpoint dot (a b : list Q) : result Q :=
  match a, b with
  | [], [] => Ok 0%Q
  | x :: a', y :: b' => s <- dot a' b' ;; Ok (x * y + s)%Q
  | _, _ => Raise ValueError
  end.

(** [results.sort(key=lambda x: x.similarity_score, reverse=True)]: a
    stable sort, largest score first. *)
Fixpoint insert_desc (x : EvidenceChunk.t) (l : list EvidenceChunk.t)
  : list EvidenceChunk.t :=
  match l with
  | [] => [x]
  | y :: l' =>
      if Qgeb (EvidenceChunk.similarity_score x) (EvidenceChunk.similarity_score y)
      then x :: l
      else y :: insert_desc x l'
  end.

Definition sort_desc (l : list EvidenceChunk.t) : list EvidenceChunk.t :=
  fold_right insert_desc [] l.

Section WithEncoder.
(** [self._embed([claim])[0]]: the sentence encoder. *)
Variable encode : string -> list Q.

(** The [for row in rows] loop. *)
Fixpoint collect (cfg : RetrievalConfig.t) (query_emb : list Q)
  (rows : list Row) : result (list EvidenceChunk.t) :=
  match rows with
  | [] => Ok []
  | row :: rows' =>
      similarity <- dot query_emb (row_embedding row) ;;
      if Qgeb similarity (RetrievalConfig.similarity_threshold cfg) then
        chunk <- EvidenceChunk.new (row_id row) (row_text row)
                   (row_source row) similarity (row_chunk_index row) ;;
        results <- collect cfg query_emb rows' ;;
        Ok (chunk :: results)
      else collect cfg query_emb rows'
  end.

(** [top_k or self.config.top_k] *)
Definition effective_top_k (cfg : RetrievalConfig.t) (top_k : option Z) : Z :=
  match top_k with
  | Some k => if k =? 0 then RetrievalConfig.top_k cfg else k
  | None => RetrievalConfig.top_k cfg
  end.

Definition retrieve (cfg : RetrievalConfig.t) (rows : list Row)
  (claim : string) (top_k : option Z) : result (list EvidenceChunk.t) :=
  let top_k := effective_top_k cfg top_k in
  if negb (nonempty rows) then Ok []
  else
    let query_emb := encode claim in
    results <- collect cfg query_emb rows ;;
    Ok (slice_to_list (sort_desc results) top_k).
End WithEncoder.

End Retriever.

(* ================================================================== *)
(** * src/extractors/claim_extractor.py *)

Module Extractor.
Import PyStr Re.

Definition HEDGING_PATTERNS : list regex :=
  [ Alignment.bounded_words true
      ["might"; "may"; "could"; "possibly"; "perhaps"; "probably"; "likely";
       "unlikely"];
    Alignment.bounded_words true
      ["it is believed"; "it is thought"; "some say"; "reportedly";
       "allegedly"];
    seqs [WordB;
          alts [Seq (lit true "seem") (Opt (lit_char true "s"%char));
                Seq (lit true "appear") (Opt (lit_char true "s"%char));
                Seq (lit true "suggest") (Opt (lit_char true "s"%char));
                Seq (lit true "indicate") (Opt (lit_char true "s"%char))];
          WordB];
    Alignment.bounded_words true
      ["I think"; "I believe"; "in my opinion"; "arguably"];
    Alignment.bounded_words true
      ["generally"; "typically"; "usually"; "often"; "sometimes"] ].

Definition MULTI_HOP_PATTERNS : list regex :=
  [ Alignment.bounded_words true
      ["because"; "therefore"; "thus"; "hence"; "consequently"; "as a result"];
    Alignment.bounded_words true ["since"; "given that"; "due to"; "owing to"];
    Alignment.bounded_words true ["which means"; "this implies"; "leading to"] ].

Definition TEMPORAL_PATTERNS : list regex :=
  [ Alignment.bounded_words true
      ["as of"; "since"; "until"; "before"; "after"; "recently"; "currently";
       "now"];
    seqs [WordB;
          alts [Seq (lit true "in ") (times 4 digit);
                Seq (lit true "during ") (times 4 digit);
                Seq (lit true "by ") (times 4 digit)];
          WordB];
    Alignment.bounded_words true ["last year"; "this year"; "next year"] ].

Definition COMPARATIVE_PATTERNS : list regex :=
  [ seqs [WordB;
          words true ["faster"; "slower"; "better"; "worse"; "more"; "less";
                      "larger"; "smaller"];
          Plus space; lit true "than"; WordB];
    seqs [WordB;
          alts [lit true "compared to"; lit true "relative to";
                lit true "versus";
                Seq (lit true "vs") (Opt (lit_char true "."%char))];
          WordB];
    Alignment.bounded_words true
      ["the most"; "the least"; "the best"; "the worst"] ].

Definition QUANTITATIVE_PATTERNS : list regex :=
  [ seqs [WordB; Plus digit; Opt (Seq Alignment.dot (Plus digit)); Star space;
          words true ["billion"; "million"; "thousand"; "percent"; "%"];
          WordB];
    seqs [WordB; words true ["approximately"; "about"; "around"; "roughly"];
          Star space; Plus digit; WordB] ].

Definition _hedging_regex : regex := alts HEDGING_PATTERNS.
Definition _multi_hop_regex : regex := alts MULTI_HOP_PATTERNS.
Definition _temporal_regex : regex := alts TEMPORAL_PATTERNS.
Definition _comparative_regex : regex := alts COMPARATIVE_PATTERNS.
Definition _quantitative_regex : regex := alts QUANTITATIVE_PATTERNS.

Definition _detect_claim_type (text : string) : ClaimType :=
  if found _hedging_regex text then HEDGED
  else if found _multi_hop_regex text then MULTI_HOP
  else if found _quantitative_regex text then QUANTITATIVE
  else if found _comparative_regex text then COMPARATIVE
  else if found _temporal_regex text then TEMPORAL
  else DIRECT.

Definition _detect_hedging (text : string) : bool :=
  found _hedging_regex text.

(** An entry of the [claims] array the oracle returns.  [text] and
    [confidence] are read with [c[...]]; the other keys with [c.get]. *)
Record ClaimData : Type := mkClaimData {
  c_text : string;
  c_start : option Z;
  c_end : option Z;
  c_confidence : Q;
  c_is_factual : option bool;
  c_claim_type : option string;
  c_extraction_confidence : option Q
}.

(** [r"\b" + r"\s+".join(re.escape(w) for w in words)] under
    [re.IGNORECASE]. *)
Fixpoint join_words (ws : list string) : list regex :=
  match ws with
  | [] => []
  | [w] => [lit true w]
  | w :: ws' => lit true w :: Plus space :: join_words ws'
  end.

Definition fuzzy_pattern (ws : list string) : regex :=
  seqs (WordB :: join_words ws).

(** The body of the loop of [_validate_spans]: the repaired
    [(start, end)] of one claim. *)
Definition repair_span (claim : ClaimData) (original_text : string) : Z * Z :=
  let text := c_text claim in
  let start := Alignment.get (c_start claim) 0 in
  let end_ := Alignment.get (c_end claim) (len text) in
  let found_start := find (lower original_text) (lower text) in
  let '(start, end_) :=
    if found_start >=? 0 then (found_start, found_start + len text)
    else
      let ws := firstn 5 (split text) in
      match search (fuzzy_pattern ws) original_text with
      | Some m =>
          let start := Z.of_nat (m_start m) in
          let end_match :=
            search (one_of ".!?") (slice_from original_text start) in
          (start,
           start + match end_match with
                   | Some em => Z.of_nat (m_end em)
                   | None => len text
                   end)
      | None => (start, end_)
      end in
  (start, Z.min end_ (len original_text)).

Definition _validate_spans (claims_data : list ClaimData)
  (original_text : string) : list ClaimData :=
  map (fun claim =>
         let '(start, end_) := repair_span claim original_text in
         mkClaimData (c_text claim) (Some start) (Some end_)
                     (c_confidence claim) (c_is_factual claim)
                     (c_claim_type claim) (c_extraction_confidence claim))
      claims_data.

(** What [extract_with_confidence] returns beside the claims. *)
Record Stats : Type := mkStats {
  total_extracted : nat;
  after_filtering : nat;
  filtered_opinions : nat;
  hedged_claims : nat;
  claim_types : list (ClaimType * nat)
}.

Inductive Metadata : Type :=
| MetaError (msg : string)
| MetaStats (s : Stats).

(** The [for attempt in range(max_retries)] loop: the first answer, or
    the last exception when every attempt raised. *)
Fixpoint retry_loop {A : Type} (n : nat) (attempt : nat)
  (llm : nat -> result A) (last_error : option exn) : A + option exn :=
  match n with
  | O => inr last_error
  | S n' =>
      match llm attempt with
      | Ok r => inl r
      | Raise e => retry_loop n' (S attempt) llm (Some e)
      end
  end.

Definition ALL_CLAIM_TYPES : list ClaimType :=
  [DIRECT; HEDGED; MULTI_HOP; TEMPORAL; COMPARATIVE; QUANTITATIVE].

Section WithHash.
(** [hashlib.sha256(content.encode()).hexdigest()] *)
Variable sha256_hexdigest : string -> string.

(** [str(n)] for an integer. *)
Definition str_of_int (n : Z) : string :=
  DecimalString.NilZero.string_of_int (Z.to_int n).

Definition _generate_claim_id (text : string) (start : Z) : string :=
  let content := text ++ ":" ++ str_of_int start in
  slice (sha256_hexdigest content) 0 12.

(** The claim built from one entry that passed the filters. *)
Definition build_claim (c : ClaimData) : result Claim.t :=
  let llm_claim_type := Alignment.get (c_claim_type c) "DIRECT" in
  let claim_type :=
    match ClaimType_of llm_claim_type with
    | Ok ct => ct
    | Raise _ => _detect_claim_type (c_text c)
    end in
  let hedging_detected := _detect_hedging (c_text c) in
  let claim_type :=
    if hedging_detected && negb (ClaimType_eqb claim_type HEDGED)
    then HEDGED else claim_type in
  match c_start c, c_end c with
  | Some start, Some end_ =>
      Claim.new (_generate_claim_id (c_text c) start) (c_text c)
                (start, end_) (c_confidence c)
                (Alignment.get (c_is_factual c) true) claim_type
                (Alignment.get (c_extraction_confidence c) 0.9%Q)
                hedging_detected
  | _, _ => Raise KeyError
  end.

(** The [for i, c in enumerate(claims_data)] loop, [claims] being the
    list built so far. *)
Fixpoint convert (cfg : ExtractionConfig.t) (claims_data : list ClaimData)
  (claims : list Claim.t) : result (list Claim.t) :=
  match claims_data with
  | [] => Ok claims
  | c :: claims_data' =>
      if negb (ExtractionConfig.include_opinions cfg)
         && negb (Alignment.get (c_is_factual c) true)
      then convert cfg claims_data' claims
      else if len (c_text c) <? ExtractionConfig.min_claim_length cfg
      then convert cfg claims_data' claims
      else if Z.of_nat (List.length claims) >=? ExtractionConfig.max_claims cfg
      then Ok claims
      else
        claim <- build_claim c ;;
        convert cfg claims_data' (claims ++ [claim])
  end.

Definition count {A : Type} (p : A -> bool) (l : list A) : nat :=
  List.length (filter p l).

(** [llm attempt] is what the [attempt]-th call of
    [self.llm.complete_json(prompt, EXTRACTION_SCHEMA)] does; an answer
    is its [claims] array. *)
Definition extract_with_confidence (cfg : ExtractionConfig.t)
  (llm : nat -> result (list ClaimData)) (text : string)
  : result (list Claim.t * Metadata) :=
  if String.eqb (strip text) "" then Ok ([], MetaError "Empty input text")
  else
    match retry_loop (Z.to_nat (ExtractionConfig.max_retries cfg)) 0 llm None with
    | inr last_error =>
        Ok ([], MetaError
                  ("Extraction failed after "
                   ++ str_of_int (ExtractionConfig.max_retries cfg)
                   ++ " attempts: "
                   ++ match last_error with
                      | Some e => Alignment.exn_str e
                      | None => "None"
                      end))
    | inl claims_data =>
        let claims_data := _validate_spans claims_data text in
        claims <- convert cfg claims_data [] ;;
        Ok (claims,
            MetaStats
              (mkStats
                 (List.length claims_data)
                 (List.length claims)
                 (count (fun c => negb (Alignment.get (c_is_factual c) true))
                        claims_data)
                 (count Claim.hedging_detected claims)
                 (map (fun ct =>
                         (ct, count (fun c => ClaimType_eqb (Claim.claim_type c) ct)
                                    claims))
                      ALL_CLAIM_TYPES)))
    end.

Definition extract (cfg : ExtractionConfig.t)
  (llm : nat -> result (list ClaimData)) (text : string)
  : result (list Claim.t) :=
  r <- extract_with_confidence cfg llm text ;;
  Ok (fst r).
End WithHash.

End Extractor.

(* ================================================================== *)
(** * src/pipeline.py: the body of the [for claim in claims] loop *)

Module Pipeline.

Record Config : Type := mkConfig {
  retrieval : RetrievalConfig.t;
  calibration : CalibrationConfig.t;
  verdict : VerdictConfig.t;
  extraction : ExtractionConfig.t
}.

Definition default : Config :=
  mkConfig RetrievalConfig.default CalibrationConfig.default
           VerdictConfig.default ExtractionConfig.default.

(** Evaluate, calibrate and compute the verdict for a claim whose
    retrieved evidence is [evidence]. *)
Definition judge (cfg : Config) (claim : Claim.t)
  (evidence : list EvidenceChunk.t)
  (llm : nat -> result Alignment.Response) : result Verdict.t :=
  alignments <- Alignment.evaluate claim evidence llm ;;
  calibrated <- Calibrator.calibrate (calibration cfg) claim alignments evidence ;;
  Engine.compute (verdict cfg) claim evidence alignments calibrated.

(** Retrieve, then [judge]: one turn of the loop of [analyze] over the
    rows of the store. *)
Definition analyze_claim (encode : string -> list Q) (cfg : Config)
  (rows : list Retriever.Row) (claim : Claim.t)
  (llm : nat -> result Alignment.Response) : result Verdict.t :=
  evidence <- Retriever.retrieve encode (retrieval cfg) rows
                (Claim.text claim) None ;;
  judge cfg claim evidence llm.

End Pipeline.

(* ================================================================== *)
(** * src/calibrators/confidence.py on binary64

    [calibrate] once more, with the arithmetic of the interpreter: the
    confidences and the penalties are IEEE 754 binary64 values and every
    [-=] and [+=] rounds.  What [calibrate] asks of its helper methods and
    of its arguments enters as an argument: whether the evidence is empty,
    what [_has_contradiction], [_has_strong_support] and
    [_detect_vague_language] answer, and the value of
    [_compute_evidence_quality]. *)

Module Calibrator64.
Import PrimFloat.

(** The decimal literals of the source, as binary64 values. *)
Definition f0_0 : float := 0x0p+0%float.
Definition f1_0 : float := 0x1p+0%float.
Definition f0_1 : float := 0x1.999999999999ap-4%float.
Definition f0_5 : float := 0x1p-1%float.
Definition f0_7 : float := 0x1.6666666666666p-1%float.

(** [a > b] and [a <= b] on floats. *)
Definition gtb (a b : float) : bool := PrimFloat.ltb b a.
Definition geb (a b : float) : bool := PrimFloat.leb b a.

(** [min(a, b)] and [max(a, b)]: the first argument wins ties, and wins
    against a NaN. *)
Definition py_min (a b : float) : float := if PrimFloat.ltb b a then b else a.
Definition py_max (a b : float) : float := if gtb b a then b else a.

(** [sum(values)]: a fold from the left, starting at the integer 0. *)
Definition py_sum (l : list float) : float := fold_left PrimFloat.add l f0_0.

(** pydantic's [Field(..., ge=0.0, le=1.0)]. *)
Definition in_unit (x : float) : bool := geb x f0_0 && PrimFloat.leb x f1_0.

(** [CalibrationConfig]. *)
Record config : Type := mkConfig {
  no_evidence_penalty : float;
  contradiction_penalty : float;
  vague_language_penalty : float;
  weak_evidence_penalty : float
}.

(** The defaults 0.4, 0.6, 0.2 and 0.15. *)
Definition default : config :=
  mkConfig 0x1.999999999999ap-2%float 0x1.3333333333333p-1%float
           0x1.999999999999ap-3%float 0x1.3333333333333p-3%float.

(** [CalibratedConfidence], the claim's id left out. *)
Record confidence : Type := mkConfidence {
  raw_confidence : float;
  calibrated_confidence : float;
  penalties_applied : list string;
  penalty_breakdown : list (string * float)
}.

Definition valid (c : confidence) : bool :=
  in_unit (raw_confidence c) && in_unit (calibrated_confidence c).

(** The three locals [calibrate] updates. *)
Record state : Type := mkState {
  calibrated : float;
  penalties : list string;
  breakdown : list (string * float)
}.

(** [calibrated -= penalty; penalties.append(key);
    penalty_breakdown[key] = penalty] *)
Definition apply_penalty (key : string) (penalty : float) (st : state)
  : state :=
  mkState (PrimFloat.sub (calibrated st) penalty)
          (penalties st ++ [key])
          (dict_set (breakdown st) key penalty).

Definition evidence_penalty (cfg : config)
  (no_evidence has_contradiction has_strong_support : bool) (st : state)
  : state :=
  if no_evidence then
    apply_penalty "no_evidence" (no_evidence_penalty cfg) st
  else if has_contradiction then
    apply_penalty "contradiction_detected" (contradiction_penalty cfg) st
  else if negb has_strong_support then
    apply_penalty "weak_evidence_only" (weak_evidence_penalty cfg) st
  else st.

Definition vague_penalty (cfg : config) (vague : bool) (st : state) : state :=
  if vague then apply_penalty "vague_language" (vague_language_penalty cfg) st
  else st.

Definition evidence_boost (has_contradiction has_strong_support : bool)
  (evidence_quality : float) (st : state) : state :=
  if has_strong_support && negb has_contradiction then
    if gtb evidence_quality f0_7 then
      let boost :=
        py_min f0_1
          (PrimFloat.mul (PrimFloat.sub evidence_quality f0_7) f0_5) in
      let st' := mkState (PrimFloat.add (calibrated st) boost) (penalties st)
                         (breakdown st) in
      if gtb boost f0_0 then
        mkState (calibrated st')
                (penalties st' ++ ["strong_evidence_boost"])
                (dict_set (breakdown st') "strong_evidence_boost"
                          (PrimFloat.opp boost))
      else st'
    else st
  else st.

(** The state just before the final clamp. *)
Definition penalised (cfg : config) (raw : float)
  (no_evidence has_contradiction has_strong_support vague : bool)
  (evidence_quality : float) : state :=
  evidence_boost has_contradiction has_strong_support evidence_quality
    (vague_penalty cfg vague
       (evidence_penalty cfg no_evidence has_contradiction has_strong_support
          (mkState raw [] []))).

Definition clamp (x : float) : float := py_max f0_0 (py_min f1_0 x).

Definition calibrate (cfg : config) (raw : float)
  (no_evidence has_contradiction has_strong_support vague : bool)
  (evidence_quality : float) : result confidence :=
  let st := penalised cfg raw no_evidence has_contradiction
                      has_strong_support vague evidence_quality in
  let c := mkConfidence raw (clamp (calibrated st)) (penalties st)
                        (breakdown st) in
  if valid c then Ok c else Raise ValidationError.

(** An update of the running value: [calibrated -= p] or
    [calibrated += b]. *)
Inductive update : Type :=
| Minus (p : float)
| Plus (b : float).

Definition run (x : float) (u : update) : float :=
  match u with
  | Minus p => PrimFloat.sub x p
  | Plus b => PrimFloat.add x b
  end.



End Calibrator64.

(* ================================================================== *)
(** * src/core/schemas.py: [AnalysisResult] *)

Module AnalysisResult.

(** The [metadata] dictionary as [analyze] fills it: the record of the
    extraction and, when there are claims, the statistics of the store
    (chunks, documents). *)
Record Metadata : Type := mkMetadata {
  extraction : Extractor.Metadata;
  corpus_stats : option (nat * nat)
}.

Record t : Type := mk {
  original_text : string;
  claims : list Claim.t;
  verdicts : list Verdict.t;
  overall_hallucination_risk : Q;
  summary : string;
  metadata : Metadata
}.

Definition valid (r : t) : bool := in_unit (overall_hallucination_risk r).

Definition new (original_text : string) (claims : list Claim.t)
  (verdicts : list Verdict.t) (overall_hallucination_risk : Q)
  (summary : string) (metadata : Metadata) : result t :=
  let r := mk original_text claims verdicts overall_hallucination_risk
              summary metadata in
  if valid r then Ok r else Raise ValidationError.
End AnalysisResult.

(* ================================================================== *)
(** * src/pipeline.py: [EpistemicRiskDetector.analyze] *)

Module Detector.
Import PyStr.

(** [LocalVectorStore.stats]: the number of rows and the number of distinct sources,
    as the two counts of its query give them. *)
Definition stats (rows : list Retriever.Row) : nat * nat :=
  (List.length rows, List.length (dedup (map Retriever.row_source rows))).

(** [sum(...)] of floats: a fold from the left, starting at 0. *)
Definition py_sum (l : list Q) : Q := fold_left Qplus l 0%Q.

Definition VerdictLabel_eqb (a b : VerdictLabel) : bool :=
  match a, b with
  | GROUNDED, GROUNDED | WEAK, WEAK | HALLUCINATED, HALLUCINATED => true
  | _, _ => false
  end.

(** Lines 88-98: the summary from the counts of the labels. *)
Definition summarize (verdicts : list Verdict.t) : string :=
  let n := Z.of_nat (List.length verdicts) in
  let hallucinated_count :=
    Z.of_nat (Extractor.count
                (fun v => VerdictLabel_eqb (Verdict.label v) HALLUCINATED)
                verdicts) in
  let grounded_count :=
    Z.of_nat (Extractor.count
                (fun v => VerdictLabel_eqb (Verdict.label v) GROUNDED)
                verdicts) in
  if hallucinated_count =? 0 then
    "All " ++ Extractor.str_of_int n
    ++ " claims appear grounded or weakly supported."
  else if hallucinated_count =? n then
    "All " ++ Extractor.str_of_int n ++ " claims appear to be hallucinations."
  else
    Extractor.str_of_int hallucinated_count ++ "/" ++ Extractor.str_of_int n
    ++ " claims flagged as potential hallucinations. "
    ++ Extractor.str_of_int grounded_count ++ " claims are well-grounded.".

Section WithCollaborators.
(** [hashlib.sha256(...).hexdigest()] and the encoder of the store. *)
Variable sha256_hexdigest : string -> string.
Variable encode : string -> list Q.

(** The loop [for claim in claims] of [analyze].  The evaluator calls the
    oracle once per evidence chunk: [llm k] is the outcome of its [k]-th call
    since the loop began and [calls] the number of calls made so far. *)
Fixpoint process (cfg : Pipeline.Config) (rows : list Retriever.Row)
  (claims : list Claim.t) (llm : nat -> result Alignment.Response)
  (calls : nat) : result (list Verdict.t) :=
  match claims with
  | [] => Ok []
  | claim :: claims' =>
      evidence <- Retriever.retrieve encode (Pipeline.retrieval cfg) rows
                    (Claim.text claim) None ;;
      verdict <- Pipeline.judge cfg claim evidence
                   (fun i => llm (calls + i)%nat) ;;
      rest <- process cfg rows claims' llm (calls + List.length evidence)%nat ;;
      Ok (verdict :: rest)
  end.

(** [extract_llm] is the oracle as the extractor calls it, [align_llm] as
    the evaluator does. *)
Definition analyze (cfg : Pipeline.Config) (rows : list Retriever.Row)
  (extract_llm : nat -> result (list Extractor.ClaimData))
  (align_llm : nat -> result Alignment.Response) (text : string)
  : result AnalysisResult.t :=
  r <- Extractor.extract_with_confidence sha256_hexdigest
         (Pipeline.extraction cfg) extract_llm text ;;
  let claims := fst r in
  let extraction_meta := snd r in
  if negb (nonempty claims) then
    AnalysisResult.new text [] [] 0.0%Q
      "No factual claims found in the text."
      (AnalysisResult.mkMetadata extraction_meta None)
  else
    verdicts <- process cfg rows claims align_llm 0 ;;
    let overall_risk :=
      if nonempty verdicts
      then (py_sum (map Verdict.hallucination_risk verdicts)
            / inject_Z (Z.of_nat (List.length verdicts)))%Q
      else 0.0%Q in
    AnalysisResult.new text claims verdicts overall_risk (summarize verdicts)
      (AnalysisResult.mkMetadata extraction_meta (Some (stats rows))).
End WithCollaborators.

End Detector.

(* ================================================================== *)
(** * src/renderers/structured.py *)

Module StructuredRenderer.

Definition VerdictLabel_value (l : VerdictLabel) : string :=
  match l with
  | GROUNDED => "GROUNDED"
  | WEAK => "WEAK"
  | HALLUCINATED => "HALLUCINATED"
  end.

(** The [statistics] entry of [render] and [render_for_web]. *)
Record Statistics : Type := mkStatistics {
  grounded : nat;
  weak : nat;
  hallucinated : nat
}.

(** An entry of [highlighted_claims]. *)
Record Highlight : Type := mkHighlight {
  h_start : Z;
  h_end : Z;
  h_verdict : string;
  h_claim_id : string
}.

Definition labelled (value : string) (verdicts : list Verdict.t) : nat :=
  Extractor.count
    (fun v => String.eqb (VerdictLabel_value (Verdict.label v)) value)
    verdicts.

Definition statistics (result : AnalysisResult.t) : Statistics :=
  mkStatistics (labelled "GROUNDED" (AnalysisResult.verdicts result))
               (labelled "WEAK" (AnalysisResult.verdicts result))
               (labelled "HALLUCINATED" (AnalysisResult.verdicts result)).

Definition claims_count (result : AnalysisResult.t) : nat :=
  List.length (AnalysisResult.claims result).

Definition highlighted_claims (result : AnalysisResult.t) : list Highlight :=
  map (fun v =>
         mkHighlight (fst (Claim.source_span (Verdict.claim v)))
                     (snd (Claim.source_span (Verdict.claim v)))
                     (VerdictLabel_value (Verdict.label v))
                     (Claim.id (Verdict.claim v)))
      (AnalysisResult.verdicts result).

End StructuredRenderer.

(* ================================================================== *)
(** * tests/conftest.py: the fixtures the unit tests share *)

Module Fixtures.

Definition sample_claim : Claim.t :=
  Claim.mk "test_claim_001" "Python was created in 1991" (0, 26) 0.95 true
           TEMPORAL 0.95 false.

Definition evidence_001 : EvidenceChunk.t :=
  EvidenceChunk.mk "evidence_001"
    "Python was created by Guido van Rossum and first released in 1991."
    "python_facts.txt" 0.92 0.

Definition evidence_002 : EvidenceChunk.t :=
  EvidenceChunk.mk "evidence_002"
    "Python 3.0 was released on December 3, 2008."
    "python_facts.txt" 0.45 2.

Definition sample_evidence : list EvidenceChunk.t :=
  [evidence_001; evidence_002].

Definition sample_alignments : list AlignmentResult.t :=
  [ AlignmentResult.mk "test_claim_001" "evidence_001" SUPPORTS 0.9
      "Evidence directly confirms Python was released in 1991"
      true 0.92 0.88 NONE false None None;
    AlignmentResult.mk "test_claim_001" "evidence_002" IRRELEVANT 0.7
      "Evidence about Python 3.0 is not relevant to creation date"
      false 0.45 0.2 NONE false None None ].

Definition hallucination_claim : Claim.t :=
  Claim.mk "hallucination_001" "Python 3.12 completely removed the GIL"
           (0, 38) 0.92 true TEMPORAL 0.90 false.

Definition contradicting_evidence : list EvidenceChunk.t :=
  [ EvidenceChunk.mk "contra_001"
      "Python 3.12 did NOT remove the GIL - it introduced per-interpreter GIL as an experimental feature."
      "python_facts.txt" 0.88 5 ].

(** The default answer of [MockLLMProvider] to an alignment prompt. *)
Definition mock_alignment : Alignment.Response :=
  Alignment.mkResponse "SUPPORTS" 0.85 "Evidence directly supports the claim"
                       true 0.9 0.85 (Some false) (Some "NONE") None None.

Definition mock_llm (_ : nat) : result Alignment.Response := Ok mock_alignment.

(** [failing_complete_json] of the fallback tests. *)
Definition failing_llm (_ : nat) : result Alignment.Response :=
  Raise (OracleError "API Error").

(** The alignment of [test_strong_evidence_boost]. *)
Definition strong_alignment : AlignmentResult.t :=
  AlignmentResult.mk "test_claim_001" "evidence_001" SUPPORTS 0.95
                     "Strong support" true 0.95 0.9 NONE false None None.

(** The alignment and the calibrated confidence of
    [test_hallucinated_verdict_with_contradiction]. *)
Definition contradicting_alignment : AlignmentResult.t :=
  AlignmentResult.mk "hallucination_001" "contra_001" CONTRADICTS 0.9
                     "Evidence contradicts claim" true 0.85 0.1
                     DIRECT_NEGATION true None None.

Definition calibrated_contradiction : CalibratedConfidence.t :=
  CalibratedConfidence.mk "hallucination_001" 0.92 0.32
                          ["contradiction_detected"]
                          [("contradiction_detected", 0.6%Q)].

(** The two calibrated confidences of
    [test_hallucination_risk_calculation]. *)
Definition calibrated_high : CalibratedConfidence.t :=
  CalibratedConfidence.mk "test_claim_001" 0.95 0.55 ["no_evidence"]
                          [("no_evidence", 0.4%Q)].

Definition calibrated_low : CalibratedConfidence.t :=
  CalibratedConfidence.mk "test_claim_001" 0.7 0.75 [] [].

(** A claim the model is unsure of. *)
Definition unsure_claim : Claim.t :=
  Claim.mk "unsure_001" "Python was created in 1991" (0, 26) 0.2 true
           TEMPORAL 0.95 false.

(** An answer that labels the pair SUPPORTS and still names a
    contradiction type. *)
Definition typed_support : Alignment.Response :=
  Alignment.mkResponse "SUPPORTS" 0.85 "Evidence directly supports the claim"
                       true 0.9 0.85 (Some false) (Some "DIRECT_NEGATION")
                       None None.

(** A text of [n] copies of the letter a. *)
Definition letters (n : nat) : string := String.concat "" (repeat "a" n).

(** An extraction answer whose claim is nowhere in the input and whose
    offsets lie beyond it. *)
Definition stray_claim : Extractor.ClaimData :=
  Extractor.mkClaimData "Completely unrelated statement" (Some 100)
                        (Some 130) 0.9 (Some true) None None.


(** A stand-in for SHA-256 where a concrete run needs one. *)
Definition const_digest (_ : string) : string := "0123456789abcdef".

(** A store of three rows with two-dimensional embeddings, and its
    encoder. *)
Definition rows3 : list Retriever.Row :=
  [ Retriever.mkRow "r1" "first" "doc.txt" 0 [0.6; 0.8]%Q;
    Retriever.mkRow "r2" "second" "doc.txt" 1 [1; 0]%Q;
    Retriever.mkRow "r3" "third" "doc.txt" 2 [0; 1]%Q ].

Definition encode_x (_ : string) : list Q := [1; 0]%Q.

End Fixtures.

(* ================================================================== *)
(** * Further sample data *)

Module Samples.

(** Answers of the extraction oracle. *)
Definition sky_answer (_ : nat) : result (list Extractor.ClaimData) :=
  Ok [Extractor.mkClaimData "The sky is blue" None None 0.9%Q None None None;
      Extractor.mkClaimData "Too short" None None 0.9%Q None None None;
      Extractor.mkClaimData "Blue is the best colour" None None 0.9%Q
        (Some false) None None].

Definition rain_answer (_ : nat) : result (list Extractor.ClaimData) :=
  Ok [Extractor.mkClaimData "It might rain tomorrow" (Some 7) (Some 900)
        0.6%Q None (Some "DIRECT") None;
      Extractor.mkClaimData "Too short" None None 0.9%Q None None None].

Definition late_answer (attempt : nat) : result (list Extractor.ClaimData) :=
  match attempt with
  | 2%nat => Ok [Fixtures.stray_claim]
  | _ => Raise (OracleError "API Error")
  end.

Definition sky_entry : Extractor.ClaimData :=
  Extractor.mkClaimData "the SKY is blue" (Some 40) (Some 2) 0.9%Q None None
    None.

End Samples.

(* ================================================================== *)
(** * The repository's unit tests, replayed on the embedding *)

Module Replay.
Import Alignment.

(** tests/test_alignment.py, [test_negation_detection] *)
Example test_negation_detection :
  map _detect_negation
      ["Python did NOT remove the GIL"; "This isn't true"; "Never happened";
       "Python was created in 1991"]
  = [true; true; true; false].
Proof. vm_compute. reflexivity. Qed.

(** tests/test_alignment.py, [test_temporal_marker_extraction] *)
Example test_temporal_marker_extraction :
  _extract_temporal_markers "Python 3.12 was released in 2023" = ["2023"; "3.12"]
  /\ _extract_temporal_markers "No dates here" = [].
Proof. split; vm_compute; reflexivity. Qed.

(** tests/test_alignment.py, [test_quick_temporal_check] *)
Example test_quick_temporal_check :
  _quick_temporal_check "Python was released in 1991"
                        "Guido created Python in 1991" = true
  /\ _quick_temporal_check "Python is popular" "Many developers use Python"
     = true.
Proof. split; vm_compute; reflexivity. Qed.

(** tests/test_claim_extractor.py, [test_detects_hedging_language] *)
Example test_detects_hedging_language :
  map Extractor._detect_hedging
      ["Python might be popular"; "It is believed that Python is fast";
       "Python could possibly be the best"; "Python was created in 1991"]
  = [true; true; true; false].
Proof. vm_compute. reflexivity. Qed.

(** tests/test_claim_extractor.py, [test_detects_claim_types] *)
Example test_detects_claim_types :
  map Extractor._detect_claim_type
      ["Python might be popular"; "Python is faster than Java";
       "GPT-3 has 175 billion parameters"; "As of 2023, Python is popular";
       "X because Y and Z"; "Python is a language"]
  = [HEDGED; COMPARATIVE; QUANTITATIVE; TEMPORAL; MULTI_HOP; DIRECT].
Proof. vm_compute. reflexivity. Qed.

(** tests/test_calibrator.py, [test_vague_pattern_detection] *)
Example test_vague_pattern_detection :
  map Calibrator._detect_vague_language
      ["Python might be popular"; "It could have been released in 1991";
       "Perhaps this is true"; "Some developers use Python";
       "It seems to work"; "Around 1991"; "I think Python is good";
       "Python was released in 1991"; "The GIL prevents concurrent execution";
       "Django is a web framework"]
  = [true; true; true; true; true; true; true; false; false; false].
Proof. vm_compute. reflexivity. Qed.

(** tests/test_alignment.py, [test_contradiction_type_detection], first
    case. *)
Example test_direct_negation :
  _detect_contradiction_type "Python removed the GIL"
                             "Python did NOT remove the GIL" false true
  = DIRECT_NEGATION.
Proof. vm_compute. reflexivity. Qed.

(** tests/test_alignment.py, [test_contradiction_type_detection], second
    case: the test accepts TEMPORAL_MISMATCH or QUANTITATIVE_MISMATCH. *)
Example test_years_2023_2024 :
  _detect_contradiction_type "Released in 2023" "Released in 2024" false false
  = QUANTITATIVE_MISMATCH.
Proof. vm_compute. reflexivity. Qed.

(** tests/test_alignment.py,
    [test_heuristic_detects_negation_contradiction] *)
Example test_heuristic_detects_negation_contradiction :
  exists a,
    _heuristic_evaluate
      (Claim.mk "test" "Python removed the GIL" (0, 22) 0.9 true DIRECT 0.9 false)
      (EvidenceChunk.mk "ev" "Python did NOT remove the GIL" "test.txt" 0.85 0)
      "" = Ok a
    /\ AlignmentResult.label a = CONTRADICTS
    /\ AlignmentResult.negation_detected a = true
    /\ AlignmentResult.contradiction_type a = DIRECT_NEGATION.
Proof. eexists. split; [vm_compute; reflexivity|]. repeat split. Qed.

(** tests/test_alignment.py, [test_heuristic_fallback_on_llm_failure] *)
Example test_heuristic_fallback_on_llm_failure :
  exists a,
    evaluate_single Fixtures.sample_claim Fixtures.evidence_001
                    (Fixtures.failing_llm 0) = Ok a
    /\ AlignmentResult.explanation a
       = "Heuristic evaluation (LLM unavailable: API Error)".
Proof. eexists. split; [vm_compute; reflexivity|]. reflexivity. Qed.

(** tests/test_alignment.py, [test_evaluate_returns_alignment_results] and
    [test_evaluate_empty_evidence] *)
Example test_evaluate_lengths :
  (exists r, evaluate Fixtures.sample_claim Fixtures.sample_evidence
                      Fixtures.mock_llm = Ok r
             /\ List.length r = List.length Fixtures.sample_evidence)
  /\ evaluate Fixtures.sample_claim [] Fixtures.mock_llm = Ok [].
Proof.
  split; [|reflexivity].
  eexists. split; [vm_compute; reflexivity|]. reflexivity.
Qed.

(** tests/test_calibrator.py, [test_no_evidence_penalty] *)
Example test_no_evidence_penalty :
  exists cc,
    Calibrator.calibrate CalibrationConfig.default Fixtures.sample_claim [] []
    = Ok cc
    /\ In "no_evidence" (CalibratedConfidence.penalties_applied cc)
    /\ (CalibratedConfidence.calibrated_confidence cc
        < CalibratedConfidence.raw_confidence cc)%Q
    /\ exists p, CalibratedConfidence.penalty_breakdown cc = [("no_evidence", p)]
                 /\ (p == 0.4)%Q.
Proof.
  eexists. split; [vm_compute; reflexivity|].
  split; [now left|]. split; [reflexivity|].
  eexists. split; reflexivity.
Qed.

(** tests/test_calibrator.py, [test_penalty_breakdown_accuracy] *)
Example test_penalty_breakdown_accuracy :
  exists cc,
    Calibrator.calibrate CalibrationConfig.default
      (Claim.mk "vague_001" "Python might have been created" (0, 30) 0.9 true
                DIRECT 1.0 false) [] [] = Ok cc
    /\ CalibratedConfidence.penalties_applied cc
       = ["no_evidence"; "vague_language"]
    /\ (Qsum (dict_values (CalibratedConfidence.penalty_breakdown cc))
        == CalibratedConfidence.raw_confidence cc
           - CalibratedConfidence.calibrated_confidence cc)%Q.
Proof.
  eexists. split; [vm_compute; reflexivity|]. split; reflexivity.
Qed.

(** tests/test_verdict.py, [test_grounded_verdict_with_strong_evidence],
    [test_hallucinated_verdict_with_no_evidence],
    [test_hallucinated_verdict_with_contradiction] and
    [test_weak_verdict_with_partial_support] *)
Example test_verdict_labels :
  (exists v, Engine.compute VerdictConfig.default Fixtures.sample_claim
               Fixtures.sample_evidence [Fixtures.strong_alignment]
               (CalibratedConfidence.mk "test_claim_001" 0.95 0.9 [] [])
             = Ok v /\ Verdict.label v = GROUNDED)
  /\ (exists v, Engine.compute VerdictConfig.default Fixtures.sample_claim
                  [] [] Fixtures.calibrated_high
                = Ok v /\ Verdict.label v = HALLUCINATED
                /\ (Verdict.evidence_strength v == 0)%Q)
  /\ (exists v, Engine.compute VerdictConfig.default
                  Fixtures.hallucination_claim Fixtures.contradicting_evidence
                  [Fixtures.contradicting_alignment]
                  Fixtures.calibrated_contradiction
                = Ok v /\ Verdict.label v = HALLUCINATED
                /\ Verdict.contradiction_detected v = true)
  /\ (exists v, Engine.compute VerdictConfig.default Fixtures.sample_claim
                  Fixtures.sample_evidence
                  [AlignmentResult.mk "test_claim_001" "evidence_001"
                     WEAK_SUPPORT 0.85 "Partial support" true 0.8 0.8 NONE
                     false None None]
                  (CalibratedConfidence.mk "test_claim_001" 0.7 0.55
                     ["weak_evidence_only"] [("weak_evidence_only", 0.15%Q)])
                = Ok v /\ Verdict.label v = WEAK).
Proof.
  repeat split; eexists; (split; [vm_compute; reflexivity|]);
    repeat split; reflexivity.
Qed.

(** tests/test_verdict.py, [test_best_evidence_selection] *)
Example test_best_evidence_selection :
  Engine._find_best_evidence Fixtures.sample_alignments Fixtures.sample_evidence
  = Some Fixtures.evidence_001.
Proof. vm_compute. reflexivity. Qed.

(** tests/test_claim_extractor.py, [test_validates_spans]: the claim
    "Python" is found in the input, and is then dropped for its length. *)
Example test_validates_spans :
  Extractor.repair_span
    (Extractor.mkClaimData "Python" (Some 100) (Some 50) 0.9 (Some true)
                           None None)
    "Python was created in 1991." = (0, 6)
  /\ exists m,
       Extractor.extract_with_confidence Fixtures.const_digest
         ExtractionConfig.default
         (fun _ => Ok [Extractor.mkClaimData "Python" (Some 100) (Some 50) 0.9
                                             (Some true) None None])
         "Python was created in 1991." = Ok ([], m).
Proof.
  split; [vm_compute; reflexivity|].
  eexists. vm_compute. reflexivity.
Qed.

(** tests/test_claim_extractor.py, [test_hedged_claims_flagged] *)
Example test_hedged_claims_flagged :
  exists c m,
    Extractor.extract_with_confidence Fixtures.const_digest
      ExtractionConfig.default
      (fun _ => Ok [Extractor.mkClaimData "Python might be the fastest language"
                      (Some 0) (Some 36) 0.7 (Some true) None None])
      "Python might be the fastest language" = Ok ([c], m)
    /\ Claim.hedging_detected c = true
    /\ Claim.claim_type c = HEDGED.
Proof.
  do 2 eexists. split; [vm_compute; reflexivity|]. split; reflexivity.
Qed.

(** tests/test_claim_extractor.py, [test_extract_empty_text] *)
Example test_extract_empty_text :
  Extractor.extract Fixtures.const_digest ExtractionConfig.default
                    (fun _ => Ok []) "" = Ok [].
Proof. reflexivity. Qed.

(** tests/test_retriever.py, [test_retrieve_empty_corpus_returns_empty] *)
Example test_retrieve_empty_corpus_returns_empty :
  Retriever.retrieve Fixtures.encode_x RetrievalConfig.default []
                     "Any query" None = Ok [].
Proof. reflexivity. Qed.

End Replay.

(* ================================================================== *)
(** * Comparisons on [Q] *)

Lemma Qleb_le (a b : Q) : Qleb a b = true <-> (a <= b)%Q.
Proof. unfold Qleb. apply Qle_bool_iff. Qed.

Lemma Qleb_gt (a b : Q) : Qleb a b = false <-> (b < a)%Q.
Proof.
  unfold Qleb. split; intro H.
  - apply Qnot_le_lt. intro Hle. apply Qle_bool_iff in Hle. congruence.
  - destruct (Qle_bool a b) eqn:E; [|reflexivity].
    apply Qle_bool_iff in E. exfalso. apply (Qlt_not_le _ _ H E).
Qed.

Lemma Qltb_lt (a b : Q) : Qltb a b = true <-> (a < b)%Q.
Proof.
  unfold Qltb. rewrite negb_true_iff. apply (Qleb_gt b a).
Qed.

Lemma Qltb_ge (a b : Q) : Qltb a b = false <-> (b <= a)%Q.
Proof.
  unfold Qltb. rewrite negb_false_iff. apply (Qleb_le b a).
Qed.

Lemma in_unit_iff (x : Q) : in_unit x = true <-> (0 <= x <= 1)%Q.
Proof.
  unfold in_unit. rewrite andb_true_iff, !Qleb_le. tauto.
Qed.

(** Case analysis on a comparison, leaving its meaning as a hypothesis. *)
Ltac qcases :=
  repeat match goal with
    | |- context [Qltb ?a ?b] =>
        let E := fresh "E" in
        destruct (Qltb a b) eqn:E;
        [apply Qltb_lt in E | apply Qltb_ge in E]
    | |- context [Qleb ?a ?b] =>
        let E := fresh "E" in
        destruct (Qleb a b) eqn:E;
        [apply Qleb_le in E | apply Qleb_gt in E]
    | H : context [Qltb ?a ?b] |- _ =>
        let E := fresh "E" in
        destruct (Qltb a b) eqn:E;
        [apply Qltb_lt in E | apply Qltb_ge in E]
    | H : context [Qleb ?a ?b] |- _ =>
        let E := fresh "E" in
        destruct (Qleb a b) eqn:E;
        [apply Qleb_le in E | apply Qleb_gt in E]
    end.

Lemma py_min_spec (a b : Q) :
  (py_min a b <= a /\ py_min a b <= b
   /\ (py_min a b == a \/ py_min a b == b))%Q.
Proof. unfold py_min. qcases; repeat split; try lra; auto with qarith. Qed.

Lemma py_max_spec (a b : Q) :
  (a <= py_max a b /\ b <= py_max a b
   /\ (py_max a b == a \/ py_max a b == b))%Q.
Proof.
  unfold py_max, Qgtb. qcases; repeat split; try lra; auto with qarith.
Qed.

(** The clamp [max(0.0, min(1.0, x))]. *)
Lemma clamp_spec (x : Q) :
  let c := py_max 0.0 (py_min 1.0 x) in
  (0 <= c <= 1 /\ (x < 0 -> c == 0) /\ (1 < x -> c == 1)
   /\ (0 <= x <= 1 -> c == x))%Q.
Proof.
  unfold py_max, py_min, Qgtb. qcases; repeat split; intros; try lra.
Qed.

(* ================================================================== *)
(** * Verdict engine *)

Section EngineFacts.
Import Engine.

Lemma Verdict_new_ok claim label risk strength calibrated alignments best
      contra explanation v :
  Verdict.new claim label risk strength calibrated alignments best contra
              explanation = Ok v ->
  v = Verdict.mk claim label risk strength calibrated alignments best contra
                 explanation
  /\ (0 <= risk <= 1)%Q /\ (0 <= strength <= 1)%Q.
Proof.
  unfold Verdict.new. destruct (Verdict.valid _) eqn:E; [|discriminate].
  intros [= <-]. unfold Verdict.valid in E. simpl in E.
  apply andb_true_iff in E as [E1 E2].
  apply in_unit_iff in E1, E2. auto.
Qed.

Lemma label_eqb_eq (a b : AlignmentLabel) :
  AlignmentLabel_eqb a b = true <-> a = b.
Proof. destruct a, b; simpl; split; congruence. Qed.

(** What [compute] puts in the fields the properties below read. *)
Lemma compute_ok cfg claim evidence alignments calibrated v :
  compute cfg claim evidence alignments calibrated = Ok v ->
  Verdict.alignments v = alignments
  /\ Verdict.contradiction_detected v
     = Calibrator._has_contradiction alignments
  /\ Verdict.evidence_strength v = _compute_evidence_strength alignments evidence
  /\ Verdict.hallucination_risk v
     = hallucination_risk cfg (CalibratedConfidence.raw_confidence calibrated)
         (Verdict.evidence_strength v) (Verdict.contradiction_detected v)
  /\ Verdict.label v
     = verdict_label cfg (Verdict.evidence_strength v)
                     (Verdict.contradiction_detected v)
  /\ Verdict.calibrated_confidence v = calibrated.
Proof.
  unfold compute. intro H. apply Verdict_new_ok in H as [-> _].
  simpl. repeat split; reflexivity.
Qed.

End EngineFacts.

(** C3. Every verdict [compute] produces has [contradiction_detected] set
    exactly when one of the alignments it carries is labelled CONTRADICTS. *)
Theorem compute_contradiction_detected_iff :
  forall cfg claim evidence alignments calibrated v,
    Engine.compute cfg claim evidence alignments calibrated = Ok v ->
    (Verdict.contradiction_detected v = true
     <-> exists a, In a (Verdict.alignments v)
                   /\ AlignmentResult.label a = CONTRADICTS).
Proof.
  intros cfg claim evidence alignments calibrated v H.
  apply compute_ok in H as (Ha & Hc & _).
  rewrite Ha, Hc. unfold Calibrator._has_contradiction.
  rewrite existsb_exists.
  split; intros (a & Hin & Hl); exists a; split; auto;
    now apply label_eqb_eq.
Qed.

Lemma compute_contradiction_detected_iff_witness :
  exists v,
    Engine.compute VerdictConfig.default Fixtures.hallucination_claim
                   Fixtures.contradicting_evidence
                   [Fixtures.contradicting_alignment]
                   Fixtures.calibrated_contradiction
    = Ok v
    /\ (Verdict.contradiction_detected v = true
        <-> exists a, In a (Verdict.alignments v)
                      /\ AlignmentResult.label a = CONTRADICTS).
Proof.
  eexists. split; [vm_compute; reflexivity|].
  exact (compute_contradiction_detected_iff VerdictConfig.default
           Fixtures.hallucination_claim Fixtures.contradicting_evidence
           [Fixtures.contradicting_alignment]
           Fixtures.calibrated_contradiction _ eq_refl).
Defined.

Lemma Qmult_le_compat_nonneg_l (w x y : Q) :
  (0 <= w -> x <= y -> w * x <= w * y)%Q.
Proof.
  intros Hw Hxy. rewrite (Qmult_comm w x), (Qmult_comm w y).
  now apply Qmult_le_compat_r.
Qed.

(** The risk formula is monotone in the raw confidence and antitone in the
    evidence strength, for weights that are not negative. *)
Lemma hallucination_risk_mono cfg contra raw1 raw2 s1 s2 :
  (0 <= VerdictConfig.confidence_weight cfg)%Q ->
  (0 <= VerdictConfig.evidence_weight cfg)%Q ->
  (raw1 <= raw2)%Q -> (s2 <= s1)%Q ->
  (Engine.hallucination_risk cfg raw1 s1 contra
   <= Engine.hallucination_risk cfg raw2 s2 contra)%Q.
Proof.
  intros Hc He Hraw Hs. unfold Engine.hallucination_risk.
  pose proof (Qmult_le_compat_nonneg_l _ _ _ Hc Hraw) as H1.
  assert (H2 : (VerdictConfig.evidence_weight cfg * (1.0 - s1)
                <= VerdictConfig.evidence_weight cfg * (1.0 - s2))%Q)
    by (apply Qmult_le_compat_nonneg_l; [assumption | lra]).
  destruct contra; [|lra].
  unfold py_min. qcases; lra.
Qed.

(** C9. For two verdicts of [compute] under the same weights and with the
    same contradiction flag, a raw confidence that is not smaller together
    with an evidence strength that is not larger gives a hallucination risk
    that is not smaller: the risk never decreases when the raw confidence
    grows and never increases when the evidence strength grows.  The risk is
    [confidence_weight * raw + evidence_weight * (1 - strength)], plus 0.2
    and capped at 1 when a contradiction is detected. *)
Theorem compute_risk_monotone :
  forall cfg claim1 claim2 evidence1 evidence2 alignments1 alignments2
         calibrated1 calibrated2 v1 v2,
    VerdictConfig.valid cfg = true ->
    Engine.compute cfg claim1 evidence1 alignments1 calibrated1 = Ok v1 ->
    Engine.compute cfg claim2 evidence2 alignments2 calibrated2 = Ok v2 ->
    Verdict.contradiction_detected v1 = Verdict.contradiction_detected v2 ->
    (CalibratedConfidence.raw_confidence calibrated1
     <= CalibratedConfidence.raw_confidence calibrated2)%Q ->
    (Verdict.evidence_strength v2 <= Verdict.evidence_strength v1)%Q ->
    (Verdict.hallucination_risk v1 <= Verdict.hallucination_risk v2)%Q
    /\ Verdict.hallucination_risk v1
       = Engine.hallucination_risk cfg
           (CalibratedConfidence.raw_confidence calibrated1)
           (Verdict.evidence_strength v1) (Verdict.contradiction_detected v1).
Proof.
  intros cfg claim1 claim2 evidence1 evidence2 alignments1 alignments2
         calibrated1 calibrated2 v1 v2 Hcfg H1 H2 Hflag Hraw Hs.
  apply compute_ok in H1 as (_ & _ & _ & Hr1 & _).
  apply compute_ok in H2 as (_ & _ & _ & Hr2 & _).
  split; [|exact Hr1].
  rewrite Hr1, Hr2, Hflag.
  unfold VerdictConfig.valid in Hcfg.
  repeat (apply andb_true_iff in Hcfg as [Hcfg ?]).
  repeat match goal with H : in_unit _ = true |- _ => apply in_unit_iff in H end.
  apply hallucination_risk_mono; tauto.
Qed.

Lemma compute_risk_monotone_witness :
  exists v1 v2,
    Engine.compute VerdictConfig.default Fixtures.sample_claim [] []
                   Fixtures.calibrated_low = Ok v1
    /\ Engine.compute VerdictConfig.default Fixtures.sample_claim [] []
                      Fixtures.calibrated_high = Ok v2
    /\ (Verdict.hallucination_risk v1 <= Verdict.hallucination_risk v2)%Q
    /\ Verdict.hallucination_risk v1
       = Engine.hallucination_risk VerdictConfig.default
           (CalibratedConfidence.raw_confidence Fixtures.calibrated_low)
           (Verdict.evidence_strength v1) (Verdict.contradiction_detected v1).
Proof.
  do 2 eexists.
  split; [vm_compute; reflexivity|].
  split; [vm_compute; reflexivity|].
  refine (compute_risk_monotone VerdictConfig.default
            Fixtures.sample_claim Fixtures.sample_claim [] [] [] []
            Fixtures.calibrated_low Fixtures.calibrated_high _ _
            eq_refl eq_refl eq_refl eq_refl _ _);
    vm_compute; discriminate.
Defined.

(* ================================================================== *)
(** * Calibrator *)

(** How many times [key] occurs in a list of penalty keys. *)
Definition occurrences (key : string) (l : list string) : nat :=
  List.length (filter (String.eqb key) l).

Section CalibratorFacts.
Import Calibrator.

Lemma CalibratedConfidence_new_ok claim_id raw cal pens breakdown cc :
  CalibratedConfidence.new claim_id raw cal pens breakdown = Ok cc ->
  cc = CalibratedConfidence.mk claim_id raw cal pens breakdown.
Proof.
  unfold CalibratedConfidence.new.
  destruct (CalibratedConfidence.valid _); [|discriminate].
  now intros [= <-].
Qed.

Lemma calibrate_ok cfg claim alignments evidence cc :
  calibrate cfg claim alignments evidence = Ok cc ->
  let st := penalised cfg claim alignments evidence in
  CalibratedConfidence.raw_confidence cc = Claim.raw_confidence claim
  /\ CalibratedConfidence.calibrated_confidence cc
     = py_max 0.0 (py_min 1.0 (calibrated st))
  /\ CalibratedConfidence.penalties_applied cc = penalties st
  /\ CalibratedConfidence.penalty_breakdown cc = penalty_breakdown st.
Proof.
  unfold calibrate. intro H. apply CalibratedConfidence_new_ok in H as ->.
  simpl. repeat split; reflexivity.
Qed.

(** [calibrate] returns for every claim whose raw confidence passed the
    schema check. *)
Lemma calibrate_total cfg claim alignments evidence :
  in_unit (Claim.raw_confidence claim) = true ->
  exists cc, calibrate cfg claim alignments evidence = Ok cc.
Proof.
  intro Hraw. unfold calibrate, CalibratedConfidence.new.
  destruct (CalibratedConfidence.valid _) eqn:E; [eauto|].
  exfalso. unfold CalibratedConfidence.valid in E. simpl in E.
  rewrite Hraw in E. simpl in E.
  pose proof (clamp_spec (calibrated (penalised cfg claim alignments evidence)))
    as (Hc & _).
  apply in_unit_iff in Hc. simpl in Hc. congruence.
Qed.

(** The keys of the three evidence rules and of the vague-language rule in
    the list [calibrate] builds. *)
Lemma penalised_keys cfg claim alignments evidence :
  let P := penalties (penalised cfg claim alignments evidence) in
  (occurrences "no_evidence" P
   + occurrences "contradiction_detected" P
   + occurrences "weak_evidence_only" P
   = if PyStr.nonempty evidence && negb (_has_contradiction alignments)
        && _has_strong_support alignments
     then 0 else 1)%nat
  /\ occurrences "no_evidence" P
     = (if PyStr.nonempty evidence then 0 else 1)%nat
  /\ occurrences "vague_language" P
     = (if _detect_vague_language (Claim.text claim) then 1 else 0)%nat.
Proof.
  unfold penalised, evidence_boost, vague_penalty, evidence_penalty.
  destruct (PyStr.nonempty evidence), (_has_contradiction alignments),
    (_has_strong_support alignments),
    (_detect_vague_language (Claim.text claim));
    cbn [negb andb];
    repeat match goal with
      | |- context [if Qgtb ?a ?b then _ else _] => destruct (Qgtb a b)
      end;
    repeat split; reflexivity.
Qed.

(** The running value is the raw confidence minus the recorded deltas. *)
Lemma penalised_accounting cfg claim alignments evidence :
  let st := penalised cfg claim alignments evidence in
  (calibrated st
   == Claim.raw_confidence claim - Qsum (dict_values (penalty_breakdown st)))%Q.
Proof.
  unfold penalised, evidence_boost, vague_penalty, evidence_penalty.
  destruct (PyStr.nonempty evidence), (_has_contradiction alignments),
    (_has_strong_support alignments),
    (_detect_vague_language (Claim.text claim));
    cbn [negb andb];
    repeat match goal with
      | |- context [if Qgtb ?a ?b then _ else _] =>
          let E := fresh "E" in destruct (Qgtb a b) eqn:E
      end;
    cbn -[Qplus Qminus Qmult Qopp Qeq py_min _compute_evidence_quality];
    try lra;
    (* a quality above 0.7 gives a boost above 0 *)
    exfalso; unfold Qgtb in *;
    repeat match goal with
      | H : Qltb _ _ = true |- _ => apply Qltb_lt in H
      | H : Qltb _ _ = false |- _ => apply Qltb_ge in H
      end;
    unfold py_min in *; qcases; lra.
Qed.

End CalibratorFacts.

(** C2 (amended). In the list of penalties [calibrate] returns, the three
    keys no_evidence, contradiction_detected and weak_evidence_only occur
    once in total, except that none of them occurs when the evidence is not
    empty, no alignment contradicts and some alignment supports strongly;
    vague_language occurs once exactly when the claim text is vague,
    whichever of the three fired. *)
Theorem calibrate_penalty_keys :
  forall cfg claim alignments evidence cc,
    Calibrator.calibrate cfg claim alignments evidence = Ok cc ->
    (occurrences "no_evidence" (CalibratedConfidence.penalties_applied cc)
     + occurrences "contradiction_detected"
                   (CalibratedConfidence.penalties_applied cc)
     + occurrences "weak_evidence_only"
                   (CalibratedConfidence.penalties_applied cc)
     = if PyStr.nonempty evidence
          && negb (Calibrator._has_contradiction alignments)
          && Calibrator._has_strong_support alignments
       then 0 else 1)%nat
    /\ occurrences "vague_language" (CalibratedConfidence.penalties_applied cc)
       = (if Calibrator._detect_vague_language (Claim.text claim)
          then 1 else 0)%nat.
Proof.
  intros cfg claim alignments evidence cc H.
  apply calibrate_ok in H as (_ & _ & -> & _).
  pose proof (penalised_keys cfg claim alignments evidence) as (H1 & _ & H3).
  split; assumption.
Qed.

Lemma calibrate_penalty_keys_witness :
  exists cc,
    Calibrator.calibrate CalibrationConfig.default Fixtures.sample_claim [] []
    = Ok cc
    /\ (occurrences "no_evidence" (CalibratedConfidence.penalties_applied cc)
        + occurrences "contradiction_detected"
                      (CalibratedConfidence.penalties_applied cc)
        + occurrences "weak_evidence_only"
                      (CalibratedConfidence.penalties_applied cc)
        = 1)%nat
    /\ occurrences "vague_language" (CalibratedConfidence.penalties_applied cc)
       = 0%nat.
Proof.
  eexists. split; [vm_compute; reflexivity|].
  exact (calibrate_penalty_keys CalibrationConfig.default
           Fixtures.sample_claim [] [] _ eq_refl).
Defined.

(** With strong support and no contradiction none of the three keys is
    applied: the input of [test_strong_evidence_boost]. *)
Lemma calibrate_strong_support_no_key :
  exists cc,
    Calibrator.calibrate CalibrationConfig.default Fixtures.sample_claim
                         [Fixtures.strong_alignment] Fixtures.sample_evidence
    = Ok cc
    /\ ~ In "no_evidence" (CalibratedConfidence.penalties_applied cc)
    /\ ~ In "contradiction_detected" (CalibratedConfidence.penalties_applied cc)
    /\ ~ In "weak_evidence_only" (CalibratedConfidence.penalties_applied cc).
Proof.
  eexists. split; [vm_compute; reflexivity|].
  cbn. repeat split; intros [H|[]]; discriminate H.
Qed.

(** Over exact rationals the accounting is an identity.  For every result
    of [calibrate], with [total] the sum of the values of its penalty
    breakdown: when [raw - total] lies in [0,1] the raw confidence minus the
    calibrated one equals [total]; otherwise the calibrated confidence is
    [raw - total] clamped, 0 below and 1 above. *)
Lemma calibrate_accounting_exact :
  forall cfg claim alignments evidence cc,
    Calibrator.calibrate cfg claim alignments evidence = Ok cc ->
    let raw := CalibratedConfidence.raw_confidence cc in
    let cal := CalibratedConfidence.calibrated_confidence cc in
    let total := Qsum (dict_values (CalibratedConfidence.penalty_breakdown cc)) in
    ((0 <= raw - total <= 1 -> raw - cal == total)
     /\ (raw - total < 0 -> cal == 0)
     /\ (1 < raw - total -> cal == 1))%Q.
Proof.
  intros cfg claim alignments evidence cc H.
  apply calibrate_ok in H as (-> & -> & _ & ->).
  pose proof (penalised_accounting cfg claim alignments evidence) as Hacc.
  pose proof (clamp_spec
                (Calibrator.calibrated
                   (Calibrator.penalised cfg claim alignments evidence)))
    as (_ & Hlo & Hhi & Hin).
  cbv zeta in *.
  repeat split; intros.
  - rewrite Hin; lra.
  - rewrite Hlo; lra.
  - rewrite Hhi; lra.
Qed.

Section Calibrator64Facts.
Import PrimFloat Calibrator64.



End Calibrator64Facts.



Section Binary64Example.
Import PrimFloat.


End Binary64Example.

(* ================================================================== *)
(** * Alignment evaluator *)

Section AlignmentFacts.
Import Alignment.

Lemma AlignmentResult_new_ok cid eid label conf expl tm sem log ct neg ed cd a :
  AlignmentResult.new cid eid label conf expl tm sem log ct neg ed cd = Ok a ->
  a = AlignmentResult.mk cid eid label conf expl tm sem log ct neg ed cd.
Proof.
  unfold AlignmentResult.new.
  destruct (AlignmentResult.valid _); [|discriminate].
  now intros [= <-].
Qed.

(** The string [AlignmentLabel(...)] accepts as CONTRADICTS is the one line
    164 compares against. *)
Lemma AlignmentLabel_of_contradicts s l :
  AlignmentLabel_of s = Ok l ->
  (String.eqb s "CONTRADICTS" = true <-> l = CONTRADICTS).
Proof.
  unfold AlignmentLabel_of.
  destruct (String.eqb s "SUPPORTS") eqn:E1;
    [apply String.eqb_eq in E1; subst s; intros [= <-]; split; discriminate|].
  destruct (String.eqb s "WEAK_SUPPORT") eqn:E2;
    [apply String.eqb_eq in E2; subst s; intros [= <-]; split; discriminate|].
  destruct (String.eqb s "CONTRADICTS") eqn:E3;
    [intros [= <-]; split; reflexivity|].
  destruct (String.eqb s "IRRELEVANT") eqn:E4;
    [intros [= <-]; split; discriminate | discriminate].
Qed.

(** The rule-based detection never answers NONE. *)
Lemma _detect_contradiction_type_not_none claim evidence cn en :
  _detect_contradiction_type claim evidence cn en <> NONE.
Proof.
  unfold _detect_contradiction_type.
  repeat match goal with
    | |- context [if ?c then _ else _] => destruct c
    end; discriminate.
Qed.

Lemma heuristic_label_inv nm tm sem log label ct :
  heuristic_label nm tm sem log = (label, ct) ->
  (label = CONTRADICTS -> ct <> NONE) /\ (label <> CONTRADICTS -> ct = NONE).
Proof.
  unfold heuristic_label.
  repeat match goal with
    | |- context [if ?c then _ else _] => destruct c
    end; intros [= <- <-]; split; congruence.
Qed.

Lemma ContradictionType_eqb_eq (a b : ContradictionType) :
  ContradictionType_eqb a b = true <-> a = b.
Proof. destruct a, b; simpl; split; congruence. Qed.

End AlignmentFacts.

(** The oracle labels the pair SUPPORTS and names DIRECT_NEGATION: the
    result keeps both. *)
Lemma evaluate_single_keeps_oracle_type :
  exists a,
    Alignment.evaluate_single Fixtures.sample_claim Fixtures.evidence_001
                              (Ok Fixtures.typed_support) = Ok a
    /\ AlignmentResult.label a <> CONTRADICTS
    /\ AlignmentResult.contradiction_type a <> NONE.
Proof.
  eexists. split; [vm_compute; reflexivity|].
  cbn. split; discriminate.
Qed.

(** C1 (amended). For every result of [evaluate_single]: a CONTRADICTS label
    carries a contradiction type other than NONE; a label other than
    CONTRADICTS carries NONE on the heuristic path and, on the oracle path,
    the type the oracle's answer names (NONE when it names none or an
    unknown one). *)
Theorem evaluate_single_label_type :
  forall claim evidence outcome a,
    Alignment.evaluate_single claim evidence outcome = Ok a ->
    (AlignmentResult.label a = CONTRADICTS ->
     AlignmentResult.contradiction_type a <> NONE)
    /\ (AlignmentResult.label a <> CONTRADICTS ->
        AlignmentResult.contradiction_type a
        = match outcome with
          | Ok res => Alignment.parse_contradiction_type res
          | Raise _ => NONE
          end).
Proof.
  intros claim evidence [res|e] a H; unfold Alignment.evaluate_single in H.
  - destruct (AlignmentLabel_of (Alignment.r_label res)) as [l|] eqn:El;
      [|discriminate].
    apply AlignmentLabel_of_contradicts in El.
    cbn [bind] in H. apply AlignmentResult_new_ok in H. subst a.
    cbn [AlignmentResult.label AlignmentResult.contradiction_type].
    destruct (String.eqb (Alignment.r_label res) "CONTRADICTS") eqn:Es.
    + split; [intros _|intro Hn; exfalso; apply Hn; now apply El].
      destruct (ContradictionType_eqb (Alignment.parse_contradiction_type res)
                                      NONE) eqn:Ec; cbn [andb].
      * apply _detect_contradiction_type_not_none.
      * intro Hc. apply ContradictionType_eqb_eq in Hc. congruence.
    + cbn [andb]. split; [|reflexivity].
      intro Hl. apply El in Hl. discriminate.
  - unfold Alignment._heuristic_evaluate in H.
    destruct (Alignment.heuristic_label _ _ _ _) as [label ct] eqn:Eh.
    apply heuristic_label_inv in Eh.
    apply AlignmentResult_new_ok in H. subst a. exact Eh.
Qed.

Lemma evaluate_single_label_type_witness :
  exists a,
    Alignment.evaluate_single Fixtures.sample_claim Fixtures.evidence_001
                              (Ok Fixtures.mock_alignment) = Ok a
    /\ (AlignmentResult.label a = CONTRADICTS ->
        AlignmentResult.contradiction_type a <> NONE)
    /\ (AlignmentResult.label a <> CONTRADICTS ->
        AlignmentResult.contradiction_type a
        = Alignment.parse_contradiction_type Fixtures.mock_alignment).
Proof.
  eexists. split; [vm_compute; reflexivity|].
  exact (evaluate_single_label_type Fixtures.sample_claim Fixtures.evidence_001
           (Ok Fixtures.mock_alignment) _ eq_refl).
Defined.

(* ================================================================== *)
(** * What a match of a pattern is, and the matcher's soundness *)

Section ReFacts.
Import PyStr Re.

(** [matches r cu cap cu' cap']: from the cursor [cu], holding the group
    text [cap], the pattern [r] can consume the subject up to [cu'] and
    leave the group text [cap']. *)
Inductive matches
  : regex -> cursor -> option (list ascii) -> cursor -> option (list ascii)
    -> Prop :=
| M_Eps cu cap : matches Eps cu cap cu cap
| M_Chr p cu cap c l :
    rest cu = c :: l -> p c = true ->
    matches (Chr p) cu cap (mkCursor (Some c) l (S (pos cu))) cap
| M_WordB cu cap : at_boundary cu = true -> matches WordB cu cap cu cap
| M_Seq r1 r2 cu cap cu1 cap1 cu2 cap2 :
    matches r1 cu cap cu1 cap1 -> matches r2 cu1 cap1 cu2 cap2 ->
    matches (Seq r1 r2) cu cap cu2 cap2
| M_AltL r1 r2 cu cap cu' cap' :
    matches r1 cu cap cu' cap' -> matches (Alt r1 r2) cu cap cu' cap'
| M_AltR r1 r2 cu cap cu' cap' :
    matches r2 cu cap cu' cap' -> matches (Alt r1 r2) cu cap cu' cap'
| M_StarNil r cu cap : matches (Star r) cu cap cu cap
| M_StarCons r cu cap cu1 cap1 cu2 cap2 :
    matches r cu cap cu1 cap1 -> (pos cu < pos cu1)%nat ->
    matches (Star r) cu1 cap1 cu2 cap2 ->
    matches (Star r) cu cap cu2 cap2
| M_Group r cu cap cu' cap' :
    matches r cu cap cu' cap' ->
    matches (Group r) cu cap cu'
            (Some (firstn (pos cu' - pos cu) (rest cu))).

(** Whatever [run] answers, it answers through its continuation, called
    at the end of a match. *)
Lemma run_sound r :
  forall cu cap k o,
    run r cu cap k = Some o ->
    exists cu' cap', matches r cu cap cu' cap' /\ k cu' cap' = Some o.
Proof.
  induction r as [|p| |r1 IH1 r2 IH2|r1 IH1 r2 IH2|r1 IH1|r1 IH1];
    intros cu cap k o H; cbn [run] in H.
  - exists cu, cap. split; [constructor | assumption].
  - destruct (rest cu) as [|c l] eqn:Er; [discriminate|].
    destruct (p c) eqn:Ep; [|discriminate].
    eexists _, _. split; [econstructor; eassumption | assumption].
  - destruct (at_boundary cu) eqn:Eb; [|discriminate].
    exists cu, cap. split; [now constructor | assumption].
  - apply IH1 in H as (cu1 & cap1 & Hm1 & H).
    apply IH2 in H as (cu2 & cap2 & Hm2 & H).
    exists cu2, cap2. split; [econstructor; eassumption | assumption].
  - destruct (run r1 cu cap k) as [o1|] eqn:E1.
    + injection H as <-. apply IH1 in E1 as (cu' & cap' & Hm & Hk).
      exists cu', cap'. split; [now apply M_AltL | assumption].
    + apply IH2 in H as (cu' & cap' & Hm & Hk).
      exists cu', cap'. split; [now apply M_AltR | assumption].
  - assert (Hloop : forall n cu0 cap0 o0,
               (fix loop (n : nat) (cu0 : cursor) (cap0 : option (list ascii))
                  : option outcome :=
                  match n with
                  | O => k cu0 cap0
                  | S n' =>
                      match run r1 cu0 cap0
                              (fun cu' cap' =>
                                 if (pos cu0 <? pos cu')%nat
                                 then loop n' cu' cap' else None)
                      with
                      | Some o => Some o
                      | None => k cu0 cap0
                      end
                  end) n cu0 cap0 = Some o0 ->
               exists cu' cap',
                 matches (Star r1) cu0 cap0 cu' cap' /\ k cu' cap' = Some o0).
    { induction n as [|n IHn]; intros cu0 cap0 o0 Hn.
      - exists cu0, cap0. split; [constructor | assumption].
      - destruct (run r1 cu0 cap0 _) as [o1|] eqn:E1 in Hn.
        + injection Hn as <-. apply IH1 in E1 as (cu1 & cap1 & Hm1 & Hk).
          destruct (pos cu0 <? pos cu1)%nat eqn:Elt; [|discriminate].
          apply Nat.ltb_lt in Elt.
          apply IHn in Hk as (cu2 & cap2 & Hm2 & Hk).
          exists cu2, cap2. split; [econstructor; eassumption | assumption].
        + exists cu0, cap0. split; [constructor | assumption]. }
    exact (Hloop (S (List.length (rest cu))) cu cap o H).
  - apply IH1 in H as (cu' & cap' & Hm & Hk).
    eexists _, _. split; [econstructor; eassumption | eassumption].
Qed.


Ltac inv H := inversion H; subst; clear H.

(** A match of [YEAR_PATTERN] leaves "19" or "20" in the group. *)
Lemma year_pattern_group cu cu' cap' :
  matches Alignment.YEAR_PATTERN cu None cu' cap' ->
  cap' = Some (chars "19") \/ cap' = Some (chars "20").
Proof.
  cbv [Alignment.YEAR_PATTERN seqs alts lit times digit lit_char chars
       list_ascii_of_string map].
  intro H.
  repeat match goal with
    | H : matches (Seq _ _) _ _ _ _ |- _ => inv H
    | H : matches (Alt _ _) _ _ _ _ |- _ => inv H
    | H : matches (Group _) _ _ _ _ |- _ => inv H
    | H : matches (Chr _) _ _ _ _ |- _ => inv H
    | H : matches WordB _ _ _ _ |- _ => inv H
    | H : matches Eps _ _ _ _ |- _ => inv H
    end.
  all: cbn [rest pos] in *;
    repeat match goal with
      | H : (_ =? _)%char = true |- _ => apply Ascii.eqb_eq in H
      end;
    subst;
    match goal with
    | H : rest ?cu = _ |- context [pos ?cu] =>
        rewrite H;
        replace (S (S (pos cu)) - pos cu)%nat with 2%nat by lia
    end;
    cbn [firstn]; auto.
Qed.

Lemma match_at_year_group p l i m :
  match_at Alignment.YEAR_PATTERN p l i = Some m ->
  m_group m = Some (chars "19") \/ m_group m = Some (chars "20").
Proof.
  unfold match_at.
  destruct (run _ _ _ _) as [[cu cap]|] eqn:E; [|discriminate].
  intros [= <-]. cbn [m_group].
  apply run_sound in E as (cu' & cap' & Hm & [= _ <-]).
  eapply year_pattern_group; eassumption.
Qed.

Lemma matches_at_year_group l :
  forall p i skip m,
    In m (matches_at Alignment.YEAR_PATTERN p l i skip) ->
    m_group m = Some (chars "19") \/ m_group m = Some (chars "20").
Proof.
  induction l as [|c l IH]; intros p i skip m H; cbn [matches_at] in H.
  - destruct skip; [|contradiction].
    destruct (match_at _ _ _ _) as [m'|] eqn:E; [|contradiction].
    destruct H as [<-|[]]. eapply match_at_year_group; eassumption.
  - destruct skip; [|eapply IH; eassumption].
    destruct (match_at _ _ _ _) as [m'|] eqn:E; [|eapply IH; eassumption].
    destruct H as [<-|H]; [|eapply IH; eassumption].
    eapply match_at_year_group; eassumption.
Qed.

(** Whatever the text, [_extract_years] returns century prefixes, never a
    four-digit year. *)
Lemma _extract_years_centuries text y :
  In y (Alignment._extract_years text) -> y = "19" \/ y = "20".
Proof.
  unfold Alignment._extract_years, findall. rewrite in_map_iff.
  intros (m & <- & Hm).
  apply matches_at_year_group in Hm.
  replace (has_group Alignment.YEAR_PATTERN) with true by reflexivity.
  destruct Hm as [-> | ->]; [left | right]; reflexivity.
Qed.


Lemma mem_In x l : mem x l = true <-> In x l.
Proof.
  unfold mem. rewrite existsb_exists. split.
  - intros (y & Hy & E). apply String.eqb_eq in E. now subst.
  - intro H. exists x. split; [assumption | apply String.eqb_refl].
Qed.

Lemma dedup_In x l : In x (dedup l) <-> In x l.
Proof.
  induction l as [|y l IH]; cbn [dedup]; [reflexivity|].
  destruct (mem y l) eqn:E.
  - rewrite IH. apply mem_In in E. simpl. split; [auto|].
    intros [<-|H]; assumption.
  - simpl. rewrite IH. reflexivity.
Qed.

Lemma inter_In x a b : In x (inter a b) <-> In x a /\ In x b.
Proof.
  unfold inter. rewrite filter_In, dedup_In, mem_In. reflexivity.
Qed.

Lemma nonempty_In {A : Type} (l : list A) :
  nonempty l = true <-> exists x, In x l.
Proof.
  destruct l as [|x l]; simpl; split; try discriminate.
  - intros [x []].
  - intros _. exists x. now left.
  - reflexivity.
Qed.

(** TEMPORAL_MISMATCH is reconstructed only when all the years of one text
    are of the 1900s and all the years of the other are of the 2000s: two
    different years of one century never give it. *)
Lemma temporal_mismatch_across_centuries claim evidence cn en :
  Alignment._detect_contradiction_type claim evidence cn en = TEMPORAL_MISMATCH ->
  ((forall y, In y (Alignment._extract_years claim) -> y = "19")
   /\ (forall y, In y (Alignment._extract_years evidence) -> y = "20"))
  \/ ((forall y, In y (Alignment._extract_years claim) -> y = "20")
      /\ (forall y, In y (Alignment._extract_years evidence) -> y = "19")).
Proof.
  unfold Alignment._detect_contradiction_type.
  destruct (negb (Bool.eqb cn en)); [discriminate|].
  destruct (nonempty (dedup (Alignment._extract_years claim))
            && nonempty (dedup (Alignment._extract_years evidence))
            && negb (nonempty (inter (dedup (Alignment._extract_years claim))
                                     (dedup (Alignment._extract_years evidence)))))
    eqn:E.
  2: { match goal with
       | |- (if ?c then _ else _) = _ -> _ => destruct c
       end; intro H; discriminate H. }
  intros _.
  apply andb_true_iff in E as [E Hdis].
  apply andb_true_iff in E as [Hc He].
  apply nonempty_In in Hc as [c Hc], He as [e He].
  apply (proj1 (dedup_In _ _)) in Hc. apply (proj1 (dedup_In _ _)) in He.
  assert (Hdisj : forall y, In y (Alignment._extract_years claim) ->
                            In y (Alignment._extract_years evidence) -> False).
  { intros y H1 H2. apply negb_true_iff in Hdis.
    assert (Hn : nonempty (inter (dedup (Alignment._extract_years claim))
                                 (dedup (Alignment._extract_years evidence)))
                 = true).
    { apply nonempty_In. exists y. apply inter_In. now rewrite !dedup_In. }
    congruence. }
  destruct (_extract_years_centuries _ _ Hc) as [-> | ->];
    destruct (_extract_years_centuries _ _ He) as [-> | ->];
    try (exfalso; eapply Hdisj; eassumption).
  - left. split; intros y Hy;
      destruct (_extract_years_centuries _ _ Hy) as [-> | ->];
      try reflexivity; exfalso; eapply Hdisj; eassumption.
  - right. split; intros y Hy;
      destruct (_extract_years_centuries _ _ Hy) as [-> | ->];
      try reflexivity; exfalso; eapply Hdisj; eassumption.
Qed.

End ReFacts.

(** C5. On a claim that mentions only the year 2021 and evidence that
    mentions only the year 2023, neither negated, [_extract_years] returns
    the text of the capturing group, "20", for both, so the year sets
    intersect and the reconstructed type is QUANTITATIVE_MISMATCH, not
    TEMPORAL_MISMATCH. *)
Theorem detect_contradiction_type_2021_2023 :
  Alignment._extract_years "Released in 2021" = ["20"]
  /\ Alignment._extract_years "Released in 2023" = ["20"]
  /\ Alignment._detect_contradiction_type "Released in 2021" "Released in 2023"
                                          false false
     = QUANTITATIVE_MISMATCH.
Proof. repeat split; vm_compute; reflexivity. Qed.

(* ================================================================== *)
(** * A claim without evidence *)

Section NoEvidence.
Import Engine.

Lemma evaluate_no_evidence claim llm : Alignment.evaluate claim [] llm = Ok [].
Proof. reflexivity. Qed.

(** With no alignments and the default configuration the verdict exists and
    is HALLUCINATED, whatever the raw confidence. *)
Lemma compute_no_alignments claim evidence calibrated :
  in_unit (CalibratedConfidence.raw_confidence calibrated) = true ->
  exists v,
    compute VerdictConfig.default claim evidence [] calibrated = Ok v
    /\ Verdict.alignments v = []
    /\ (Verdict.evidence_strength v == 0)%Q
    /\ Verdict.label v = HALLUCINATED
    /\ (Verdict.hallucination_risk v
        == 0.4 * CalibratedConfidence.raw_confidence calibrated + 0.6)%Q
    /\ Verdict.calibrated_confidence v = calibrated.
Proof.
  intro Hraw. apply in_unit_iff in Hraw.
  unfold compute, Verdict.new.
  destruct (Verdict.valid _) eqn:E.
  - eexists. split; [reflexivity|].
    cbn -[Qeq Qmult Qplus Qminus].
    repeat split; try reflexivity. lra.
  - exfalso. unfold Verdict.valid in E.
    cbn -[in_unit Qmult Qplus Qminus] in E.
    apply andb_false_iff in E as [E|E]; [|discriminate].
    assert (H : in_unit (0.4 * CalibratedConfidence.raw_confidence calibrated
                         + 0.6 * (1.0 - 0.0))%Q = true)
      by (apply in_unit_iff; lra).
    congruence.
Qed.

End NoEvidence.

(** C6 (amended). For every well-formed claim whose retrieval returns the
    empty list (an empty corpus in particular), under the default
    configuration: the verdict exists, its alignments are empty, its
    evidence strength is 0, the no_evidence penalty is applied exactly once,
    the risk is [0.4 * raw + 0.6], and the label is HALLUCINATED whatever
    the raw confidence. *)
Theorem analyze_claim_no_evidence :
  forall encode rows claim llm,
    Claim.valid claim = true ->
    Retriever.retrieve encode (Pipeline.retrieval Pipeline.default) rows
                       (Claim.text claim) None = Ok [] ->
    exists v,
      Pipeline.analyze_claim encode Pipeline.default rows claim llm = Ok v
      /\ Verdict.alignments v = []
      /\ (Verdict.evidence_strength v == 0)%Q
      /\ occurrences "no_evidence"
           (CalibratedConfidence.penalties_applied
              (Verdict.calibrated_confidence v)) = 1%nat
      /\ Verdict.label v = HALLUCINATED
      /\ (Verdict.hallucination_risk v
          == 0.4 * Claim.raw_confidence claim + 0.6)%Q.
Proof.
  intros encode rows claim llm Hvalid Hret.
  assert (Hraw : in_unit (Claim.raw_confidence claim) = true).
  { unfold Claim.valid in Hvalid.
    repeat (apply andb_true_iff in Hvalid as [Hvalid ?]). assumption. }
  unfold Pipeline.analyze_claim. rewrite Hret. cbn [bind].
  unfold Pipeline.judge. rewrite evaluate_no_evidence. cbn [bind].
  destruct (calibrate_total (Pipeline.calibration Pipeline.default) claim [] []
              Hraw) as [cc Hcc].
  rewrite Hcc. cbn [bind].
  pose proof (calibrate_ok _ _ _ _ _ Hcc) as (Hr & _ & Hp & _).
  pose proof (penalised_keys (Pipeline.calibration Pipeline.default) claim [] [])
    as (_ & Hne & _).
  destruct (compute_no_alignments claim [] cc) as (v & Hv & Ha & Hs & Hl & Hk & Hc).
  { now rewrite Hr. }
  exists v. cbn [Pipeline.verdict Pipeline.default].
  rewrite Hv, Hc, Hp, <- Hr. repeat split; assumption.
Qed.

Lemma analyze_claim_no_evidence_witness :
  exists v,
    Pipeline.analyze_claim Fixtures.encode_x Pipeline.default []
                           Fixtures.sample_claim Fixtures.mock_llm = Ok v
    /\ Verdict.alignments v = []
    /\ (Verdict.evidence_strength v == 0)%Q
    /\ occurrences "no_evidence"
         (CalibratedConfidence.penalties_applied
            (Verdict.calibrated_confidence v)) = 1%nat
    /\ Verdict.label v = HALLUCINATED
    /\ (Verdict.hallucination_risk v
        == 0.4 * Claim.raw_confidence Fixtures.sample_claim + 0.6)%Q.
Proof.
  exact (analyze_claim_no_evidence Fixtures.encode_x [] Fixtures.sample_claim
           Fixtures.mock_llm eq_refl eq_refl).
Defined.

(** A claim of raw confidence 0.2 on an empty corpus is HALLUCINATED. *)
Lemma analyze_claim_unsure_hallucinated :
  exists v,
    Pipeline.analyze_claim Fixtures.encode_x Pipeline.default []
                           Fixtures.unsure_claim Fixtures.mock_llm = Ok v
    /\ Verdict.label v = HALLUCINATED
    /\ ~ (0.5 <= Claim.raw_confidence Fixtures.unsure_claim)%Q.
Proof.
  eexists. split; [vm_compute; reflexivity|].
  split; [reflexivity|].
  cbn. intro H. apply Qle_bool_iff in H. discriminate H.
Qed.

(* ================================================================== *)
(** * Chunking *)

Section ChunkFacts.
Import PyStr Retriever.

Lemma length_chars (s : string) : List.length (chars s) = String.length s.
Proof.
  unfold chars. induction s as [|c s IH]; simpl; [reflexivity | now rewrite IH].
Qed.

(** [s[0:hi]] is [s] once [hi] reaches the length of [s]. *)
Lemma slice_whole (s : string) (hi : Z) : len s <= hi -> slice s 0 hi = s.
Proof.
  intro H. unfold slice, slice_list, clamp_index, len in *.
  rewrite length_chars. cbn [Z.ltb Z.compare].
  destruct (hi <? 0) eqn:E; [apply Z.ltb_lt in E; lia|].
  replace (Z.to_nat (Z.min 0 (Z.of_nat (String.length s)))) with 0%nat by lia.
  replace (Z.to_nat (Z.min hi (Z.of_nat (String.length s))))
    with (String.length s) by lia.
  cbn [skipn]. rewrite Nat.sub_0_r, <- length_chars, firstn_all.
  apply string_of_list_ascii_of_string.
Qed.

Lemma strip_nonempty (s : string) : strip s <> "" -> 0 < len s.
Proof.
  destruct s; [intro H; exfalso; apply H; reflexivity|].
  intros _. unfold len. simpl String.length. lia.
Qed.

(** Past the end of the text the loop is over, whatever fuel is left. *)
Lemma chunk_loop_exit fuel cfg text start chunks :
  len text <= start -> chunk_loop fuel cfg text start chunks = Some chunks.
Proof.
  intro H. apply Z.ltb_ge in H.
  destruct fuel; cbn [chunk_loop]; now rewrite H.
Qed.

(** More fuel does not change a result. *)
Lemma chunk_loop_more_fuel fuel extra cfg text :
  forall start chunks r,
    chunk_loop fuel cfg text start chunks = Some r ->
    chunk_loop (fuel + extra) cfg text start chunks = Some r.
Proof.
  induction fuel as [|fuel IH]; intros start chunks r H.
  - cbn [chunk_loop] in H.
    destruct (start <? len text) eqn:E; [discriminate|].
    injection H as <-. apply chunk_loop_exit. now apply Z.ltb_ge.
  - cbn [chunk_loop Nat.add] in *.
    destruct (start <? len text); [|assumption].
    destruct (chunk_step cfg text start) as [chunk start'].
    now apply IH.
Qed.

Lemma _chunk_text_more_fuel fuel extra cfg text r :
  _chunk_text fuel cfg text = Some r ->
  _chunk_text (fuel + extra) cfg text = Some r.
Proof.
  unfold _chunk_text.
  destruct (chunk_loop fuel cfg text 0 []) as [chunks|] eqn:E; [|discriminate].
  now rewrite (chunk_loop_more_fuel _ extra _ _ _ _ _ E).
Qed.

(** Two runs that both finish return the same chunks. *)
Lemma _chunk_text_deterministic fuel1 fuel2 cfg text r1 r2 :
  _chunk_text fuel1 cfg text = Some r1 ->
  _chunk_text fuel2 cfg text = Some r2 ->
  r1 = r2.
Proof.
  intros H1 H2.
  apply (_chunk_text_more_fuel _ fuel2) in H1.
  apply (_chunk_text_more_fuel _ fuel1) in H2.
  rewrite Nat.add_comm in H2. congruence.
Qed.

End ChunkFacts.

(** 450 letters, fewer than [chunk_size], give two chunks under the default
    configuration: the text and its last two letters. *)
Lemma chunk_text_450_two_chunks :
  PyStr.len (Fixtures.letters 450)
  < RetrievalConfig.chunk_size RetrievalConfig.default
  /\ PyStr.strip (Fixtures.letters 450) <> ""
  /\ Retriever._chunk_text 2 RetrievalConfig.default (Fixtures.letters 450)
     = Some [Fixtures.letters 450; "aa"]
  /\ forall fuel chunks,
       Retriever._chunk_text fuel RetrievalConfig.default (Fixtures.letters 450)
       = Some chunks ->
       List.length chunks = 2%nat.
Proof.
  assert (H2 : Retriever._chunk_text 2 RetrievalConfig.default
                 (Fixtures.letters 450)
               = Some [Fixtures.letters 450; "aa"])
    by (vm_compute; reflexivity).
  split; [vm_compute; reflexivity|].
  split; [vm_compute; discriminate|].
  split; [exact H2|].
  intros fuel chunks H.
  now rewrite (_chunk_text_deterministic _ _ _ _ _ _ H H2).
Qed.

(** One turn of the loop on a text no longer than a window: the window is
    not cut at a sentence end, and the chunk is the stripped rest of the
    text. *)
Lemma chunk_step_last cfg text start :
  PyStr.len text <= start + RetrievalConfig.chunk_size cfg ->
  Retriever.chunk_step cfg text start
  = (PyStr.strip (PyStr.slice_from text start),
     start + RetrievalConfig.chunk_size cfg - RetrievalConfig.chunk_overlap cfg).
Proof.
  intro H. unfold Retriever.chunk_step.
  replace (start + RetrievalConfig.chunk_size cfg <? PyStr.len text) with false
    by (symmetry; apply Z.ltb_ge; lia).
  f_equal. f_equal.
  unfold PyStr.slice_from, PyStr.slice, PyStr.slice_list, PyStr.clamp_index,
    PyStr.len in *.
  rewrite length_chars.
  replace (start + RetrievalConfig.chunk_size cfg <? 0) with false
    by (symmetry; apply Z.ltb_ge; lia).
  replace (Z.of_nat (String.length text) <? 0) with false
    by (symmetry; apply Z.ltb_ge; lia).
  now rewrite Z.min_id, (Z.min_r _ _ H).
Qed.

(** Beyond the end of a string the slice is empty. *)
Lemma slice_from_beyond (s : string) (lo : Z) :
  PyStr.len s <= lo -> PyStr.slice_from s lo = "".
Proof.
  intro H.
  unfold PyStr.slice_from, PyStr.slice, PyStr.slice_list, PyStr.clamp_index,
    PyStr.len in *.
  rewrite length_chars.
  replace (lo <? 0) with false by (symmetry; apply Z.ltb_ge; lia).
  replace (Z.of_nat (String.length s) <? 0) with false
    by (symmetry; apply Z.ltb_ge; lia).
  rewrite Z.min_id, (Z.min_r _ _ H), Nat.sub_diag. reflexivity.
Qed.

Lemma slice_from_0 (s : string) : PyStr.slice_from s 0 = s.
Proof. unfold PyStr.slice_from. apply slice_whole. lia. Qed.

(** C7 (amended). Let the configuration be valid with an overlap of at most
    half the chunk size (512 and 64 by default), and the text be shorter
    than [chunk_size] and not empty after stripping.  Then [_chunk_text]
    returns the stripped text, followed by a second chunk exactly when the
    text from offset [chunk_size - chunk_overlap] (448) on is not empty
    after stripping; that second chunk is this stripped tail.  In
    particular a text of at most [chunk_size - chunk_overlap] characters
    gives exactly one chunk. *)
Theorem chunk_text_below_chunk_size :
  forall cfg text fuel,
    RetrievalConfig.valid cfg = true ->
    2 * RetrievalConfig.chunk_overlap cfg <= RetrievalConfig.chunk_size cfg ->
    PyStr.len text < RetrievalConfig.chunk_size cfg ->
    PyStr.strip text <> "" ->
    let tail :=
      PyStr.strip
        (PyStr.slice_from text (RetrievalConfig.chunk_size cfg
                                - RetrievalConfig.chunk_overlap cfg)) in
    Retriever._chunk_text (S (S fuel)) cfg text
    = Some (PyStr.strip text :: if String.eqb tail "" then [] else [tail])
    /\ (PyStr.len text
        <= RetrievalConfig.chunk_size cfg - RetrievalConfig.chunk_overlap cfg ->
        Retriever._chunk_text (S fuel) cfg text = Some [PyStr.strip text]).
Proof.
  intros cfg text fuel Hcfg Hhalf Hlen Hne tail.
  unfold RetrievalConfig.valid in Hcfg.
  apply andb_true_iff in Hcfg as [Hcfg _].
  apply andb_true_iff in Hcfg as [Hcfg _].
  apply andb_true_iff in Hcfg as [_ Hov]. apply Z.leb_le in Hov.
  pose proof (strip_nonempty _ Hne) as Hpos.
  assert (Hkeep : String.eqb (PyStr.strip text) "" = false)
    by (now apply String.eqb_neq).
  assert (Hfirst : forall f,
             Retriever.chunk_loop (S f) cfg text 0 []
             = Retriever.chunk_loop f cfg text
                 (RetrievalConfig.chunk_size cfg
                  - RetrievalConfig.chunk_overlap cfg)
                 [PyStr.strip text]).
  { intro f. cbn [Retriever.chunk_loop].
    replace (0 <? PyStr.len text) with true by (symmetry; now apply Z.ltb_lt).
    rewrite chunk_step_last by lia.
    now rewrite slice_from_0, Z.add_0_l. }
  split.
  - unfold Retriever._chunk_text. rewrite Hfirst.
    destruct (Z.le_gt_cases (PyStr.len text)
                (RetrievalConfig.chunk_size cfg
                 - RetrievalConfig.chunk_overlap cfg)) as [Hshort|Hlong].
    + rewrite chunk_loop_exit by assumption.
      subst tail. rewrite slice_from_beyond by assumption.
      cbn [filter]. rewrite Hkeep. reflexivity.
    + cbn [Retriever.chunk_loop].
      replace (RetrievalConfig.chunk_size cfg
               - RetrievalConfig.chunk_overlap cfg <? PyStr.len text)
        with true by (symmetry; now apply Z.ltb_lt).
      rewrite chunk_step_last by lia.
      rewrite chunk_loop_exit by lia.
      fold tail. cbn [app filter]. rewrite Hkeep. cbn [negb].
      destruct (String.eqb tail ""); reflexivity.
  - intro Hshort. unfold Retriever._chunk_text. rewrite Hfirst.
    rewrite chunk_loop_exit by assumption.
    cbn [filter]. rewrite Hkeep. reflexivity.
Qed.

Lemma chunk_text_below_chunk_size_witness :
  Retriever._chunk_text 2 RetrievalConfig.default "Test document content."
  = Some [PyStr.strip "Test document content."]
  /\ Retriever._chunk_text 1 RetrievalConfig.default "Test document content."
     = Some [PyStr.strip "Test document content."].
Proof.
  pose proof (chunk_text_below_chunk_size RetrievalConfig.default
                "Test document content." 0 eq_refl) as H.
  specialize (H ltac:(vm_compute; discriminate) ltac:(vm_compute; reflexivity)
                ltac:(vm_compute; discriminate)).
  destruct H as [Htwo Hone].
  split; [exact Htwo | apply Hone; vm_compute; discriminate].
Defined.

(* ================================================================== *)
(** * Retrieval *)

Section RetrieveFacts.
Import PyStr Retriever.

Definition sim := EvidenceChunk.similarity_score.

(** [a] may stand before [b] in a list sorted by decreasing similarity. *)
Definition before (a b : EvidenceChunk.t) : Prop := (sim b <= sim a)%Q.

Lemma EvidenceChunk_new_ok id text source s idx c :
  EvidenceChunk.new id text source s idx = Ok c ->
  c = EvidenceChunk.mk id text source s idx.
Proof.
  unfold EvidenceChunk.new. destruct (EvidenceChunk.valid _); [|discriminate].
  now intros [= <-].
Qed.


Lemma insert_desc_In x l z : In z (insert_desc x l) <-> z = x \/ In z l.
Proof.
  induction l as [|y l IH]; cbn [insert_desc].
  - simpl. intuition.
  - destruct (Qgeb _ _); simpl; [intuition|].
    rewrite IH. intuition.
Qed.

Lemma insert_desc_sorted x l :
  StronglySorted before l -> StronglySorted before (insert_desc x l).
Proof.
  induction 1 as [|y l Hs IH Hall]; cbn [insert_desc].
  - repeat constructor.
  - destruct (Qgeb _ _) eqn:E.
    + apply Qleb_le in E.
      constructor; [now constructor|].
      constructor; [exact E|].
      rewrite Forall_forall in *. intros z Hz. specialize (Hall z Hz).
      unfold before, sim in *. lra.
    + apply Qleb_gt in E.
      constructor; [assumption|].
      rewrite Forall_forall in *. intros z Hz.
      apply insert_desc_In in Hz as [->|Hz]; [|now apply Hall].
      unfold before, sim. lra.
Qed.

Lemma sort_desc_sorted l : StronglySorted before (sort_desc l).
Proof.
  induction l as [|x l IH]; cbn [sort_desc fold_right]; [constructor|].
  now apply insert_desc_sorted.
Qed.




(** [l[:k]] for [k] that is not negative: the first [k] elements. *)
Lemma slice_to_list_firstn {A : Type} (l : list A) (k : Z) :
  0 <= k ->
  slice_to_list l k = firstn (Z.to_nat (Z.min k (Z.of_nat (List.length l)))) l.
Proof.
  intro Hk. unfold slice_to_list, slice_list, clamp_index.
  cbn [Z.ltb Z.compare].
  replace (k <? 0) with false by (symmetry; apply Z.ltb_ge; lia).
  replace (Z.to_nat (Z.min 0 (Z.of_nat (List.length l)))) with 0%nat by lia.
  now rewrite Nat.sub_0_r.
Qed.


End RetrieveFacts.




(* ================================================================== *)
(** * Claim extraction *)

Section ExtractorFacts.
Import PyStr Re Extractor.

Variable sha256_hexdigest : string -> string.




(** An entry as [_validate_spans] rewrites it. *)
Definition repaired (original_text : string) (claim : ClaimData) : ClaimData :=
  let '(start, end_) := repair_span claim original_text in
  mkClaimData (c_text claim) (Some start) (Some end_) (c_confidence claim)
              (c_is_factual claim) (c_claim_type claim)
              (c_extraction_confidence claim).

Lemma _validate_spans_map claims_data original_text :
  _validate_spans claims_data original_text
  = map (repaired original_text) claims_data.
Proof. reflexivity. Qed.




End ExtractorFacts.



(* ================================================================== *)
(** * More on the alignment evaluator *)

Section AlignmentMore.
Import PyStr Alignment.

Lemma evaluate_single_ids claim evidence outcome a :
  evaluate_single claim evidence outcome = Ok a ->
  AlignmentResult.claim_id a = Claim.id claim
  /\ AlignmentResult.evidence_id a = EvidenceChunk.id evidence.
Proof.
  unfold evaluate_single, _heuristic_evaluate.
  destruct outcome as [res|e].
  - destruct (AlignmentLabel_of _); [|discriminate]. cbn [bind].
    intro H. apply AlignmentResult_new_ok in H. subst a. split; reflexivity.
  - destruct (heuristic_label _ _ _ _).
    intro H. apply AlignmentResult_new_ok in H. subst a. split; reflexivity.
Qed.

Lemma evaluate_from_shape claim llm :
  forall evidence i r,
    evaluate_from claim evidence llm i = Ok r ->
    Forall2 (fun e a => AlignmentResult.claim_id a = Claim.id claim
                        /\ AlignmentResult.evidence_id a = EvidenceChunk.id e)
            evidence r.
Proof.
  induction evidence as [|e evidence IH]; intros i r H;
    cbn [evaluate_from] in H.
  - injection H as <-. constructor.
  - destruct (evaluate_single claim e (llm i)) as [a|] eqn:Ea; [|discriminate].
    cbn [bind] in H.
    destruct (evaluate_from claim evidence llm (S i)) as [rest|] eqn:Er;
      [|discriminate].
    cbn [bind] in H. injection H as <-.
    constructor; [now apply evaluate_single_ids in Ea | now apply (IH (S i))].
Qed.

(** The overlap ratio of the heuristic lies in [0,1] once doubled and
    capped. *)
Lemma logical_score_in_unit (n m : nat) :
  in_unit (py_min (inject_Z (Z.of_nat n) / inject_Z (Z.max (Z.of_nat m) 1) * 2)
                  1)%Q = true.
Proof.
  apply in_unit_iff.
  assert (Hd : (0 < inject_Z (Z.max (Z.of_nat m) 1))%Q)
    by (unfold Qlt; simpl; lia).
  assert (Hn : (0 <= inject_Z (Z.of_nat n))%Q)
    by (unfold Qle; simpl; lia).
  assert (Hq : (0 <= inject_Z (Z.of_nat n) / inject_Z (Z.max (Z.of_nat m) 1))%Q).
  { apply Qle_shift_div_l; [assumption|]. lra. }
  unfold py_min. qcases; lra.
Qed.

End AlignmentMore.

(** X1. When [evaluate] returns, it returns one alignment per evidence
    chunk, in the order of the chunks, each carrying the id of the claim and
    the id of its chunk. *)
Theorem evaluate_one_per_evidence :
  forall claim evidence llm r,
    Alignment.evaluate claim evidence llm = Ok r ->
    Forall2 (fun e a => AlignmentResult.claim_id a = Claim.id claim
                        /\ AlignmentResult.evidence_id a = EvidenceChunk.id e)
            evidence r.
Proof.
  intros claim evidence llm r H. unfold Alignment.evaluate in H.
  destruct evidence as [|e evidence].
  - injection H as <-. constructor.
  - cbn [PyStr.nonempty negb] in H. eapply evaluate_from_shape. eassumption.
Qed.

Lemma evaluate_one_per_evidence_witness :
  exists r,
    Alignment.evaluate Fixtures.sample_claim Fixtures.sample_evidence
                       Fixtures.mock_llm = Ok r
    /\ Forall2 (fun e a => AlignmentResult.claim_id a
                           = Claim.id Fixtures.sample_claim
                           /\ AlignmentResult.evidence_id a = EvidenceChunk.id e)
               Fixtures.sample_evidence r.
Proof.
  eexists. split; [vm_compute; reflexivity|].
  exact (evaluate_one_per_evidence Fixtures.sample_claim
           Fixtures.sample_evidence Fixtures.mock_llm _ eq_refl).
Defined.

(** X2. When the oracle raises, [evaluate_single] does not: for every
    validated evidence chunk it returns the heuristic alignment, whose
    confidence is 0.5, whose semantic score is the chunk's similarity, whose
    logical score lies in [0,1], whose negation flag says whether exactly
    one of the two texts is negated, and whose explanation starts with
    "Heuristic evaluation" and quotes at most 50 characters of the error. *)
Theorem evaluate_single_fallback :
  forall claim evidence e,
    EvidenceChunk.valid evidence = true ->
    exists a,
      Alignment.evaluate_single claim evidence (Raise e) = Ok a
      /\ AlignmentResult.confidence a = 0.5%Q
      /\ AlignmentResult.semantic_score a
         = EvidenceChunk.similarity_score evidence
      /\ (0 <= AlignmentResult.logical_score a <= 1)%Q
      /\ AlignmentResult.negation_detected a
         = negb (Bool.eqb (Alignment._detect_negation (Claim.text claim))
                          (Alignment._detect_negation
                             (EvidenceChunk.text evidence)))
      /\ AlignmentResult.explanation a
         = "Heuristic evaluation (LLM unavailable: "
           ++ PyStr.slice (Alignment.exn_str e) 0 50 ++ ")".
Proof.
  intros claim evidence e Hv.
  unfold EvidenceChunk.valid in Hv.
  apply andb_true_iff in Hv as [Hv _]. apply andb_true_iff in Hv as [_ Hsim].
  unfold Alignment.evaluate_single, Alignment._heuristic_evaluate.
  destruct (Alignment.heuristic_label _ _ _ _) as [label ct].
  unfold AlignmentResult.new, AlignmentResult.valid.
  cbn [AlignmentResult.confidence AlignmentResult.semantic_score
       AlignmentResult.logical_score].
  rewrite Hsim, logical_score_in_unit.
  replace (in_unit 0.5) with true by reflexivity. cbn [andb].
  eexists. split; [reflexivity|].
  cbn [AlignmentResult.confidence AlignmentResult.semantic_score
       AlignmentResult.logical_score AlignmentResult.negation_detected
       AlignmentResult.explanation].
  repeat split; try reflexivity;
    pose proof (logical_score_in_unit
                  (List.length
                     (PyStr.inter
                        (PyStr.dedup (PyStr.split (PyStr.lower (Claim.text claim))))
                        (PyStr.dedup (PyStr.split
                                        (PyStr.lower (EvidenceChunk.text evidence))))))
                  (List.length
                     (PyStr.dedup (PyStr.split (PyStr.lower (Claim.text claim))))))
      as H; apply in_unit_iff in H; tauto.
Qed.

Lemma evaluate_single_fallback_witness :
  exists a,
    Alignment.evaluate_single Fixtures.sample_claim Fixtures.evidence_001
                              (Raise (OracleError "API Error")) = Ok a
    /\ AlignmentResult.confidence a = 0.5%Q
    /\ AlignmentResult.semantic_score a
       = EvidenceChunk.similarity_score Fixtures.evidence_001
    /\ (0 <= AlignmentResult.logical_score a <= 1)%Q
    /\ AlignmentResult.negation_detected a
       = negb (Bool.eqb (Alignment._detect_negation
                           (Claim.text Fixtures.sample_claim))
                        (Alignment._detect_negation
                           (EvidenceChunk.text Fixtures.evidence_001)))
    /\ AlignmentResult.explanation a
       = "Heuristic evaluation (LLM unavailable: "
         ++ PyStr.slice (Alignment.exn_str (OracleError "API Error")) 0 50
         ++ ")".
Proof.
  exact (evaluate_single_fallback Fixtures.sample_claim Fixtures.evidence_001
           (OracleError "API Error") eq_refl).
Defined.

(** X3. An answer of the oracle is neither repaired nor handed to the
    heuristic: [evaluate_single] raises [ValueError] when the label is none
    of the four, raises [ValidationError] when the label is known and one of
    the three scores lies outside [0,1], and otherwise returns an alignment
    with the oracle's label, scores, explanation and temporal flag. *)
Theorem evaluate_single_oracle_answer :
  forall claim evidence res,
    (AlignmentLabel_of (Alignment.r_label res) = Raise ValueError ->
     Alignment.evaluate_single claim evidence (Ok res) = Raise ValueError)
    /\ (forall l,
          AlignmentLabel_of (Alignment.r_label res) = Ok l ->
          in_unit (Alignment.r_confidence res)
          && in_unit (Alignment.r_semantic_score res)
          && in_unit (Alignment.r_logical_score res) = false ->
          Alignment.evaluate_single claim evidence (Ok res)
          = Raise ValidationError)
    /\ (forall l,
          AlignmentLabel_of (Alignment.r_label res) = Ok l ->
          in_unit (Alignment.r_confidence res)
          && in_unit (Alignment.r_semantic_score res)
          && in_unit (Alignment.r_logical_score res) = true ->
          exists a,
            Alignment.evaluate_single claim evidence (Ok res) = Ok a
            /\ AlignmentResult.label a = l
            /\ AlignmentResult.confidence a = Alignment.r_confidence res
            /\ AlignmentResult.semantic_score a = Alignment.r_semantic_score res
            /\ AlignmentResult.logical_score a = Alignment.r_logical_score res
            /\ AlignmentResult.explanation a = Alignment.r_explanation res
            /\ AlignmentResult.temporal_match a = Alignment.r_temporal_match res).
Proof.
  intros claim evidence res. unfold Alignment.evaluate_single.
  repeat split.
  - intros ->. reflexivity.
  - intros l -> Hbad. cbn [bind].
    unfold AlignmentResult.new, AlignmentResult.valid.
    cbn [AlignmentResult.confidence AlignmentResult.semantic_score
         AlignmentResult.logical_score].
    now rewrite Hbad.
  - intros l -> Hgood. cbn [bind].
    unfold AlignmentResult.new, AlignmentResult.valid.
    cbn [AlignmentResult.confidence AlignmentResult.semantic_score
         AlignmentResult.logical_score].
    rewrite Hgood. eexists. split; [reflexivity|]. repeat split.
Qed.

Lemma evaluate_single_oracle_answer_witness :
  Alignment.evaluate_single Fixtures.sample_claim Fixtures.evidence_001
    (Ok (Alignment.mkResponse "MAYBE" 0.85 "unsure" true 0.9 0.85 None None
                              None None))
  = Raise ValueError
  /\ Alignment.evaluate_single Fixtures.sample_claim Fixtures.evidence_001
       (Ok (Alignment.mkResponse "SUPPORTS" 1.5 "sure" true 0.9 0.85 None None
                                 None None))
     = Raise ValidationError
  /\ exists a,
       Alignment.evaluate_single Fixtures.sample_claim Fixtures.evidence_001
                                 (Ok Fixtures.mock_alignment) = Ok a
       /\ AlignmentResult.label a = SUPPORTS.
Proof.
  split; [|split].
  - apply (proj1 (evaluate_single_oracle_answer Fixtures.sample_claim
                    Fixtures.evidence_001 _)).
    reflexivity.
  - apply (proj1 (proj2 (evaluate_single_oracle_answer Fixtures.sample_claim
                           Fixtures.evidence_001 _)) SUPPORTS);
      reflexivity.
  - destruct (proj2 (proj2 (evaluate_single_oracle_answer Fixtures.sample_claim
                              Fixtures.evidence_001 Fixtures.mock_alignment))
                SUPPORTS eq_refl eq_refl) as (a & Ha & Hl & _).
    exists a. split; assumption.
Defined.

Section TemporalCheck.
Import PyStr Alignment.

(** X4. A text is always temporally consistent with itself: the quick
    check never flags a claim against evidence that repeats it. *)
Theorem _quick_temporal_check_refl :
  forall text, _quick_temporal_check text text = true.
Proof.
  intro text. unfold _quick_temporal_check.
  destruct (nonempty (dedup (_extract_temporal_markers text))) eqn:E;
    [|reflexivity].
  cbn [negb]. apply nonempty_In in E as [x Hx].
  apply nonempty_In. exists x. apply inter_In. split; assumption.
Qed.

(** What the heuristic label says about the similarity, for a logical score
    in [0,1]. *)
Lemma heuristic_label_similarity nm tm sem log :
  (0 <= log <= 1)%Q ->
  (fst (heuristic_label nm tm sem log) = SUPPORTS -> (0.4 < sem)%Q)
  /\ (fst (heuristic_label nm tm sem log) = IRRELEVANT -> (sem < 0.4)%Q)
  /\ (fst (heuristic_label nm tm sem log) = CONTRADICTS -> (0.5 < sem)%Q).
Proof.
  intro Hlog. unfold heuristic_label, Qgtb.
  destruct nm, tm; cbn [andb negb]; qcases; cbn [fst];
    unfold Qdiv in *; change (/ 2)%Q with (1 # 2)%Q in *;
    repeat split; intro H; try discriminate H; lra.
Qed.

End TemporalCheck.

(** X5. On the heuristic path the label bounds the similarity of the
    chunk: SUPPORTS needs a similarity above 0.4, IRRELEVANT one below 0.4,
    and CONTRADICTS one above 0.5. *)
Theorem heuristic_label_bounds_similarity :
  forall claim evidence e a,
    Alignment.evaluate_single claim evidence (Raise e) = Ok a ->
    (AlignmentResult.label a = SUPPORTS ->
     (0.4 < EvidenceChunk.similarity_score evidence)%Q)
    /\ (AlignmentResult.label a = IRRELEVANT ->
        (EvidenceChunk.similarity_score evidence < 0.4)%Q)
    /\ (AlignmentResult.label a = CONTRADICTS ->
        (0.5 < EvidenceChunk.similarity_score evidence)%Q).
Proof.
  intros claim evidence e a H.
  unfold Alignment.evaluate_single, Alignment._heuristic_evaluate in H.
  match type of H with
  | context [Alignment.heuristic_label ?nm ?tm ?sem ?log] =>
      pose proof (heuristic_label_similarity nm tm sem log) as Hb;
      destruct (Alignment.heuristic_label nm tm sem log) as [label ct] eqn:El
  end.
  unfold AlignmentResult.new in H.
  destruct (AlignmentResult.valid _) eqn:Ev; [|discriminate].
  injection H as <-.
  unfold AlignmentResult.valid in Ev.
  cbn [AlignmentResult.confidence AlignmentResult.semantic_score
       AlignmentResult.logical_score] in Ev.
  apply andb_true_iff in Ev as [_ Hlog]. apply in_unit_iff in Hlog.
  cbn [AlignmentResult.label fst] in *. now apply Hb.
Qed.

Lemma heuristic_label_bounds_similarity_witness :
  exists a,
    Alignment.evaluate_single Fixtures.sample_claim Fixtures.evidence_001
                              (Raise (OracleError "API Error")) = Ok a
    /\ (AlignmentResult.label a = SUPPORTS ->
        (0.4 < EvidenceChunk.similarity_score Fixtures.evidence_001)%Q)
    /\ (AlignmentResult.label a = IRRELEVANT ->
        (EvidenceChunk.similarity_score Fixtures.evidence_001 < 0.4)%Q)
    /\ (AlignmentResult.label a = CONTRADICTS ->
        (0.5 < EvidenceChunk.similarity_score Fixtures.evidence_001)%Q).
Proof.
  eexists.
  match goal with
  | |- ?A /\ _ => assert (H : A) by (vm_compute; reflexivity)
  end.
  split; [exact H|].
  exact (heuristic_label_bounds_similarity Fixtures.sample_claim
           Fixtures.evidence_001 (OracleError "API Error") _ H).
Defined.

(* ================================================================== *)
(** * More on the calibrator *)

Section CalibratorMore.
Import Calibrator.

Lemma penalised_keys_match cfg claim alignments evidence :
  let st := penalised cfg claim alignments evidence in
  dict_keys (penalty_breakdown st) = penalties st /\ NoDup (penalties st).
Proof.
  unfold penalised, evidence_boost, vague_penalty, evidence_penalty.
  destruct (PyStr.nonempty evidence), (_has_contradiction alignments),
    (_has_strong_support alignments),
    (_detect_vague_language (Claim.text claim));
    cbn [negb andb];
    repeat match goal with
      | |- context [if Qgtb ?a ?b then _ else _] => destruct (Qgtb a b)
      end;
    (split; [reflexivity|]);
    cbn; repeat constructor; cbn; intuition discriminate.
Qed.

Lemma penalised_upper cfg claim alignments evidence :
  CalibrationConfig.valid cfg = true ->
  let st := penalised cfg claim alignments evidence in
  (calibrated st <= Claim.raw_confidence claim + 0.1)%Q
  /\ (_has_strong_support alignments && negb (_has_contradiction alignments)
      = false ->
      (calibrated st <= Claim.raw_confidence claim)%Q).
Proof.
  intro Hcfg. unfold CalibrationConfig.valid in Hcfg.
  apply andb_true_iff in Hcfg as [Hcfg Hweak].
  apply andb_true_iff in Hcfg as [Hcfg Hvague].
  apply andb_true_iff in Hcfg as [Hnone Hcontra].
  apply in_unit_iff in Hweak, Hvague, Hnone, Hcontra.
  unfold penalised, evidence_boost, vague_penalty, evidence_penalty.
  destruct (PyStr.nonempty evidence), (_has_contradiction alignments),
    (_has_strong_support alignments),
    (_detect_vague_language (Claim.text claim));
    cbn [negb andb];
    repeat match goal with
      | |- context [if Qgtb ?a ?b then _ else _] => destruct (Qgtb a b)
      end;
    cbn -[Qplus Qminus Qmult Qopp Qle py_min _compute_evidence_quality];
    (split; [|intro Hs; try discriminate Hs]);
    try match goal with
      | |- context [py_min ?a ?b] =>
          pose proof (py_min_spec a b) as (? & ? & ?)
      end;
    lra.
Qed.

End CalibratorMore.

(** X6. [calibrate] returns for every claim that passed the schema
    checks, whatever the alignments, the evidence and the configured
    penalties: the result carries the claim's id and raw confidence, and its
    calibrated confidence lies in [0,1]. *)
Theorem calibrate_returns_in_unit :
  forall cfg claim alignments evidence,
    Claim.valid claim = true ->
    exists cc,
      Calibrator.calibrate cfg claim alignments evidence = Ok cc
      /\ CalibratedConfidence.claim_id cc = Claim.id claim
      /\ CalibratedConfidence.raw_confidence cc = Claim.raw_confidence claim
      /\ (0 <= CalibratedConfidence.calibrated_confidence cc <= 1)%Q.
Proof.
  intros cfg claim alignments evidence Hv.
  unfold Claim.valid in Hv.
  apply andb_true_iff in Hv as [Hv _].
  apply andb_true_iff in Hv as [_ Hraw].
  destruct (calibrate_total cfg claim alignments evidence) as [cc Hcc];
    [assumption|].
  exists cc. split; [assumption|].
  pose proof (calibrate_ok _ _ _ _ _ Hcc) as (Hr & Hc & _).
  unfold Calibrator.calibrate in Hcc.
  apply CalibratedConfidence_new_ok in Hcc.
  split; [now subst cc|]. split; [assumption|].
  rewrite Hc. apply clamp_spec.
Qed.

Lemma calibrate_returns_in_unit_witness :
  exists cc,
    Calibrator.calibrate CalibrationConfig.default Fixtures.sample_claim
                         Fixtures.sample_alignments Fixtures.sample_evidence
    = Ok cc
    /\ CalibratedConfidence.claim_id cc = Claim.id Fixtures.sample_claim
    /\ CalibratedConfidence.raw_confidence cc
       = Claim.raw_confidence Fixtures.sample_claim
    /\ (0 <= CalibratedConfidence.calibrated_confidence cc <= 1)%Q.
Proof.
  exact (calibrate_returns_in_unit CalibrationConfig.default
           Fixtures.sample_claim Fixtures.sample_alignments
           Fixtures.sample_evidence eq_refl).
Defined.

(** X7. In every result of [calibrate] the keys of the penalty breakdown
    are the applied penalties, in the same order, and no penalty is listed
    twice. *)
Theorem calibrate_breakdown_keys :
  forall cfg claim alignments evidence cc,
    Calibrator.calibrate cfg claim alignments evidence = Ok cc ->
    dict_keys (CalibratedConfidence.penalty_breakdown cc)
    = CalibratedConfidence.penalties_applied cc
    /\ NoDup (CalibratedConfidence.penalties_applied cc).
Proof.
  intros cfg claim alignments evidence cc H.
  apply calibrate_ok in H as (_ & _ & -> & ->).
  apply penalised_keys_match.
Qed.

Lemma calibrate_breakdown_keys_witness :
  exists cc,
    Calibrator.calibrate CalibrationConfig.default Fixtures.sample_claim
                         [Fixtures.strong_alignment] Fixtures.sample_evidence
    = Ok cc
    /\ dict_keys (CalibratedConfidence.penalty_breakdown cc)
       = CalibratedConfidence.penalties_applied cc
    /\ NoDup (CalibratedConfidence.penalties_applied cc).
Proof.
  eexists.
  match goal with
  | |- ?A /\ _ => assert (H : A) by (vm_compute; reflexivity)
  end.
  split; [exact H|].
  exact (calibrate_breakdown_keys CalibrationConfig.default
           Fixtures.sample_claim [Fixtures.strong_alignment]
           Fixtures.sample_evidence _ H).
Defined.

(** X8. With penalties in [0,1], calibration raises the confidence by at
    most 0.1, and does not raise it at all unless some alignment supports
    strongly and none contradicts. *)
Theorem calibrate_never_inflates :
  forall cfg claim alignments evidence cc,
    CalibrationConfig.valid cfg = true ->
    Calibrator.calibrate cfg claim alignments evidence = Ok cc ->
    (CalibratedConfidence.calibrated_confidence cc
     <= CalibratedConfidence.raw_confidence cc + 0.1)%Q
    /\ (Calibrator._has_strong_support alignments
        && negb (Calibrator._has_contradiction alignments) = false ->
        (CalibratedConfidence.calibrated_confidence cc
         <= CalibratedConfidence.raw_confidence cc)%Q).
Proof.
  intros cfg claim alignments evidence cc Hcfg H.
  assert (Hraw : (0 <= Claim.raw_confidence claim <= 1)%Q).
  { unfold Calibrator.calibrate, CalibratedConfidence.new in H.
    destruct (CalibratedConfidence.valid _) eqn:E; [|discriminate].
    unfold CalibratedConfidence.valid in E.
    apply andb_true_iff in E as [E _]. now apply in_unit_iff in E. }
  apply calibrate_ok in H as (-> & -> & _ & _).
  pose proof (penalised_upper cfg claim alignments evidence Hcfg) as (Hu & Hn).
  pose proof (clamp_spec (Calibrator.calibrated
                            (Calibrator.penalised cfg claim alignments evidence)))
    as (Hc & Hlo & Hhi & Hin).
  cbv zeta in *.
  set (x := Calibrator.calibrated
              (Calibrator.penalised cfg claim alignments evidence)) in *.
  set (c := py_max 0.0 (py_min 1.0 x)) in *.
  assert (Hcx : (c <= x \/ c == 0)%Q).
  { destruct (Qlt_le_dec x 0) as [Hx|Hx]; [right; auto|].
    destruct (Qlt_le_dec 1 x) as [Hx1|Hx1]; [left; rewrite Hhi; lra|].
    left. rewrite Hin; lra. }
  split; [|intro Hs; specialize (Hn Hs)]; destruct Hcx as [Hcx|Hcx]; lra.
Qed.

Lemma calibrate_never_inflates_witness :
  exists cc,
    Calibrator.calibrate CalibrationConfig.default Fixtures.sample_claim
                         [Fixtures.strong_alignment] Fixtures.sample_evidence
    = Ok cc
    /\ (CalibratedConfidence.calibrated_confidence cc
        <= CalibratedConfidence.raw_confidence cc + 0.1)%Q
    /\ (Calibrator._has_strong_support [Fixtures.strong_alignment]
        && negb (Calibrator._has_contradiction [Fixtures.strong_alignment])
        = false ->
        (CalibratedConfidence.calibrated_confidence cc
         <= CalibratedConfidence.raw_confidence cc)%Q).
Proof.
  eexists.
  match goal with
  | |- ?A /\ _ => assert (H : A) by (vm_compute; reflexivity)
  end.
  split; [exact H|].
  exact (calibrate_never_inflates CalibrationConfig.default
           Fixtures.sample_claim [Fixtures.strong_alignment]
           Fixtures.sample_evidence _ eq_refl H).
Defined.

(* ================================================================== *)
(** * More on the verdict engine *)

Section EngineMore.
Import Engine.

Lemma unit_mult (a b : Q) :
  (0 <= a <= 1 -> 0 <= b <= 1 -> 0 <= a * b <= 1)%Q.
Proof.
  intros [Ha0 Ha1] [Hb0 Hb1]. split.
  - now apply Qmult_le_0_compat.
  - assert (H : (a * b <= 1 * b)%Q) by (now apply Qmult_le_compat_r).
    lra.
Qed.

Lemma alignment_score_in_unit a :
  AlignmentResult.valid a = true -> (0 <= alignment_score a <= 1)%Q.
Proof.
  unfold AlignmentResult.valid. intro H.
  apply andb_true_iff in H as [H Hl]. apply andb_true_iff in H as [Hc Hs].
  apply in_unit_iff in Hc, Hs, Hl.
  pose proof (unit_mult _ _ Hc Hs) as Hcs.
  pose proof (unit_mult _ _ Hc Hl) as Hcl.
  unfold alignment_score, label_scores.
  destruct (AlignmentResult.label a), (AlignmentResult.temporal_match a);
    cbn [negb]; unfold Qdiv; change (/ 2)%Q with (1 # 2)%Q; lra.
Qed.

Lemma list_max_in_unit others :
  forall first,
    (0 <= first <= 1)%Q ->
    Forall (fun x => (0 <= x <= 1)%Q) others ->
    (0 <= list_max first others <= 1)%Q.
Proof.
  unfold list_max.
  induction others as [|x others IH]; intros first Hf Hall; cbn [fold_left].
  - exact Hf.
  - inversion Hall as [|? ? Hx Hrest]; subst.
    apply IH; [|assumption].
    unfold py_max. destruct (Qgtb x first); assumption.
Qed.

Lemma _compute_evidence_strength_in_unit alignments evidence :
  Forall (fun a => AlignmentResult.valid a = true) alignments ->
  (0 <= _compute_evidence_strength alignments evidence <= 1)%Q.
Proof.
  intro Hall. unfold _compute_evidence_strength.
  destruct alignments as [|a alignments]; cbn [PyStr.nonempty negb map];
    [lra|].
  inversion Hall as [|? ? Ha Hrest]; subst.
  apply list_max_in_unit; [now apply alignment_score_in_unit|].
  rewrite Forall_map. eapply Forall_impl; [|exact Hrest].
  intros b Hb. now apply alignment_score_in_unit.
Qed.

Lemma hallucination_risk_in_unit cfg raw strength contra :
  VerdictConfig.valid cfg = true ->
  (VerdictConfig.confidence_weight cfg + VerdictConfig.evidence_weight cfg <= 1)%Q ->
  (0 <= raw <= 1)%Q -> (0 <= strength <= 1)%Q ->
  (0 <= hallucination_risk cfg raw strength contra <= 1)%Q.
Proof.
  intros Hcfg Hsum Hraw Hs. unfold VerdictConfig.valid in Hcfg.
  apply andb_true_iff in Hcfg as [Hcfg He].
  apply andb_true_iff in Hcfg as [_ Hc].
  apply in_unit_iff in Hc, He.
  assert (Hs' : (0 <= 1.0 - strength <= 1)%Q) by lra.
  pose proof (unit_mult _ _ Hc Hraw) as H1.
  pose proof (unit_mult _ _ He Hs') as H2.
  assert (H3 : (VerdictConfig.confidence_weight cfg * raw
                <= VerdictConfig.confidence_weight cfg * 1)%Q)
    by (apply Qmult_le_compat_nonneg_l; lra).
  assert (H4 : (VerdictConfig.evidence_weight cfg * (1.0 - strength)
                <= VerdictConfig.evidence_weight cfg * 1)%Q)
    by (apply Qmult_le_compat_nonneg_l; lra).
  unfold hallucination_risk. destruct contra; [|lra].
  unfold py_min. qcases; lra.
Qed.

End EngineMore.

(** X9. For alignments that passed the schema checks the evidence
    strength lies in [0,1]. *)
Theorem evidence_strength_in_unit :
  forall alignments evidence,
    Forall (fun a => AlignmentResult.valid a = true) alignments ->
    (0 <= Engine._compute_evidence_strength alignments evidence <= 1)%Q.
Proof.
  intros alignments evidence H.
  now apply _compute_evidence_strength_in_unit.
Qed.

Lemma evidence_strength_in_unit_witness :
  (0 <= Engine._compute_evidence_strength Fixtures.sample_alignments
                                          Fixtures.sample_evidence <= 1)%Q.
Proof.
  apply (evidence_strength_in_unit Fixtures.sample_alignments
           Fixtures.sample_evidence).
  repeat constructor.
Defined.

(** X10. [compute] returns a verdict for every validated input when the two
    weights are in [0,1] and sum to at most 1, as the default 0.4 and 0.6
    do; the verdict carries the claim, the alignments and a risk in
    [0,1]. *)
Theorem compute_returns :
  forall cfg claim evidence alignments calibrated,
    VerdictConfig.valid cfg = true ->
    (VerdictConfig.confidence_weight cfg + VerdictConfig.evidence_weight cfg
     <= 1)%Q ->
    CalibratedConfidence.valid calibrated = true ->
    Forall (fun a => AlignmentResult.valid a = true) alignments ->
    exists v,
      Engine.compute cfg claim evidence alignments calibrated = Ok v
      /\ Verdict.claim v = claim
      /\ Verdict.alignments v = alignments
      /\ (0 <= Verdict.hallucination_risk v <= 1)%Q
      /\ (0 <= Verdict.evidence_strength v <= 1)%Q.
Proof.
  intros cfg claim evidence alignments calibrated Hcfg Hsum Hcal Hall.
  unfold CalibratedConfidence.valid in Hcal.
  apply andb_true_iff in Hcal as [Hraw _]. apply in_unit_iff in Hraw.
  pose proof (_compute_evidence_strength_in_unit alignments evidence Hall) as Hs.
  pose proof (hallucination_risk_in_unit cfg _ _
                (existsb (fun a => AlignmentLabel_eqb (AlignmentResult.label a)
                                                      CONTRADICTS) alignments)
                Hcfg Hsum Hraw Hs) as Hr.
  unfold Engine.compute, Verdict.new, Verdict.valid.
  cbn [Verdict.hallucination_risk Verdict.evidence_strength].
  apply in_unit_iff in Hr, Hs. rewrite Hr, Hs. cbn [andb].
  eexists. split; [reflexivity|].
  cbn [Verdict.claim Verdict.alignments Verdict.hallucination_risk
       Verdict.evidence_strength].
  apply in_unit_iff in Hr, Hs. repeat split; tauto.
Qed.

Lemma compute_returns_witness :
  exists v,
    Engine.compute VerdictConfig.default Fixtures.sample_claim
                   Fixtures.sample_evidence Fixtures.sample_alignments
                   Fixtures.calibrated_low = Ok v
    /\ Verdict.claim v = Fixtures.sample_claim
    /\ Verdict.alignments v = Fixtures.sample_alignments
    /\ (0 <= Verdict.hallucination_risk v <= 1)%Q
    /\ (0 <= Verdict.evidence_strength v <= 1)%Q.
Proof.
  apply (compute_returns VerdictConfig.default Fixtures.sample_claim
           Fixtures.sample_evidence Fixtures.sample_alignments
           Fixtures.calibrated_low).
  - reflexivity.
  - vm_compute. discriminate.
  - reflexivity.
  - repeat constructor.
Defined.

(** X11. The configuration checks admit weights that sum to more than 1;
    with such weights [compute] raises on a claim of raw confidence 1
    without alignments, the risk being the sum of the weights. *)
Theorem compute_raises_on_heavy_weights :
  forall cfg claim evidence calibrated,
    (1 < VerdictConfig.confidence_weight cfg + VerdictConfig.evidence_weight cfg)%Q ->
    (CalibratedConfidence.raw_confidence calibrated == 1)%Q ->
    Engine.compute cfg claim evidence [] calibrated = Raise ValidationError.
Proof.
  intros cfg claim evidence calibrated Hsum Hraw.
  unfold Engine.compute, Verdict.new, Verdict.valid.
  cbn [Verdict.hallucination_risk Verdict.evidence_strength
       Engine._compute_evidence_strength PyStr.nonempty negb existsb
       Engine.hallucination_risk].
  replace (in_unit (VerdictConfig.confidence_weight cfg
                    * CalibratedConfidence.raw_confidence calibrated
                    + VerdictConfig.evidence_weight cfg * (1.0 - 0.0))%Q)
    with false; [reflexivity|].
  symmetry. unfold in_unit. apply andb_false_iff. right.
  apply Qleb_gt. rewrite Hraw. lra.
Qed.

Lemma compute_raises_on_heavy_weights_witness :
  VerdictConfig.valid (VerdictConfig.mk 0.3 0.7 1 1) = true
  /\ Engine.compute (VerdictConfig.mk 0.3 0.7 1 1) Fixtures.sample_claim [] []
                    (CalibratedConfidence.mk "test_claim_001" 1 0.6
                                             ["no_evidence"]
                                             [("no_evidence", 0.4%Q)])
     = Raise ValidationError.
Proof.
  split; [reflexivity|].
  apply (compute_raises_on_heavy_weights (VerdictConfig.mk 0.3 0.7 1 1)).
  - vm_compute. reflexivity.
  - reflexivity.
Defined.

(** X12. In every verdict of [compute] a detected contradiction forces the
    label HALLUCINATED, and with it a risk of at least 0.2 when the weights
    and the raw confidence are not negative; the label GROUNDED is given
    exactly when the evidence strength reaches [grounded_threshold] and no
    contradiction is detected. *)
Theorem compute_label_and_contradiction :
  forall cfg claim evidence alignments calibrated v,
    Engine.compute cfg claim evidence alignments calibrated = Ok v ->
    (Verdict.contradiction_detected v = true ->
     Verdict.label v = HALLUCINATED
     /\ (VerdictConfig.valid cfg = true ->
         (0 <= CalibratedConfidence.raw_confidence calibrated)%Q ->
         (0.2 <= Verdict.hallucination_risk v)%Q))
    /\ (Verdict.label v = GROUNDED
        <-> (VerdictConfig.grounded_threshold cfg
             <= Verdict.evidence_strength v)%Q
            /\ Verdict.contradiction_detected v = false).
Proof.
  intros cfg claim evidence alignments calibrated v H.
  pose proof H as H'. unfold Engine.compute in H'.
  apply Verdict_new_ok in H' as (_ & _ & Hs).
  apply compute_ok in H as (_ & _ & Hse & Hr & Hl & _).
  rewrite <- Hse in Hs. rewrite Hl, Hr. clear Hl Hr Hse.
  unfold Engine.verdict_label, Engine.hallucination_risk.
  split.
  - intros ->. rewrite andb_false_r, orb_true_r. split; [reflexivity|].
    intros Hcfg Hraw. unfold VerdictConfig.valid in Hcfg.
    apply andb_true_iff in Hcfg as [Hcfg He].
    apply andb_true_iff in Hcfg as [_ Hc].
    apply in_unit_iff in Hc, He.
    assert (H1 : (0 <= VerdictConfig.confidence_weight cfg
                       * CalibratedConfidence.raw_confidence calibrated)%Q)
      by (apply Qmult_le_0_compat; lra).
    assert (H2 : (0 <= VerdictConfig.evidence_weight cfg
                       * (1.0 - Verdict.evidence_strength v))%Q)
      by (apply Qmult_le_0_compat; lra).
    unfold py_min. qcases; lra.
  - unfold Qgeb.
    destruct (Qleb (VerdictConfig.grounded_threshold cfg)
                   (Verdict.evidence_strength v)) eqn:Eg;
      destruct (Verdict.contradiction_detected v); cbn [negb andb].
    + split; [|intros [_ Hc]; discriminate Hc].
      rewrite orb_true_r. discriminate.
    + apply Qleb_le in Eg. split; auto.
    + apply Qleb_gt in Eg. rewrite orb_true_r.
      split; [discriminate | intros [_ Hc]; discriminate Hc].
    + apply Qleb_gt in Eg.
      split; [destruct (_ || _); discriminate | intros [Hc _]; lra].
Qed.

Lemma compute_label_and_contradiction_witness :
  exists v,
    Engine.compute VerdictConfig.default Fixtures.hallucination_claim
                   Fixtures.contradicting_evidence
                   [Fixtures.contradicting_alignment]
                   Fixtures.calibrated_contradiction = Ok v
    /\ Verdict.label v = HALLUCINATED
    /\ (0.2 <= Verdict.hallucination_risk v)%Q.
Proof.
  eexists. split; [vm_compute; reflexivity|].
  destruct (proj1 (compute_label_and_contradiction VerdictConfig.default
                     Fixtures.hallucination_claim
                     Fixtures.contradicting_evidence
                     [Fixtures.contradicting_alignment]
                     Fixtures.calibrated_contradiction _ eq_refl) eq_refl)
    as [Hl Hr].
  split; [exact Hl|]. apply Hr; [reflexivity | vm_compute; discriminate].
Defined.

Section BestEvidence.
Import Engine.

Lemma find_id_In (evidence : list EvidenceChunk.t) id e :
  List.find (fun e => String.eqb (EvidenceChunk.id e) id) evidence = Some e ->
  In e evidence /\ EvidenceChunk.id e = id.
Proof.
  intro H. apply find_some in H as [Hin Heq].
  apply String.eqb_eq in Heq. auto.
Qed.

Lemma find_for_label_some label alignments evidence e :
  find_for_label label alignments evidence = Some e ->
  In e evidence
  /\ exists a, In a alignments /\ AlignmentResult.label a = label
               /\ AlignmentResult.evidence_id a = EvidenceChunk.id e.
Proof.
  induction alignments as [|a alignments IH]; cbn [find_for_label];
    [discriminate|].
  destruct (AlignmentLabel_eqb (AlignmentResult.label a) label) eqn:El.
  - destruct (List.find _ evidence) as [e'|] eqn:Ef.
    + intros [= <-]. apply find_id_In in Ef as [Hin Hid].
      split; [assumption|]. exists a. apply label_eqb_eq in El.
      repeat split; [now left | assumption | now symmetry].
    + intro H. apply IH in H as (Hin & a' & Ha' & Hl & Hid).
      split; [assumption|]. exists a'. repeat split; [now right | auto | auto].
  - intro H. apply IH in H as (Hin & a' & Ha' & Hl & Hid).
    split; [assumption|]. exists a'. repeat split; [now right | auto | auto].
Qed.

Lemma find_for_label_none label alignments evidence :
  find_for_label label alignments evidence = None ->
  forall a e, In a alignments -> AlignmentResult.label a = label ->
              In e evidence ->
              EvidenceChunk.id e <> AlignmentResult.evidence_id a.
Proof.
  induction alignments as [|a0 alignments IH]; cbn [find_for_label];
    intros H a e Ha Hl He; [contradiction|].
  destruct Ha as [<-|Ha].
  - rewrite Hl in H.
    replace (AlignmentLabel_eqb label label) with true in H
      by (symmetry; now apply label_eqb_eq).
    destruct (List.find _ evidence) eqn:Ef; [discriminate|].
    intro Hid. pose proof (find_none _ _ Ef e He) as Hn. cbn beta in Hn.
    rewrite Hid, String.eqb_refl in Hn. discriminate.
  - destruct (AlignmentLabel_eqb (AlignmentResult.label a0) label);
      [destruct (List.find _ evidence); [discriminate|]|];
      eapply IH; eassumption.
Qed.

Lemma max_by_similarity_spec others :
  forall first,
    (max_by_similarity first others = first
     \/ In (max_by_similarity first others) others)
    /\ (EvidenceChunk.similarity_score first
        <= EvidenceChunk.similarity_score (max_by_similarity first others))%Q
    /\ Forall (fun e => (EvidenceChunk.similarity_score e
                         <= EvidenceChunk.similarity_score
                              (max_by_similarity first others))%Q) others.
Proof.
  unfold max_by_similarity.
  induction others as [|x others IH]; intro first; cbn [fold_left].
  - repeat split; [now left | lra | constructor].
  - destruct (Qgtb (EvidenceChunk.similarity_score x)
                   (EvidenceChunk.similarity_score first)) eqn:E;
      [apply Qltb_lt in E | apply Qltb_ge in E].
    + destruct (IH x) as (Hin & Hle & Hall).
      repeat split.
      * right. destruct Hin as [-> | Hin]; [now left | now right].
      * lra.
      * constructor; assumption.
    + destruct (IH first) as (Hin & Hle & Hall).
      repeat split.
      * destruct Hin as [-> | Hin]; [now left | right; now right].
      * assumption.
      * constructor; [lra | assumption].
Qed.

End BestEvidence.

(** X13. [_find_best_evidence] answers nothing exactly when there are no
    alignments or no evidence.  The chunk it answers is one of the evidence
    chunks; it is the chunk of a SUPPORTS alignment whenever some SUPPORTS
    alignment names a chunk of the evidence, and when no SUPPORTS or
    WEAK_SUPPORT alignment names one it is a chunk of the largest
    similarity. *)
Theorem find_best_evidence_spec :
  forall alignments evidence,
    (Engine._find_best_evidence alignments evidence = None
     <-> alignments = [] \/ evidence = [])
    /\ forall e,
         Engine._find_best_evidence alignments evidence = Some e ->
         In e evidence
         /\ ((exists a e0, In a alignments /\ AlignmentResult.label a = SUPPORTS
                           /\ In e0 evidence
                           /\ EvidenceChunk.id e0 = AlignmentResult.evidence_id a) ->
             exists a, In a alignments /\ AlignmentResult.label a = SUPPORTS
                       /\ AlignmentResult.evidence_id a = EvidenceChunk.id e)
         /\ ((forall a e0, In a alignments ->
                           AlignmentResult.label a = SUPPORTS
                           \/ AlignmentResult.label a = WEAK_SUPPORT ->
                           In e0 evidence ->
                           EvidenceChunk.id e0 <> AlignmentResult.evidence_id a) ->
             Forall (fun e0 => (EvidenceChunk.similarity_score e0
                                <= EvidenceChunk.similarity_score e)%Q)
                    evidence).
Proof.
  intros alignments evidence. unfold Engine._find_best_evidence.
  destruct alignments as [|a0 alignments]; cbn [PyStr.nonempty negb orb].
  { split; [split; auto|discriminate]. }
  destruct evidence as [|e0 evidence]; cbn [PyStr.nonempty negb orb].
  { split; [split; auto|discriminate]. }
  split.
  - split.
    + destruct (Engine.find_for_label SUPPORTS _ _); [discriminate|].
      destruct (Engine.find_for_label WEAK_SUPPORT _ _); discriminate.
    + intros [H|H]; discriminate H.
  - intros e H.
    destruct (Engine.find_for_label SUPPORTS (a0 :: alignments)
                                    (e0 :: evidence)) as [es|] eqn:Es.
    + injection H as <-. apply find_for_label_some in Es as (Hin & a & Ha).
      repeat split; [assumption | intros _; now exists a |].
      intro Hno. exfalso. destruct Ha as (Ha & Hl & Hid).
      apply (Hno a es Ha (or_introl Hl) Hin). now symmetry.
    + destruct (Engine.find_for_label WEAK_SUPPORT (a0 :: alignments)
                                      (e0 :: evidence)) as [ew|] eqn:Ew.
      * injection H as <-. apply find_for_label_some in Ew as (Hin & a & Ha).
        repeat split; [assumption | |].
        -- intros (a' & e' & Ha' & Hl' & He' & Hid').
           exfalso.
           exact (find_for_label_none _ _ _ Es a' e' Ha' Hl' He' Hid').
        -- intro Hno. exfalso. destruct Ha as (Ha & Hl & Hid).
           apply (Hno a ew Ha (or_intror Hl) Hin). now symmetry.
      * injection H as <-.
        destruct (max_by_similarity_spec evidence e0) as (Hin & Hle & Hall).
        repeat split.
        -- destruct Hin as [-> | Hin]; [now left | now right].
        -- intros (a' & e' & Ha' & Hl' & He' & Hid').
           exfalso.
           exact (find_for_label_none _ _ _ Es a' e' Ha' Hl' He' Hid').
        -- intros _. constructor; assumption.
Qed.

Lemma find_best_evidence_spec_witness :
  exists e,
    Engine._find_best_evidence Fixtures.sample_alignments
                               Fixtures.sample_evidence = Some e
    /\ In e Fixtures.sample_evidence
    /\ exists a, In a Fixtures.sample_alignments
                 /\ AlignmentResult.label a = SUPPORTS
                 /\ AlignmentResult.evidence_id a = EvidenceChunk.id e.
Proof.
  eexists. split; [vm_compute; reflexivity|].
  destruct (proj2 (find_best_evidence_spec Fixtures.sample_alignments
                     Fixtures.sample_evidence) _ eq_refl) as (Hin & Hs & _).
  split; [exact Hin|]. apply Hs.
  exists (hd Fixtures.strong_alignment Fixtures.sample_alignments),
    Fixtures.evidence_001.
  repeat split; [now left | now left].
Defined.

(* ================================================================== *)
(** * Termination of the chunking loop *)

Section ChunkTermination.
Import PyStr Retriever.

Lemma starts_with_length p l :
  starts_with p l = true -> (List.length p <= List.length l)%nat.
Proof.
  revert l. induction p as [|a p IH]; intros [|b l] H; cbn in *;
    try lia; try discriminate.
  apply andb_true_iff in H as [_ H]. apply IH in H. lia.
Qed.

Lemma rfind_from_bounds p l :
  forall pos i,
    rfind_from p l pos = Some i ->
    (pos <= i /\ i + List.length p <= pos + List.length l)%nat.
Proof.
  induction l as [|c l IH]; intros pos i H; cbn [rfind_from] in H.
  - destruct (starts_with p []) eqn:E; [|discriminate].
    injection H as <-. apply starts_with_length in E. cbn in *. lia.
  - destruct (rfind_from p l (S pos)) as [j|] eqn:Ej.
    + injection H as <-. apply IH in Ej. cbn [List.length]. lia.
    + destruct (starts_with p (c :: l)) eqn:E; [|discriminate].
      injection H as <-. apply starts_with_length in E. lia.
Qed.

Lemma clamp_index_le n i : 0 <= n -> (Z.of_nat (clamp_index n i) <= n).
Proof.
  unfold clamp_index. destruct (i <? 0) eqn:E;
    [apply Z.ltb_lt in E | apply Z.ltb_ge in E]; lia.
Qed.

(** A hit of [rfind] lies inside the window and inside the string. *)
Lemma rfind_bounds s sub lo hi :
  0 <= rfind s sub lo hi ->
  Z.of_nat (clamp_index (len s) lo) <= rfind s sub lo hi
  /\ rfind s sub lo hi + len sub <= len s.
Proof.
  unfold rfind.
  destruct (rfind_from _ _ _) as [i|] eqn:E; [|lia].
  intros _. apply rfind_from_bounds in E.
  rewrite length_firstn, length_skipn, !length_chars in E.
  unfold len.
  pose proof (clamp_index_le (Z.of_nat (String.length s)) lo) as Ha.
  pose proof (clamp_index_le (Z.of_nat (String.length s)) hi) as Hb.
  unfold len in *. lia.
Qed.

(** The new end is the old one, or the end of a separator found at or
    after [search_start] inside the text, or 1 when [start] is below -1, so
    that the -1 of a failed search exceeds it. *)
Lemma sentence_break_cases text start search_start end_ seps :
  Forall (fun sep => len sep = 2) seps ->
  sentence_break text start search_start end_ seps = end_
  \/ (start < -1 /\ sentence_break text start search_start end_ seps = 1)
  \/ (sentence_break text start search_start end_ seps <= len text
      /\ Z.of_nat (clamp_index (len text) search_start) + 2
         <= sentence_break text start search_start end_ seps
      /\ start + 2 < sentence_break text start search_start end_ seps).
Proof.
  induction 1 as [|sep seps Hsep Hall IH]; cbn [sentence_break]; [now left|].
  destruct (rfind text sep search_start end_ >? start) eqn:E; [|exact IH].
  right. apply Z.gtb_lt in E.
  destruct (Z_lt_le_dec (rfind text sep search_start end_) 0) as [Hneg|Hpos].
  - left. unfold rfind in *. destruct (rfind_from _ _ _); lia.
  - right.
    pose proof (rfind_bounds text sep search_start end_ Hpos) as (Hlo & Hhi).
    lia.
Qed.

Lemma SEPARATORS_length : Forall (fun sep => len sep = 2) SEPARATORS.
Proof. repeat constructor. Qed.

(** With an overlap that is not below the chunk size the next start stays
    before the end of the text. *)
Lemma chunk_step_stuck cfg text start :
  0 < RetrievalConfig.chunk_size cfg <= RetrievalConfig.chunk_overlap cfg ->
  0 < len text ->
  start < len text ->
  snd (chunk_step cfg text start) < len text.
Proof.
  intros Hcfg Hpos Hstart. unfold chunk_step. cbn [snd].
  destruct (start + RetrievalConfig.chunk_size cfg <? len text) eqn:E; [|lia].
  match goal with
  | |- context [sentence_break ?t ?s ?ss ?e ?seps] =>
      destruct (sentence_break_cases t s ss e seps SEPARATORS_length)
        as [-> | [[_ ->] | (Hle & _ & _)]]
  end; lia.
Qed.

Lemma chunk_loop_diverges cfg text :
  0 < RetrievalConfig.chunk_size cfg <= RetrievalConfig.chunk_overlap cfg ->
  0 < len text ->
  forall fuel start chunks,
    start < len text ->
    chunk_loop fuel cfg text start chunks = None.
Proof.
  intros Hcfg Hpos. induction fuel as [|fuel IH]; intros start chunks Hstart;
    cbn [chunk_loop];
    replace (start <? len text) with true by (symmetry; now apply Z.ltb_lt);
    [reflexivity|].
  pose proof (chunk_step_stuck cfg text start Hcfg Hpos Hstart) as Hs.
  destruct (chunk_step cfg text start) as [chunk start']. now apply IH.
Qed.

(** *** The default configuration *)

Lemma py_int_search_start e :
  103 <= e -> py_int (inject_Z e - inject_Z 512 * 0.2)%Q = e - 103.
Proof.
  intro H. unfold py_int. cbn.
  rewrite Z.quot_div_nonneg by lia.
  symmetry. apply (Z.div_unique _ _ _ 6); lia.
Qed.

Lemma length_lstrip_chars l :
  (List.length (lstrip_chars l) <= List.length l)%nat.
Proof.
  induction l as [|c l IH]; cbn [lstrip_chars List.length]; [lia|].
  destruct (is_space c); cbn [List.length]; lia.
Qed.

Lemma length_of_chars l : String.length (of_chars l) = List.length l.
Proof.
  unfold of_chars. induction l as [|c l IH]; cbn; [reflexivity | now rewrite IH].
Qed.

Lemma len_strip s : len (strip s) <= len s.
Proof.
  unfold len, strip, strip_chars.
  rewrite length_of_chars, length_rev.
  pose proof (length_lstrip_chars (rev (lstrip_chars (chars s)))) as H1.
  pose proof (length_lstrip_chars (chars s)) as H2.
  rewrite length_rev in H1. rewrite length_chars in H2. lia.
Qed.

Lemma len_slice s lo hi : 0 <= lo <= hi -> len (slice s lo hi) <= hi - lo.
Proof.
  intro H. unfold len, slice, slice_list, clamp_index.
  rewrite length_of_chars, length_firstn, length_skipn, length_chars.
  replace (lo <? 0) with false by (symmetry; apply Z.ltb_ge; lia).
  replace (hi <? 0) with false by (symmetry; apply Z.ltb_ge; lia).
  lia.
Qed.

(** One turn under the default configuration, from a start inside the
    text: the chunk is at most 512 characters long and the next start is
    further on. *)
Lemma chunk_step_default text start :
  0 <= start < len text ->
  len (fst (chunk_step RetrievalConfig.default text start)) <= 512
  /\ start < snd (chunk_step RetrievalConfig.default text start).
Proof.
  intro Hstart. unfold chunk_step.
  cbn [RetrievalConfig.chunk_size RetrievalConfig.chunk_overlap
       RetrievalConfig.default fst snd].
  destruct (start + 512 <? len text) eqn:E.
  - apply Z.ltb_lt in E.
    rewrite py_int_search_start by lia.
    match goal with
    | |- context [sentence_break ?t ?s ?ss ?e ?seps] =>
        destruct (sentence_break_cases t s ss e seps SEPARATORS_length)
          as [-> | [[Hneg _] | (Hle & Hlo & Hgt)]]
    end.
    + split; [|lia].
      etransitivity; [apply len_strip|]. etransitivity; [apply len_slice|]; lia.
    + lia.
    + unfold clamp_index in Hlo.
      replace (start + 512 - 103 <? 0) with false in Hlo
        by (symmetry; apply Z.ltb_ge; lia).
      match goal with
      | |- context [sentence_break ?t ?s ?ss ?e ?seps] =>
          set (r := sentence_break t s ss e seps) in *
      end.
      assert (Hr : r <= start + 512).
      { (* a separator found before [end] ends at or before it *)
        subst r. clear Hle Hlo Hgt.
        generalize SEPARATORS. intro seps.
        induction seps as [|sep seps IH]; cbn [sentence_break]; [lia|].
        destruct (rfind text sep (start + 512 - 103) (start + 512) >? start)
          eqn:Eh; [|exact IH].
        apply Z.gtb_lt in Eh.
        unfold rfind in *.
        destruct (rfind_from _ _ _) as [i|] eqn:Ei; [|lia].
        apply rfind_from_bounds in Ei.
        rewrite length_firstn, length_skipn, length_chars in Ei.
        unfold len, clamp_index in *.
        replace (start + 512 - 103 <? 0) with false in Ei
          by (symmetry; apply Z.ltb_ge; lia).
        replace (start + 512 <? 0) with false in Ei
          by (symmetry; apply Z.ltb_ge; lia).
        lia. }
      split; [|lia].
      etransitivity; [apply len_strip|]. etransitivity; [apply len_slice|]; lia.
  - split; [|lia].
    etransitivity; [apply len_strip|]. etransitivity; [apply len_slice|]; lia.
Qed.

Lemma chunk_loop_default_terminates text :
  forall fuel start chunks,
    0 <= start ->
    len text - start < Z.of_nat fuel ->
    Forall (fun c => len c <= 512) chunks ->
    exists r,
      chunk_loop fuel RetrievalConfig.default text start chunks = Some r
      /\ Forall (fun c => len c <= 512) r.
Proof.
  induction fuel as [|fuel IH]; intros start chunks Hs Hf Hall;
    cbn [chunk_loop].
  - replace (start <? len text) with false by (symmetry; apply Z.ltb_ge; lia).
    eauto.
  - destruct (start <? len text) eqn:E; [|eauto].
    apply Z.ltb_lt in E.
    pose proof (chunk_step_default text start (conj Hs E)) as (Hc & Hn).
    destruct (chunk_step RetrievalConfig.default text start) as [chunk start'].
    cbn [fst snd] in *.
    apply IH; [lia | lia |].
    apply Forall_app. split; [assumption | now constructor].
Qed.

End ChunkTermination.

(** X14. With a [chunk_overlap] that is not below [chunk_size], which the
    configuration checks admit, the loop of [_chunk_text] never ends on a
    text that is not empty: no number of turns reaches its exit. *)
Theorem chunk_text_diverges_on_large_overlap :
  forall cfg text fuel,
    0 < RetrievalConfig.chunk_size cfg <= RetrievalConfig.chunk_overlap cfg ->
    text <> "" ->
    Retriever._chunk_text fuel cfg text = None.
Proof.
  intros cfg text fuel Hcfg Hne. unfold Retriever._chunk_text.
  assert (Hpos : 0 < PyStr.len text).
  { destruct text; [contradiction|]. unfold PyStr.len. cbn [String.length]. lia. }
  rewrite chunk_loop_diverges; [reflexivity | assumption | assumption | assumption].
Qed.

Lemma chunk_text_diverges_on_large_overlap_witness :
  RetrievalConfig.valid (RetrievalConfig.mk 64 64 5 0.3) = true
  /\ Retriever._chunk_text 1000 (RetrievalConfig.mk 64 64 5 0.3) "a" = None.
Proof.
  split; [reflexivity|].
  apply (chunk_text_diverges_on_large_overlap (RetrievalConfig.mk 64 64 5 0.3)
           "a" 1000).
  - cbn. lia.
  - discriminate.
Defined.

(** X15. Under the default configuration [_chunk_text] ends on every
    text, after at most one turn per character, and every chunk it returns
    is non-empty and at most 512 characters long. *)
Theorem chunk_text_default_terminates :
  forall text,
    exists chunks,
      Retriever._chunk_text (S (String.length text)) RetrievalConfig.default text
      = Some chunks
      /\ Forall (fun c => c <> "" /\ PyStr.len c <= 512) chunks.
Proof.
  intro text. unfold Retriever._chunk_text.
  destruct (chunk_loop_default_terminates text (S (String.length text)) 0 [])
    as (r & -> & Hr); [lia | unfold PyStr.len; lia | constructor |].
  eexists. split; [reflexivity|].
  rewrite Forall_forall in *. intros c Hc.
  apply filter_In in Hc as [Hin Hne].
  split; [|now apply Hr].
  intros ->. discriminate Hne.
Qed.

(* ================================================================== *)
(** * More on retrieval *)

Section RetrieveMore.
Import PyStr Retriever.

(** The similarity of a row to the query, where the shapes agree. *)
Definition similarity_of (query_emb : list Q) (row : Row) : Q :=
  match dot query_emb (row_embedding row) with
  | Ok s => s
  | Raise _ => 0%Q
  end.

Definition passes (cfg : RetrievalConfig.t) (query_emb : list Q) (row : Row)
  : bool :=
  Qgeb (similarity_of query_emb row) (RetrievalConfig.similarity_threshold cfg).

(** The chunk [retrieve] builds from a row. *)
Definition chunk_of (query_emb : list Q) (row : Row) : EvidenceChunk.t :=
  EvidenceChunk.mk (row_id row) (row_text row) (row_source row)
                   (similarity_of query_emb row) (row_chunk_index row).

(** Two similarities are the same rational. *)
Definition same_score (s : Q) (c : EvidenceChunk.t) : bool :=
  Qeq_bool (EvidenceChunk.similarity_score c) s.

Lemma collect_spec cfg q rows :
  forall found,
    collect cfg q rows = Ok found ->
    found = map (chunk_of q) (filter (passes cfg q) rows).
Proof.
  induction rows as [|row rows IH]; intros found H;
    cbn [collect filter map] in *.
  - now injection H as <-.
  - unfold passes at 1, similarity_of at 1.
    destruct (dot q (row_embedding row)) as [s|] eqn:Ed; [|discriminate].
    cbn [bind] in H.
    destruct (Qgeb s (RetrievalConfig.similarity_threshold cfg)).
    + destruct (EvidenceChunk.new _ _ _ _ _) as [c|] eqn:Ec; [|discriminate].
      cbn [bind] in H.
      destruct (collect cfg q rows) as [rs|]; [|discriminate].
      cbn [bind] in H. injection H as <-.
      apply EvidenceChunk_new_ok in Ec. subst c.
      cbn [map]. unfold chunk_of at 1, similarity_of. rewrite Ed.
      f_equal. now apply IH.
    + now apply IH.
Qed.

(** Inserting keeps the chunks of any given similarity in their order,
    the new chunk first. *)
Lemma insert_desc_stable s x l :
  StronglySorted before l ->
  filter (same_score s) (insert_desc x l) = filter (same_score s) (x :: l).
Proof.
  induction 1 as [|y l Hs IH Hall]; cbn [insert_desc]; [reflexivity|].
  destruct (Qgeb _ _) eqn:E; [reflexivity|].
  apply Qleb_gt in E.
  cbn [filter]. rewrite IH. cbn [filter].
  destruct (same_score s x) eqn:Ex; [|reflexivity].
  destruct (same_score s y) eqn:Ey; [|reflexivity].
  exfalso. unfold same_score in *.
  apply Qeq_bool_iff in Ex, Ey. lra.
Qed.

Lemma sort_desc_stable s l :
  filter (same_score s) (sort_desc l) = filter (same_score s) l.
Proof.
  induction l as [|x l IH]; cbn [sort_desc fold_right]; [reflexivity|].
  fold (sort_desc l).
  rewrite insert_desc_stable by apply sort_desc_sorted.
  cbn [filter]. now rewrite IH.
Qed.

Lemma filter_firstn_prefix {A : Type} (p : A -> bool) (l : list A) :
  forall n, exists m, filter p (firstn n l) = firstn m (filter p l).
Proof.
  induction l as [|x l IH]; intros [|n]; cbn [firstn filter];
    try (exists 0%nat; reflexivity).
  destruct (IH n) as [m Hm]. destruct (p x).
  - exists (S m). cbn [firstn]. now rewrite Hm.
  - exists m. assumption.
Qed.

Lemma dot_mismatch a :
  forall b, List.length a <> List.length b -> dot a b = Raise ValueError.
Proof.
  induction a as [|x a IH]; intros [|y b] Hlen; cbn [List.length] in Hlen;
    try reflexivity; try contradiction.
  cbn [dot]. rewrite IH by lia. reflexivity.
Qed.

(** A row [retrieve] gets through: its embedding has the query's shape and,
    if it reaches the threshold, its fields make a valid chunk. *)
Definition row_ok (cfg : RetrievalConfig.t) (query_emb : list Q) (row : Row)
  : Prop :=
  List.length query_emb = List.length (row_embedding row)
  /\ (passes cfg query_emb row = true ->
      EvidenceChunk.valid (chunk_of query_emb row) = true).

Lemma collect_returns_rows_ok cfg q rows :
  forall found, collect cfg q rows = Ok found -> Forall (row_ok cfg q) rows.
Proof.
  induction rows as [|row rows IH]; intros found H; cbn [collect] in H;
    [constructor|].
  destruct (Nat.eq_dec (List.length q) (List.length (row_embedding row)))
    as [Hl|Hl]; [|rewrite dot_mismatch in H by assumption; discriminate].
  assert (Hs : similarity_of q row
               = match dot q (row_embedding row) with
                 | Ok s => s | Raise _ => 0%Q end) by reflexivity.
  destruct (dot q (row_embedding row)) as [s|]; [|discriminate].
  cbn [bind] in H.
  assert (Hrest : exists fd, collect cfg q rows = Ok fd).
  { destruct (Qgeb s _).
    - destruct (EvidenceChunk.new _ _ _ _ _); [|discriminate].
      cbn [bind] in H.
      destruct (collect cfg q rows); [eauto|discriminate].
    - eauto. }
  destruct Hrest as [fd Hfd].
  constructor; [|now apply (IH fd)].
  split; [assumption|]. unfold passes, chunk_of. rewrite Hs. intro Hp.
  rewrite Hp in H. unfold EvidenceChunk.new in H.
  destruct (EvidenceChunk.valid _); [reflexivity|discriminate].
Qed.

End RetrieveMore.

(** X16. When [retrieve] returns, its result is the first [top_k] chunks
    of the chunks built from exactly the rows whose similarity reaches the
    threshold, sorted by decreasing similarity; the chunks of any one
    similarity appear in the order of their rows in the table. *)
Theorem retrieve_result :
  forall encode cfg rows claim top_k results,
    0 <= Retriever.effective_top_k cfg top_k ->
    Retriever.retrieve encode cfg rows claim top_k = Ok results ->
    let found := map (chunk_of (encode claim))
                     (filter (passes cfg (encode claim)) rows) in
    results
    = firstn (Z.to_nat (Retriever.effective_top_k cfg top_k))
             (Retriever.sort_desc found)
    /\ forall s, exists m,
         filter (same_score s) results = firstn m (filter (same_score s) found).
Proof.
  intros encode cfg rows claim top_k results Hk H found.
  assert (Hres : results
                 = firstn (Z.to_nat (Retriever.effective_top_k cfg top_k))
                          (Retriever.sort_desc found)).
  { unfold Retriever.retrieve in H.
    destruct rows as [|row rows]; cbn [PyStr.nonempty negb] in H.
    - injection H as <-. subst found. cbn. now rewrite firstn_nil.
    - destruct (Retriever.collect cfg (encode claim) (row :: rows))
        as [fd|] eqn:Ec; [|discriminate].
      cbn [bind] in H. injection H as <-.
      apply collect_spec in Ec. subst fd. fold found.
      rewrite slice_to_list_firstn by assumption.
      destruct (Z.le_ge_cases (Retriever.effective_top_k cfg top_k)
                  (Z.of_nat (List.length (Retriever.sort_desc found))))
        as [Hle|Hge].
      + now rewrite Z.min_l by assumption.
      + rewrite Z.min_r by assumption. rewrite Nat2Z.id.
        rewrite firstn_all. symmetry. apply firstn_all2. lia. }
  split; [exact Hres|].
  intro s. rewrite Hres.
  destruct (filter_firstn_prefix (same_score s) (Retriever.sort_desc found)
              (Z.to_nat (Retriever.effective_top_k cfg top_k))) as [m Hm].
  exists m. now rewrite Hm, sort_desc_stable.
Qed.

Lemma retrieve_result_witness :
  exists results,
    Retriever.retrieve Fixtures.encode_x RetrievalConfig.default Fixtures.rows3
                       "query" (Some 1) = Ok results
    /\ results
       = firstn 1 (Retriever.sort_desc
                     (map (chunk_of (Fixtures.encode_x "query"))
                          (filter (passes RetrievalConfig.default
                                          (Fixtures.encode_x "query"))
                                  Fixtures.rows3))).
Proof.
  eexists. split; [vm_compute; reflexivity|].
  refine (proj1 (retrieve_result Fixtures.encode_x RetrievalConfig.default
                   Fixtures.rows3 "query" (Some 1) _ _ eq_refl)).
  vm_compute. discriminate.
Defined.

(** X17. [retrieve] raises when the table holds a row it cannot make a
    chunk of: a stored embedding whose dimension is not that of the query's,
    or a row that reaches the threshold with a similarity outside [0, 1], an
    empty text or a negative chunk index. *)
Theorem retrieve_raises_on_bad_row :
  forall encode cfg rows claim top_k row,
    In row rows ->
    List.length (encode claim) <> List.length (Retriever.row_embedding row)
    \/ (passes cfg (encode claim) row = true
        /\ EvidenceChunk.valid (chunk_of (encode claim) row) = false) ->
    exists e, Retriever.retrieve encode cfg rows claim top_k = Raise e.
Proof.
  intros encode cfg rows claim top_k row Hin Hbad.
  unfold Retriever.retrieve.
  destruct rows as [|r rows]; [contradiction|].
  cbn [PyStr.nonempty negb].
  destruct (Retriever.collect cfg (encode claim) (r :: rows)) as [found|e]
    eqn:Ec; [|cbn [bind]; eauto].
  exfalso. apply collect_returns_rows_ok in Ec.
  rewrite Forall_forall in Ec. destruct (Ec row Hin) as [Hl Hv].
  destruct Hbad as [Hbad | [Hp Hbad]]; [contradiction|].
  rewrite (Hv Hp) in Hbad. discriminate Hbad.
Qed.

Lemma retrieve_raises_on_bad_row_witness :
  exists e,
    Retriever.retrieve Fixtures.encode_x RetrievalConfig.default
      (Fixtures.rows3 ++ [Retriever.mkRow "r4" "fourth" "doc.txt" 3 [1%Q]])
      "query" None = Raise e.
Proof.
  apply (retrieve_raises_on_bad_row Fixtures.encode_x
           RetrievalConfig.default _ "query" None
           (Retriever.mkRow "r4" "fourth" "doc.txt" 3 [1%Q])).
  - apply in_or_app. right. now left.
  - left. cbn. discriminate.
Defined.

(* ================================================================== *)
(** * More on the rule-based contradiction type *)

(** X18. TEMPORAL_MISMATCH is only ever detected across the two
    centuries: when [_detect_contradiction_type] returns it, the negation
    flags agree, both texts mention a year, and the years of one text all
    read 19.. while those of the other all read 20..; two years of one
    century are never told apart. *)
Theorem temporal_mismatch_only_across_centuries :
  forall claim evidence cn en,
    Alignment._detect_contradiction_type claim evidence cn en
    = TEMPORAL_MISMATCH ->
    cn = en
    /\ Alignment._extract_years claim <> []
    /\ Alignment._extract_years evidence <> []
    /\ ((Forall (fun y => y = "19") (Alignment._extract_years claim)
         /\ Forall (fun y => y = "20") (Alignment._extract_years evidence))
        \/ (Forall (fun y => y = "20") (Alignment._extract_years claim)
            /\ Forall (fun y => y = "19") (Alignment._extract_years evidence))).
Proof.
  intros claim evidence cn en H.
  pose proof (temporal_mismatch_across_centuries _ _ _ _ H) as Hc.
  unfold Alignment._detect_contradiction_type in H.
  destruct (Bool.eqb cn en) eqn:Eq; cbn [negb] in H; [|discriminate].
  apply Bool.eqb_prop in Eq.
  destruct (PyStr.nonempty (PyStr.dedup (Alignment._extract_years claim))
            && PyStr.nonempty (PyStr.dedup (Alignment._extract_years evidence))
            && _) eqn:E.
  2: { revert H.
       match goal with
       | |- (if ?c then _ else _) = _ -> _ => destruct c
       end; intro H; discriminate H. }
  apply andb_true_iff in E as [E _].
  apply andb_true_iff in E as [E1 E2].
  apply nonempty_In in E1 as [c E1], E2 as [e E2].
  apply (proj1 (dedup_In _ _)) in E1. apply (proj1 (dedup_In _ _)) in E2.
  split; [exact Eq|].
  split; [intro Hn; rewrite Hn in E1; exact E1|].
  split; [intro Hn; rewrite Hn in E2; exact E2|].
  rewrite !Forall_forall. exact Hc.
Qed.

Lemma temporal_mismatch_only_across_centuries_witness :
  Alignment._detect_contradiction_type "Released in 1999" "Released in 2024"
    false false = TEMPORAL_MISMATCH
  /\ Forall (fun y => y = "19") (Alignment._extract_years "Released in 1999").
Proof.
  split; [vm_compute; reflexivity|].
  destruct (temporal_mismatch_only_across_centuries
              "Released in 1999" "Released in 2024" false false eq_refl)
    as (_ & _ & _ & [[H _] | [H _]]); [exact H|].
  exfalso. inversion H as [|y ys Hy _]. discriminate Hy.
Defined.

(* ================================================================== *)
(** * More on claim extraction *)

Section ExtractorMore.
Import PyStr Re Extractor.

Variable sha256_hexdigest : string -> string.

(** ** The retry loop *)

Lemma retry_loop_first_answer {A : Type} (llm : nat -> result A) (data : A) :
  forall n k attempt last_error,
    (k < n)%nat ->
    (forall j, (j < k)%nat -> exists e, llm (attempt + j)%nat = Raise e) ->
    llm (attempt + k)%nat = Ok data ->
    retry_loop n attempt llm last_error = inl data.
Proof.
  induction n as [|n IH]; intros k attempt last_error Hk Hfail Hok; [lia|].
  cbn [retry_loop]. destruct k as [|k].
  - rewrite Nat.add_0_r in Hok. now rewrite Hok.
  - destruct (Hfail 0%nat ltac:(lia)) as [e He].
    rewrite Nat.add_0_r in He. rewrite He.
    apply (IH k); [lia| |].
    + intros j Hj. destruct (Hfail (S j) ltac:(lia)) as [e' He'].
      exists e'. now rewrite <- He', Nat.add_succ_r.
    + now rewrite <- Hok, Nat.add_succ_r.
Qed.

Lemma retry_loop_all_fail {A : Type} (llm : nat -> result A) :
  forall n attempt last_error,
    (forall j, (j < n)%nat -> exists e, llm (attempt + j)%nat = Raise e) ->
    exists err, retry_loop n attempt llm last_error = inr err.
Proof.
  induction n as [|n IH]; intros attempt last_error Hfail; cbn [retry_loop].
  - eauto.
  - destruct (Hfail 0%nat ltac:(lia)) as [e He].
    rewrite Nat.add_0_r in He. rewrite He. apply IH.
    intros j Hj. destruct (Hfail (S j) ltac:(lia)) as [e' He'].
    exists e'. now rewrite <- He', Nat.add_succ_r.
Qed.

(** ** What the conversion loop keeps *)

(** What holds of every claim the loop builds from the entries repaired
    against [original_text]. *)
Definition kept (cfg : ExtractionConfig.t) (original_text : string)
  (c : Claim.t) : Prop :=
  Claim.valid c = true
  /\ ExtractionConfig.min_claim_length cfg <= len (Claim.text c)
  /\ (ExtractionConfig.include_opinions cfg = false ->
      Claim.is_factual c = true)
  /\ Claim.hedging_detected c = _detect_hedging (Claim.text c)
  /\ (Claim.hedging_detected c = true -> Claim.claim_type c = HEDGED)
  /\ fst (Claim.source_span c) <= snd (Claim.source_span c)
  /\ snd (Claim.source_span c) <= len original_text
  /\ Claim.id c
     = _generate_claim_id sha256_hexdigest (Claim.text c)
                          (fst (Claim.source_span c)).

Lemma repair_span_end claim original_text :
  snd (repair_span claim original_text) <= len original_text.
Proof.
  unfold repair_span.
  destruct (_ >=? 0).
  - cbn [snd]. lia.
  - destruct (search _ _); cbn [snd]; lia.
Qed.

Lemma ClaimType_eqb_HEDGED ct :
  ClaimType_eqb ct HEDGED = true -> ct = HEDGED.
Proof. destruct ct; cbn; congruence. Qed.

Lemma build_claim_kept cfg original_text d c :
  (ExtractionConfig.include_opinions cfg = true
   \/ Alignment.get (c_is_factual d) true = true) ->
  ExtractionConfig.min_claim_length cfg <= len (c_text d) ->
  build_claim sha256_hexdigest (repaired original_text d) = Ok c ->
  kept cfg original_text c.
Proof.
  intros Hfact Hlen. unfold repaired.
  pose proof (repair_span_end d original_text) as Hend.
  destruct (repair_span d original_text) as [start end_]. cbn [snd] in Hend.
  unfold build_claim.
  cbn [c_start c_end c_text c_confidence c_is_factual c_claim_type
       c_extraction_confidence].
  unfold Claim.new.
  destruct (Claim.valid _) eqn:Hv; [|discriminate].
  intro H. injection H as <-.
  assert (Hspan : start <= end_).
  { unfold Claim.valid in Hv. cbn [Claim.source_span] in Hv.
    apply andb_true_iff in Hv as [Hv _].
    apply andb_true_iff in Hv as [Hv _].
    apply andb_true_iff in Hv as [_ Hv].
    unfold Claim.validate_span in Hv. cbn [fst snd] in Hv.
    destruct (start >? end_) eqn:E; [discriminate|].
    rewrite Z.gtb_ltb in E. apply Z.ltb_ge in E. exact E. }
  unfold kept.
  cbn [Claim.text Claim.is_factual Claim.hedging_detected Claim.claim_type
       Claim.source_span Claim.id fst snd].
  repeat split; try assumption; try reflexivity.
  - intro Hop. destruct Hfact as [Ht|Ht]; [congruence|exact Ht].
  - intro Hh. rewrite Hh. cbn [andb].
    destruct (negb (ClaimType_eqb _ HEDGED)) eqn:E; [reflexivity|].
    apply negb_false_iff in E. now apply ClaimType_eqb_HEDGED.
Qed.

Lemma repaired_text original_text d :
  c_text (repaired original_text d) = c_text d.
Proof. unfold repaired. now destruct (repair_span d original_text). Qed.

Lemma repaired_is_factual original_text d :
  c_is_factual (repaired original_text d) = c_is_factual d.
Proof. unfold repaired. now destruct (repair_span d original_text). Qed.

Lemma convert_kept cfg original_text data :
  forall acc claims,
    convert sha256_hexdigest cfg (map (repaired original_text) data) acc
    = Ok claims ->
    Forall (kept cfg original_text) acc ->
    Forall (kept cfg original_text) claims.
Proof.
  induction data as [|d data IH]; intros acc claims H Hacc;
    cbn [map convert] in H.
  - now injection H as <-.
  - rewrite repaired_text, repaired_is_factual in H.
    destruct (negb (ExtractionConfig.include_opinions cfg)
              && negb (Alignment.get (c_is_factual d) true)) eqn:Eop;
      [now apply (IH acc)|].
    destruct (len (c_text d) <? ExtractionConfig.min_claim_length cfg)
      eqn:Elen; [now apply (IH acc)|].
    destruct (_ >=? _); [now injection H as <-|].
    destruct (build_claim sha256_hexdigest (repaired original_text d))
      as [c|] eqn:Eb; [|discriminate].
    cbn [bind] in H. apply (IH _ _ H).
    apply Forall_app. split; [assumption|]. constructor; [|constructor].
    apply (build_claim_kept cfg original_text d c); [| |assumption].
    + apply andb_false_iff in Eop as [Eop|Eop].
      * left. now apply negb_false_iff.
      * right. now apply negb_false_iff.
    + now apply Z.ltb_ge.
Qed.

Lemma convert_bound cfg data :
  forall acc claims,
    convert sha256_hexdigest cfg data acc = Ok claims ->
    Z.of_nat (List.length claims)
    <= Z.max (Z.of_nat (List.length acc)) (ExtractionConfig.max_claims cfg)
    /\ (List.length claims <= List.length acc + List.length data)%nat.
Proof.
  induction data as [|d data IH]; intros acc claims H; cbn [convert] in H.
  - injection H as <-. cbn [List.length]. lia.
  - cbn [List.length].
    destruct (negb _ && negb _); [apply IH in H; lia|].
    destruct (_ <? _); [apply IH in H; lia|].
    destruct (_ >=? _) eqn:E; [injection H as <-; lia|].
    rewrite Z.geb_leb in E. apply Z.leb_gt in E.
    destruct (build_claim sha256_hexdigest d); [|discriminate].
    cbn [bind] in H. apply IH in H.
    rewrite length_app in H. cbn [List.length] in H. lia.
Qed.

(** ** The histogram of claim types *)

Lemma count_cons {A : Type} (p : A -> bool) (x : A) (l : list A) :
  count p (x :: l) = ((if p x then 1 else 0) + count p l)%nat.
Proof. unfold count. cbn [filter]. now destruct (p x). Qed.

Lemma histogram_total (claims : list Claim.t) :
  list_sum (map (fun ct => count (fun c => ClaimType_eqb (Claim.claim_type c) ct)
                                 claims) ALL_CLAIM_TYPES)
  = List.length claims.
Proof.
  induction claims as [|c claims IH]; [reflexivity|].
  unfold ALL_CLAIM_TYPES, list_sum in *.
  cbn [map fold_right List.length] in *.
  rewrite !count_cons.
  destruct (Claim.claim_type c); cbn [ClaimType_eqb]; lia.
Qed.

Lemma count_le {A : Type} (p q : A -> bool) (l : list A) :
  (forall x, In x l -> p x = true -> q x = true) ->
  (count p l <= count q l)%nat.
Proof.
  induction l as [|x l IH]; intro H; [unfold count; cbn; lia|].
  rewrite !count_cons.
  pose proof (H x (or_introl eq_refl)) as Hx.
  assert (IH' := IH (fun y Hy => H y (or_intror Hy))).
  destruct (p x); [rewrite Hx by reflexivity; lia|destruct (q x); lia].
Qed.

(** ** [find] and the exact span *)

Lemma starts_with_app p :
  forall l, starts_with p l = true -> exists post, l = (p ++ post)%list.
Proof.
  induction p as [|a p IH]; intros l H; cbn [starts_with] in H.
  - now exists l.
  - destruct l as [|b l]; [discriminate|].
    apply andb_true_iff in H as [Hab H].
    apply Ascii.eqb_eq in Hab. subst b.
    destruct (IH l H) as [post ->]. now exists post.
Qed.

Lemma find_from_occurrence p :
  forall l pos i,
    find_from p l pos = Some i ->
    exists pre post,
      l = (pre ++ p ++ post)%list /\ i = (pos + List.length pre)%nat.
Proof.
  induction l as [|c l IH]; intros pos i H; cbn [find_from] in H.
  - destruct (starts_with p []) eqn:E; [|discriminate].
    injection H as <-. apply starts_with_app in E as [post E].
    exists [], post. cbn [app List.length]. split; [assumption|lia].
  - destruct (starts_with p (c :: l)) eqn:E.
    + injection H as <-. apply starts_with_app in E as [post E].
      exists [], post. cbn [app List.length]. split; [assumption|lia].
    + apply IH in H as (pre & post & -> & ->).
      exists (c :: pre), post. cbn [app List.length]. split; [reflexivity|lia].
Qed.

Lemma chars_of_chars l : chars (of_chars l) = l.
Proof. apply list_ascii_of_string_of_list_ascii. Qed.

Lemma of_chars_chars s : of_chars (chars s) = s.
Proof. apply string_of_list_ascii_of_string. Qed.

Lemma length_chars' s : List.length (chars s) = String.length s.
Proof.
  induction s as [|c s IH]; [reflexivity|]. cbn. now rewrite <- IH.
Qed.

Lemma len_lower s : len (lower s) = len s.
Proof.
  unfold len, lower. rewrite <- !length_chars', chars_of_chars.
  now rewrite length_map.
Qed.

Lemma slice_list_map {A B : Type} (f : A -> B) (l : list A) lo hi :
  slice_list (map f l) lo hi = map f (slice_list l lo hi).
Proof.
  unfold slice_list. rewrite length_map.
  now rewrite skipn_map, firstn_map.
Qed.

Lemma lower_slice s lo hi : lower (slice s lo hi) = slice (lower s) lo hi.
Proof.
  unfold lower, slice. rewrite !chars_of_chars. now rewrite slice_list_map.
Qed.

Lemma slice_list_middle {A : Type} (pre p post : list A) :
  slice_list (pre ++ p ++ post)
             (Z.of_nat (List.length pre))
             (Z.of_nat (List.length pre) + Z.of_nat (List.length p))
  = p.
Proof.
  unfold slice_list, clamp_index. rewrite !length_app.
  replace (Z.of_nat (List.length pre) <? 0) with false
    by (symmetry; apply Z.ltb_ge; lia).
  replace (Z.of_nat (List.length pre) + Z.of_nat (List.length p) <? 0)
    with false by (symmetry; apply Z.ltb_ge; lia).
  rewrite !Z.min_l by lia.
  rewrite Nat2Z.id.
  replace (Z.to_nat (Z.of_nat (List.length pre) + Z.of_nat (List.length p))
           - List.length pre)%nat with (List.length p) by lia.
  rewrite skipn_app, skipn_all, Nat.sub_diag. cbn [skipn app].
  rewrite firstn_app, firstn_all, Nat.sub_diag. cbn [firstn].
  apply app_nil_r.
Qed.

Lemma find_occurrence s sub :
  0 <= find s sub ->
  find s sub + len sub <= len s
  /\ slice s (find s sub) (find s sub + len sub) = sub.
Proof.
  unfold find.
  destruct (find_from (chars sub) (chars s) 0) as [i|] eqn:E; [|lia].
  intros _. apply find_from_occurrence in E as (pre & post & Hs & ->).
  cbn [Nat.add].
  assert (Hlen : len s = Z.of_nat (List.length pre) + len sub
                         + Z.of_nat (List.length post)).
  { unfold len. rewrite <- !length_chars', Hs, !length_app. lia. }
  split; [lia|].
  unfold slice. rewrite Hs. unfold len. rewrite <- length_chars'.
  rewrite slice_list_middle. apply of_chars_chars.
Qed.

(** The spans of the claims returned lie inside the input. *)
Lemma convert_kept_spans cfg llm text claims meta :
  extract_with_confidence sha256_hexdigest cfg llm text = Ok (claims, meta) ->
  Forall (fun c => fst (Claim.source_span c) <= snd (Claim.source_span c)
                   /\ snd (Claim.source_span c) <= len text) claims.
Proof.
  intro H. unfold extract_with_confidence in H.
  destruct (String.eqb (strip text) "").
  { injection H as <- <-. constructor. }
  destruct (retry_loop _ _ _ _) as [data|err].
  2: { injection H as <- <-. constructor. }
  rewrite _validate_spans_map in H.
  destruct (convert sha256_hexdigest cfg (map (repaired text) data) [])
    as [cs|] eqn:Ec; [|discriminate].
  cbn [bind] in H. injection H as <- <-.
  apply (convert_kept cfg text) in Ec; [|constructor].
  eapply Forall_impl; [|exact Ec].
  intros c (_ & _ & _ & _ & _ & Hs & He & _). now split.
Qed.

(** [str.isascii]. *)
Definition isascii (s : string) : bool :=
  forallb (fun c => (code c <? 128)%nat) (chars s).

End ExtractorMore.

(** X19. The claims [extract_with_confidence] returns respect the
    configuration: there are at most [max_claims] of them (none when
    [max_claims] is negative), each has a text of at least
    [min_claim_length] characters, and unless opinions are included each is
    factual. *)
Theorem extract_respects_configuration :
  forall sha cfg llm text claims meta,
    Extractor.extract_with_confidence sha cfg llm text = Ok (claims, meta) ->
    Z.of_nat (List.length claims) <= Z.max 0 (ExtractionConfig.max_claims cfg)
    /\ Forall (fun c =>
                 ExtractionConfig.min_claim_length cfg
                 <= PyStr.len (Claim.text c)
                 /\ (ExtractionConfig.include_opinions cfg = false ->
                     Claim.is_factual c = true)) claims.
Proof.
  intros sha cfg llm text claims meta H.
  unfold Extractor.extract_with_confidence in H.
  destruct (String.eqb (PyStr.strip text) "").
  { injection H as <- <-. split; [cbn; lia|constructor]. }
  destruct (Extractor.retry_loop _ _ _ _) as [data|err].
  2: { injection H as <- <-. split; [cbn; lia|constructor]. }
  rewrite _validate_spans_map in H.
  destruct (Extractor.convert sha cfg (map (repaired text) data) [])
    as [cs|] eqn:Ec; [|discriminate].
  cbn [bind] in H. injection H as <- <-.
  split.
  - apply convert_bound in Ec. cbn [List.length] in Ec. lia.
  - apply (convert_kept sha cfg text) in Ec; [|constructor].
    eapply Forall_impl; [|exact Ec].
    intros c (_ & Hl & Hf & _). now split.
Qed.

Lemma extract_respects_configuration_witness :
  exists claims meta,
    Extractor.extract_with_confidence Fixtures.const_digest
      ExtractionConfig.default Samples.sky_answer
      "The sky is blue. Blue is the best colour." = Ok (claims, meta)
    /\ Z.of_nat (List.length claims) <= 50
    /\ List.length claims = 1%nat.
Proof.
  eexists. eexists. split; [vm_compute; reflexivity|].
  split; [|reflexivity].
  exact (proj1 (extract_respects_configuration Fixtures.const_digest
                  ExtractionConfig.default Samples.sky_answer
                  "The sky is blue. Blue is the best colour." _ _ eq_refl)).
Defined.

(** X20. Every claim [extract_with_confidence] returns is consistent
    with the rules of the extractor: its hedging flag is what
    [_detect_hedging] says of its text, a hedged claim has the type HEDGED
    whatever type the oracle gave, its span starts no later than it ends
    and ends inside the input, and its id is the digest of its text and the
    start of its span. *)
Theorem extract_claims_consistent :
  forall sha cfg llm text claims meta,
    Extractor.extract_with_confidence sha cfg llm text = Ok (claims, meta) ->
    Forall (fun c =>
              Claim.valid c = true
              /\ Claim.hedging_detected c
                 = Extractor._detect_hedging (Claim.text c)
              /\ (Claim.hedging_detected c = true ->
                  Claim.claim_type c = HEDGED)
              /\ fst (Claim.source_span c) <= snd (Claim.source_span c)
              /\ snd (Claim.source_span c) <= PyStr.len text
              /\ Claim.id c
                 = Extractor._generate_claim_id sha (Claim.text c)
                     (fst (Claim.source_span c))) claims.
Proof.
  intros sha cfg llm text claims meta H.
  unfold Extractor.extract_with_confidence in H.
  destruct (String.eqb (PyStr.strip text) "").
  { injection H as <- <-. constructor. }
  destruct (Extractor.retry_loop _ _ _ _) as [data|err].
  2: { injection H as <- <-. constructor. }
  rewrite _validate_spans_map in H.
  destruct (Extractor.convert sha cfg (map (repaired text) data) [])
    as [cs|] eqn:Ec; [|discriminate].
  cbn [bind] in H. injection H as <- <-.
  apply (convert_kept sha cfg text) in Ec; [|constructor].
  eapply Forall_impl; [|exact Ec].
  intros c (Hv & _ & _ & Hh & Ht & Hs & He & Hid). repeat split; assumption.
Qed.

Lemma extract_claims_consistent_witness :
  exists claims meta,
    Extractor.extract_with_confidence Fixtures.const_digest
      ExtractionConfig.default Samples.rain_answer
      "They say it might rain tomorrow." = Ok (claims, meta)
    /\ Forall (fun c => Claim.claim_type c = HEDGED
                        /\ Claim.source_span c = (9, 31)) claims
    /\ List.length claims = 1%nat.
Proof.
  eexists. eexists. split; [vm_compute; reflexivity|].
  split; [|reflexivity].
  pose proof (extract_claims_consistent Fixtures.const_digest
                ExtractionConfig.default Samples.rain_answer
                "They say it might rain tomorrow." _ _ eq_refl) as H.
  cbv beta in H. inversion H as [|c cs (_ & _ & Ht & _) _]; subst.
  constructor; [|constructor]. split; [apply Ht|]; reflexivity.
Defined.

(** X21. The statistics returned with the claims add up: [after_filtering]
    is the number of claims returned and is at most [total_extracted], the
    histogram [claim_types] has one entry per claim type and its counts sum
    to the number of claims, and [hedged_claims] is at most the count of the
    type HEDGED.  An error record only ever comes with an empty list. *)
Theorem extract_statistics_add_up :
  forall sha cfg llm text claims meta,
    Extractor.extract_with_confidence sha cfg llm text = Ok (claims, meta) ->
    match meta with
    | Extractor.MetaError _ => claims = []
    | Extractor.MetaStats s =>
        Extractor.after_filtering s = List.length claims
        /\ (Extractor.after_filtering s <= Extractor.total_extracted s)%nat
        /\ (Extractor.filtered_opinions s <= Extractor.total_extracted s)%nat
        /\ map fst (Extractor.claim_types s) = Extractor.ALL_CLAIM_TYPES
        /\ list_sum (map snd (Extractor.claim_types s)) = List.length claims
        /\ (forall n, In (HEDGED, n) (Extractor.claim_types s) ->
                      (Extractor.hedged_claims s <= n)%nat)
    end.
Proof.
  intros sha cfg llm text claims meta H.
  pose proof (extract_claims_consistent sha cfg llm text claims meta H) as Hc.
  unfold Extractor.extract_with_confidence in H.
  destruct (String.eqb (PyStr.strip text) "").
  { now injection H as <- <-. }
  destruct (Extractor.retry_loop _ _ _ _) as [data|err].
  2: { now injection H as <- <-. }
  rewrite _validate_spans_map in H.
  destruct (Extractor.convert sha cfg (map (repaired text) data) [])
    as [cs|] eqn:Ec; [|discriminate].
  cbn [bind] in H. injection H as <- <-.
  cbn [Extractor.after_filtering Extractor.total_extracted
       Extractor.filtered_opinions Extractor.claim_types
       Extractor.hedged_claims].
  apply convert_bound in Ec. destruct Ec as [_ Ec].
  cbn [List.length] in Ec. rewrite length_map in Ec.
  split; [reflexivity|]. split; [rewrite length_map; lia|].
  split; [unfold Extractor.count; apply filter_length_le|].
  split; [reflexivity|].
  split.
  - exact (histogram_total cs).
  - intros n Hin. cbn [Extractor.ALL_CLAIM_TYPES map In] in Hin.
    repeat (destruct Hin as [Hin|Hin]; [try discriminate|]);
      [|contradiction].
    injection Hin as <-.
    apply count_le. intros c Hin Hh.
    rewrite Forall_forall in Hc. destruct (Hc c Hin) as (_ & _ & Ht & _).
    now rewrite (Ht Hh).
Qed.

Lemma extract_statistics_add_up_witness :
  exists claims s,
    Extractor.extract_with_confidence Fixtures.const_digest
      ExtractionConfig.default Samples.rain_answer
      "They say it might rain tomorrow."
    = Ok (claims, Extractor.MetaStats s)
    /\ Extractor.after_filtering s = 1%nat
    /\ Extractor.total_extracted s = 2%nat
    /\ list_sum (map snd (Extractor.claim_types s)) = List.length claims.
Proof.
  eexists. eexists. split; [vm_compute; reflexivity|].
  split; [reflexivity|]. split; [reflexivity|].
  pose proof (extract_statistics_add_up Fixtures.const_digest
                ExtractionConfig.default Samples.rain_answer
                "They say it might rain tomorrow." _ _ eq_refl) as H.
  cbv beta iota in H. exact (proj1 (proj2 (proj2 (proj2 (proj2 H))))).
Defined.

(** X22. The retry loop uses the first answer: when the attempts before
    the [k]-th all raise and the [k]-th, still within [max_retries], answers,
    the result is the one an oracle that answers so at once would give. *)
Theorem extract_uses_first_answer :
  forall sha cfg llm text k data,
    (k < Z.to_nat (ExtractionConfig.max_retries cfg))%nat ->
    (forall j, (j < k)%nat -> exists e, llm j = Raise e) ->
    llm k = Ok data ->
    Extractor.extract_with_confidence sha cfg llm text
    = Extractor.extract_with_confidence sha cfg (fun _ => Ok data) text.
Proof.
  intros sha cfg llm text k data Hk Hfail Hok.
  unfold Extractor.extract_with_confidence.
  destruct (String.eqb (PyStr.strip text) ""); [reflexivity|].
  rewrite (retry_loop_first_answer llm data _ k 0%nat None Hk Hfail Hok).
  rewrite (retry_loop_first_answer (fun _ => Ok data) data _ 0%nat 0%nat None);
    [reflexivity|lia|intros j Hj; lia|reflexivity].
Qed.

Lemma extract_uses_first_answer_witness :
  Extractor.extract_with_confidence Fixtures.const_digest
    ExtractionConfig.default Samples.late_answer "Hello world."
  = Extractor.extract_with_confidence Fixtures.const_digest
      ExtractionConfig.default (fun _ => Ok [Fixtures.stray_claim])
      "Hello world.".
Proof.
  apply (extract_uses_first_answer Fixtures.const_digest
           ExtractionConfig.default Samples.late_answer "Hello world." 2%nat).
  - vm_compute. lia.
  - intros [|[|j]] Hj; [cbn; eauto|cbn; eauto|lia].
  - reflexivity.
Defined.

(** X23. When every attempt of the oracle raises, up to [max_retries],
    [extract_with_confidence] does not raise: it returns no claims and an
    error record. *)
Theorem extract_gives_up_after_max_retries :
  forall sha cfg llm text,
    (forall j, (j < Z.to_nat (ExtractionConfig.max_retries cfg))%nat ->
               exists e, llm j = Raise e) ->
    exists msg,
      Extractor.extract_with_confidence sha cfg llm text
      = Ok ([], Extractor.MetaError msg).
Proof.
  intros sha cfg llm text Hfail.
  unfold Extractor.extract_with_confidence.
  destruct (String.eqb (PyStr.strip text) ""); [eauto|].
  destruct (retry_loop_all_fail llm _ 0%nat None Hfail) as [err ->]. eauto.
Qed.

Lemma extract_gives_up_after_max_retries_witness :
  exists msg,
    Extractor.extract_with_confidence Fixtures.const_digest
      ExtractionConfig.default (fun _ => Raise (OracleError "API Error"))
      "Hello world."
    = Ok ([], Extractor.MetaError msg).
Proof.
  apply (extract_gives_up_after_max_retries Fixtures.const_digest
           ExtractionConfig.default (fun _ => Raise (OracleError "API Error"))
           "Hello world.").
  intros j _. eauto.
Defined.

(** X24. On ASCII text, when the text of an entry occurs in the input,
    letter case apart, the repaired span is exact: whatever span the oracle
    reported, the new one lies inside the input, has the length of the text,
    and the input between its bounds is the text, letter case apart. *)
Theorem repair_span_exact :
  forall claim original_text,
    isascii original_text = true ->
    isascii (Extractor.c_text claim) = true ->
    0 <= PyStr.find (PyStr.lower original_text)
                    (PyStr.lower (Extractor.c_text claim)) ->
    let '(start, end_) := Extractor.repair_span claim original_text in
    0 <= start
    /\ end_ = start + PyStr.len (Extractor.c_text claim)
    /\ end_ <= PyStr.len original_text
    /\ PyStr.lower (PyStr.slice original_text start end_)
       = PyStr.lower (Extractor.c_text claim).
Proof.
  intros claim original_text _ _ Hfound.
  destruct (find_occurrence _ _ Hfound) as [Hle Hsl].
  rewrite !len_lower in *.
  unfold Extractor.repair_span.
  replace (PyStr.find (PyStr.lower original_text)
                      (PyStr.lower (Extractor.c_text claim)) >=? 0) with true
    by (symmetry; rewrite Z.geb_leb; now apply Z.leb_le).
  rewrite Z.min_l by assumption.
  repeat split; try assumption.
  now rewrite lower_slice.
Qed.

Lemma repair_span_exact_witness :
  Extractor.repair_span Samples.sky_entry "Today the sky is blue." = (6, 21)
  /\ PyStr.lower (PyStr.slice "Today the sky is blue." 6 21)
     = PyStr.lower "the SKY is blue".
Proof.
  split; [vm_compute; reflexivity|].
  pose proof (repair_span_exact Samples.sky_entry "Today the sky is blue."
                eq_refl eq_refl ltac:(vm_compute; discriminate)) as H.
  change (Extractor.repair_span Samples.sky_entry "Today the sky is blue.")
    with (6, 21) in H.
  exact (proj2 (proj2 (proj2 H))).
Defined.

(* ================================================================== *)
(** * The whole analysis *)

Section AnalysisFacts.
Import PyStr Detector.

Variable sha256_hexdigest : string -> string.
Variable encode : string -> list Q.

Lemma fold_left_Qplus l : forall a, (fold_left Qplus l a == a + Qsum l)%Q.
Proof.
  induction l as [|x l IH]; intro a; cbn [fold_left Qsum]; [lra|].
  rewrite IH. lra.
Qed.

Lemma py_sum_Qsum l : (py_sum l == Qsum l)%Q.
Proof. unfold py_sum. rewrite fold_left_Qplus. lra. Qed.

Lemma Qsum_unit_bounds l :
  Forall (fun x => (0 <= x <= 1)%Q) l ->
  (0 <= Qsum l <= inject_Z (Z.of_nat (List.length l)))%Q.
Proof.
  induction 1 as [|x l Hx Hl IH]; cbn [Qsum List.length].
  - unfold inject_Z, Qle. simpl. lia.
  - rewrite Nat2Z.inj_succ, <- Z.add_1_r, inject_Z_plus.
    change (inject_Z 1) with 1%Q. lra.
Qed.

(** The mean of rationals of [0, 1] is in [0, 1]. *)
Lemma mean_in_unit l :
  l <> [] ->
  Forall (fun x => (0 <= x <= 1)%Q) l ->
  in_unit (py_sum l / inject_Z (Z.of_nat (List.length l)))%Q = true.
Proof.
  intros Hne Hall. apply in_unit_iff.
  pose proof (Qsum_unit_bounds l Hall) as [H0 H1].
  assert (Hn : (0 < inject_Z (Z.of_nat (List.length l)))%Q).
  { destruct l; [contradiction|]. unfold inject_Z, Qlt. simpl. lia. }
  rewrite py_sum_Qsum. split.
  - apply Qle_shift_div_l; [assumption|]. lra.
  - apply Qle_shift_div_r; [assumption|]. lra.
Qed.

Lemma judge_ok cfg claim evidence llm v :
  Pipeline.judge cfg claim evidence llm = Ok v ->
  Verdict.claim v = claim
  /\ (0 <= Verdict.hallucination_risk v <= 1)%Q.
Proof.
  unfold Pipeline.judge.
  destruct (Alignment.evaluate claim evidence llm); [|discriminate].
  cbn [bind].
  destruct (Calibrator.calibrate _ _ _ _); [|discriminate].
  cbn [bind]. unfold Engine.compute. intro H.
  apply Verdict_new_ok in H as (-> & Hr & _). now split.
Qed.

Lemma process_ok cfg rows llm :
  forall claims calls verdicts,
    process encode cfg rows claims llm calls = Ok verdicts ->
    map Verdict.claim verdicts = claims
    /\ Forall (fun x => (0 <= x <= 1)%Q)
              (map Verdict.hallucination_risk verdicts).
Proof.
  induction claims as [|claim claims IH]; intros calls verdicts H;
    cbn [process] in H.
  - injection H as <-. split; [reflexivity|constructor].
  - destruct (Retriever.retrieve _ _ _ _ _) as [evidence|]; [|discriminate].
    cbn [bind] in H.
    destruct (Pipeline.judge _ _ _ _) as [v|] eqn:Ev; [|discriminate].
    cbn [bind] in H.
    destruct (process encode cfg rows claims llm _) as [rest|] eqn:Er;
      [|discriminate].
    cbn [bind] in H. injection H as <-.
    apply judge_ok in Ev as [Hc Hr]. apply IH in Er as [Hcs Hrs].
    cbn [map]. split; [now rewrite Hc, Hcs|now constructor].
Qed.

Lemma AnalysisResult_new_ok text claims verdicts risk summary meta r :
  AnalysisResult.new text claims verdicts risk summary meta = Ok r ->
  r = AnalysisResult.mk text claims verdicts risk summary meta.
Proof.
  unfold AnalysisResult.new.
  destruct (AnalysisResult.valid _); [|discriminate].
  now intros [= <-].
Qed.

(** What [analyze] returns, read off its two branches. *)
Lemma analyze_cases cfg rows extract_llm align_llm text r :
  analyze sha256_hexdigest encode cfg rows extract_llm align_llm text = Ok r ->
  exists claims meta,
    Extractor.extract_with_confidence sha256_hexdigest
      (Pipeline.extraction cfg) extract_llm text = Ok (claims, meta)
    /\ ((claims = []
         /\ r = AnalysisResult.mk text [] [] 0.0%Q
                  "No factual claims found in the text."
                  (AnalysisResult.mkMetadata meta None))
        \/ (claims <> []
            /\ exists verdicts,
                process encode cfg rows claims align_llm 0 = Ok verdicts
                /\ r = AnalysisResult.mk text claims verdicts
                         (py_sum (map Verdict.hallucination_risk verdicts)
                          / inject_Z (Z.of_nat (List.length verdicts)))%Q
                         (summarize verdicts)
                         (AnalysisResult.mkMetadata meta
                            (Some (stats rows))))).
Proof.
  unfold analyze.
  destruct (Extractor.extract_with_confidence _ _ _ _) as [[claims meta]|];
    [|discriminate].
  cbn [bind fst snd]. intro H. exists claims, meta. split; [reflexivity|].
  destruct claims as [|c claims]; cbn [nonempty negb] in H.
  - left. split; [reflexivity|]. now apply AnalysisResult_new_ok in H.
  - right. split; [discriminate|].
    destruct (process encode cfg rows (c :: claims) align_llm 0)
      as [verdicts|] eqn:Ep; [|discriminate].
    cbn [bind] in H. exists verdicts. split; [reflexivity|].
    apply process_ok in Ep as [Hc _].
    destruct verdicts as [|v verdicts]; [discriminate|].
    cbn [nonempty] in H. now apply AnalysisResult_new_ok in H.
Qed.

Lemma label_partition (verdicts : list Verdict.t) :
  (StructuredRenderer.labelled "GROUNDED" verdicts
   + StructuredRenderer.labelled "WEAK" verdicts
   + StructuredRenderer.labelled "HALLUCINATED" verdicts
   = List.length verdicts)%nat.
Proof.
  unfold StructuredRenderer.labelled.
  induction verdicts as [|v verdicts IH]; [reflexivity|].
  rewrite !count_cons. cbn [List.length].
  destruct (Verdict.label v); cbn; lia.
Qed.

Lemma evaluate_single_valid claim evidence outcome a :
  Alignment.evaluate_single claim evidence outcome = Ok a ->
  AlignmentResult.valid a = true.
Proof.
  assert (Hnew : forall cid eid label conf expl tm sem log ct neg ed cd,
             AlignmentResult.new cid eid label conf expl tm sem log ct neg ed cd
             = Ok a -> AlignmentResult.valid a = true).
  { intros until cd. unfold AlignmentResult.new.
    destruct (AlignmentResult.valid _) eqn:E; [|discriminate].
    now intros [= <-]. }
  unfold Alignment.evaluate_single, Alignment._heuristic_evaluate.
  destruct outcome as [res|e].
  - destruct (AlignmentLabel_of _); [|discriminate]. cbn [bind]. apply Hnew.
  - destruct (Alignment.heuristic_label _ _ _ _). apply Hnew.
Qed.

Lemma evaluate_valid claim llm evidence r :
  Alignment.evaluate claim evidence llm = Ok r ->
  Forall (fun a => AlignmentResult.valid a = true) r.
Proof.
  unfold Alignment.evaluate.
  destruct (negb (nonempty evidence)); [intros [= <-]; constructor|].
  generalize 0%nat. revert r.
  induction evidence as [|e evidence IH]; intros r i H;
    cbn [Alignment.evaluate_from] in H.
  - injection H as <-. constructor.
  - destruct (Alignment.evaluate_single claim e (llm i)) as [a|] eqn:Ea;
      [|discriminate].
    cbn [bind] in H.
    destruct (Alignment.evaluate_from claim evidence llm (S i)) as [rest|] eqn:Er;
      [|discriminate].
    cbn [bind] in H. injection H as <-.
    constructor; [now apply evaluate_single_valid in Ea|now apply (IH _ (S i))].
Qed.

Lemma compute_total cfg claim evidence alignments calibrated :
  VerdictConfig.valid cfg = true ->
  (VerdictConfig.confidence_weight cfg + VerdictConfig.evidence_weight cfg
   <= 1)%Q ->
  in_unit (CalibratedConfidence.raw_confidence calibrated) = true ->
  Forall (fun a => AlignmentResult.valid a = true) alignments ->
  exists v, Engine.compute cfg claim evidence alignments calibrated = Ok v.
Proof.
  intros Hcfg Hsum Hraw Hall. apply in_unit_iff in Hraw.
  pose proof (_compute_evidence_strength_in_unit alignments evidence Hall) as Hs.
  pose proof (hallucination_risk_in_unit cfg _ _
                (existsb (fun a => AlignmentLabel_eqb (AlignmentResult.label a)
                                                      CONTRADICTS) alignments)
                Hcfg Hsum Hraw Hs) as Hr.
  unfold Engine.compute, Verdict.new, Verdict.valid.
  cbn [Verdict.hallucination_risk Verdict.evidence_strength].
  apply in_unit_iff in Hr, Hs. rewrite Hr, Hs. cbn [andb]. eauto.
Qed.

End AnalysisFacts.

(** X25. Once the alignments are there, nothing after them fails: for a
    claim whose raw confidence is in [0, 1] and verdict weights in [0, 1]
    that sum to at most 1, [judge] returns a verdict whenever [evaluate]
    returns, so it can only raise what [evaluate] raises. *)
Theorem judge_raises_only_with_evaluate :
  forall cfg claim evidence llm alignments,
    VerdictConfig.valid (Pipeline.verdict cfg) = true ->
    (VerdictConfig.confidence_weight (Pipeline.verdict cfg)
     + VerdictConfig.evidence_weight (Pipeline.verdict cfg) <= 1)%Q ->
    in_unit (Claim.raw_confidence claim) = true ->
    Alignment.evaluate claim evidence llm = Ok alignments ->
    exists v,
      Pipeline.judge cfg claim evidence llm = Ok v
      /\ Verdict.claim v = claim
      /\ Verdict.alignments v = alignments.
Proof.
  intros cfg claim evidence llm alignments Hcfg Hsum Hraw He.
  unfold Pipeline.judge. rewrite He. cbn [bind].
  destruct (calibrate_total (Pipeline.calibration cfg) claim alignments
              evidence Hraw) as [cc Hcc].
  rewrite Hcc. cbn [bind].
  pose proof (calibrate_ok _ _ _ _ _ Hcc) as (Hr & _).
  destruct (compute_total (Pipeline.verdict cfg) claim evidence alignments cc
              Hcfg Hsum ltac:(now rewrite Hr) (evaluate_valid _ _ _ _ He))
    as [v Hv].
  exists v. split; [exact Hv|].
  unfold Engine.compute in Hv. apply Verdict_new_ok in Hv as (-> & _).
  split; reflexivity.
Qed.

Lemma judge_raises_only_with_evaluate_witness :
  exists v,
    Pipeline.judge Pipeline.default Fixtures.sample_claim
      Fixtures.sample_evidence Fixtures.failing_llm = Ok v
    /\ Verdict.claim v = Fixtures.sample_claim.
Proof.
  assert (He : exists alignments,
             Alignment.evaluate Fixtures.sample_claim Fixtures.sample_evidence
               Fixtures.failing_llm = Ok alignments)
    by (eexists; vm_compute; reflexivity).
  destruct He as [alignments He].
  destruct (judge_raises_only_with_evaluate Pipeline.default
              Fixtures.sample_claim Fixtures.sample_evidence
              Fixtures.failing_llm alignments eq_refl
              ltac:(vm_compute; discriminate) eq_refl He)
    as (v & Hv & Hc & _).
  exists v. now split.
Defined.

(** X26. What [analyze] returns fits together: the verdicts are the
    verdicts of the claims, one each and in their order, the claims are
    those of the extraction, the overall risk is the mean of the risks of
    the verdicts (0 without claims), and without claims the summary says
    so. *)
Theorem analyze_result :
  forall sha encode cfg rows extract_llm align_llm text r,
    Detector.analyze sha encode cfg rows extract_llm align_llm text = Ok r ->
    AnalysisResult.original_text r = text
    /\ map Verdict.claim (AnalysisResult.verdicts r) = AnalysisResult.claims r
    /\ (exists meta,
           Extractor.extract_with_confidence sha (Pipeline.extraction cfg)
             extract_llm text = Ok (AnalysisResult.claims r, meta)
           /\ AnalysisResult.extraction (AnalysisResult.metadata r) = meta)
    /\ (AnalysisResult.overall_hallucination_risk r
        * inject_Z (Z.of_nat (List.length (AnalysisResult.verdicts r)))
        == Qsum (map Verdict.hallucination_risk (AnalysisResult.verdicts r)))%Q
    /\ (AnalysisResult.claims r = [] ->
        (AnalysisResult.overall_hallucination_risk r == 0)%Q
        /\ AnalysisResult.summary r = "No factual claims found in the text.").
Proof.
  intros sha encode cfg rows extract_llm align_llm text r H.
  apply analyze_cases in H
    as (claims & meta & He & [(-> & ->) | (Hne & verdicts & Hp & ->)]);
    cbn [AnalysisResult.original_text AnalysisResult.verdicts
         AnalysisResult.claims AnalysisResult.metadata
         AnalysisResult.extraction AnalysisResult.overall_hallucination_risk
         AnalysisResult.summary map List.length Qsum].
  - split; [reflexivity|]. split; [reflexivity|].
    split; [eauto|]. split; [reflexivity|]. intros _. split; reflexivity.
  - apply process_ok in Hp as [Hc Hr].
    split; [reflexivity|]. split; [exact Hc|]. split; [eauto|].
    split; [|intro; contradiction].
    rewrite py_sum_Qsum.
    assert (Hn : ~ (inject_Z (Z.of_nat (List.length verdicts)) == 0)%Q).
    { destruct verdicts; [now subst claims|].
      unfold inject_Z, Qeq. simpl. lia. }
    field. exact Hn.
Qed.

Lemma analyze_result_witness :
  exists r,
    Detector.analyze Fixtures.const_digest Fixtures.encode_x Pipeline.default
      Fixtures.rows3 Samples.sky_answer Fixtures.mock_llm
      "The sky is blue. Blue is the best colour." = Ok r
    /\ List.length (AnalysisResult.claims r) = 1%nat
    /\ map Verdict.claim (AnalysisResult.verdicts r) = AnalysisResult.claims r.
Proof.
  eexists.
  match goal with
  | |- ?A /\ _ => assert (H : A) by (vm_compute; reflexivity)
  end.
  split; [exact H|]. split; [reflexivity|].
  exact (proj1 (proj2 (analyze_result Fixtures.const_digest Fixtures.encode_x
                         Pipeline.default Fixtures.rows3 Samples.sky_answer
                         Fixtures.mock_llm
                         "The sky is blue. Blue is the best colour." _ H))).
Defined.

(** X27. The last check of [analyze] never fails: when the extraction
    returns and, if there are claims, the loop over them returns, [analyze]
    returns, the mean of the risks being in [0, 1].  So [analyze] raises
    only what the extraction, the retrieval or the judgement of a claim
    raises. *)
Theorem analyze_raises_only_from_its_steps :
  forall sha encode cfg rows extract_llm align_llm text claims meta,
    Extractor.extract_with_confidence sha (Pipeline.extraction cfg)
      extract_llm text = Ok (claims, meta) ->
    (claims = []
     \/ exists verdicts,
         Detector.process encode cfg rows claims align_llm 0 = Ok verdicts) ->
    exists r,
      Detector.analyze sha encode cfg rows extract_llm align_llm text = Ok r.
Proof.
  intros sha encode cfg rows extract_llm align_llm text claims meta He Hp.
  unfold Detector.analyze. rewrite He. cbn [bind fst snd].
  destruct claims as [|c claims]; cbn [PyStr.nonempty negb].
  - unfold AnalysisResult.new, AnalysisResult.valid.
    cbn [AnalysisResult.overall_hallucination_risk].
    change (in_unit 0.0%Q) with true. cbv iota. eauto.
  - destruct Hp as [Hp | [verdicts Hp]]; [discriminate|].
    rewrite Hp. cbn [bind].
    apply process_ok in Hp as [Hc Hr].
    destruct verdicts as [|v verdicts]; [discriminate|].
    cbn [PyStr.nonempty]. unfold AnalysisResult.new, AnalysisResult.valid.
    cbn [AnalysisResult.overall_hallucination_risk].
    rewrite <- (length_map Verdict.hallucination_risk).
    rewrite mean_in_unit; [eauto|discriminate|exact Hr].
Qed.

Lemma analyze_raises_only_from_its_steps_witness :
  exists r,
    Detector.analyze Fixtures.const_digest Fixtures.encode_x Pipeline.default
      Fixtures.rows3 Samples.rain_answer Fixtures.mock_llm
      "They say it might rain tomorrow." = Ok r.
Proof.
  refine (analyze_raises_only_from_its_steps Fixtures.const_digest
            Fixtures.encode_x Pipeline.default Fixtures.rows3 Samples.rain_answer
            Fixtures.mock_llm "They say it might rain tomorrow." _ _ _ _).
  - vm_compute. reflexivity.
  - right. eexists. vm_compute. reflexivity.
Defined.

(** X28. The web view of a result of [analyze] is coherent with the text:
    the three counts of [statistics] sum to [claims_count], there is one
    highlight per claim, in order and under the id of its claim, and every
    highlight ends inside the analysed text, no earlier than it starts. *)
Theorem render_for_web_coherent :
  forall sha encode cfg rows extract_llm align_llm text r,
    Detector.analyze sha encode cfg rows extract_llm align_llm text = Ok r ->
    let stats := StructuredRenderer.statistics r in
    (StructuredRenderer.grounded stats + StructuredRenderer.weak stats
     + StructuredRenderer.hallucinated stats
     = StructuredRenderer.claims_count r)%nat
    /\ map StructuredRenderer.h_claim_id (StructuredRenderer.highlighted_claims r)
       = map Claim.id (AnalysisResult.claims r)
    /\ Forall (fun h => StructuredRenderer.h_start h <= StructuredRenderer.h_end h
                        /\ StructuredRenderer.h_end h
                           <= PyStr.len (AnalysisResult.original_text r))
              (StructuredRenderer.highlighted_claims r).
Proof.
  intros sha encode cfg rows extract_llm align_llm text r H.
  assert (Hshape :
            AnalysisResult.original_text r = text
            /\ map Verdict.claim (AnalysisResult.verdicts r)
               = AnalysisResult.claims r
            /\ Forall (fun c => fst (Claim.source_span c)
                                <= snd (Claim.source_span c)
                                /\ snd (Claim.source_span c) <= PyStr.len text)
                      (AnalysisResult.claims r)).
  { apply analyze_cases in H
      as (claims & meta & He & [(-> & ->) | (Hne & verdicts & Hp & ->)]);
      cbn [AnalysisResult.original_text AnalysisResult.verdicts
           AnalysisResult.claims map].
    - repeat split; constructor.
    - apply process_ok in Hp as [Hc _].
      split; [reflexivity|]. split; [exact Hc|].
      apply (convert_kept_spans sha (Pipeline.extraction cfg) extract_llm
               text claims meta He). }
  destruct Hshape as (Ht & Hc & Hs). cbv zeta.
  unfold StructuredRenderer.statistics, StructuredRenderer.claims_count,
    StructuredRenderer.highlighted_claims.
  cbn [StructuredRenderer.grounded StructuredRenderer.weak
       StructuredRenderer.hallucinated].
  split; [rewrite label_partition, <- Hc; symmetry; apply length_map|].
  split; [rewrite map_map; cbn [StructuredRenderer.h_claim_id];
          now rewrite <- Hc, map_map|].
  rewrite Ht, <- Hc in *. rewrite Forall_map in *.
  eapply Forall_impl; [|exact Hs]. intros v Hv. exact Hv.
Qed.

Lemma render_for_web_coherent_witness :
  exists r,
    Detector.analyze Fixtures.const_digest Fixtures.encode_x Pipeline.default
      Fixtures.rows3 Samples.sky_answer Fixtures.mock_llm
      "The sky is blue. Blue is the best colour." = Ok r
    /\ StructuredRenderer.claims_count r = 1%nat
    /\ Forall (fun h => StructuredRenderer.h_start h <= StructuredRenderer.h_end h
                        /\ StructuredRenderer.h_end h
                           <= PyStr.len (AnalysisResult.original_text r))
              (StructuredRenderer.highlighted_claims r).
Proof.
  eexists.
  match goal with
  | |- ?A /\ _ => assert (H : A) by (vm_compute; reflexivity)
  end.
  split; [exact H|]. split; [reflexivity|].
  exact (proj2 (proj2 (render_for_web_coherent Fixtures.const_digest
                         Fixtures.encode_x Pipeline.default Fixtures.rows3
                         Samples.sky_answer Fixtures.mock_llm
                         "The sky is blue. Blue is the best colour." _ H))).
Defined.
